(** * Cucitura Check: the site-analysis pipeline

    A shallow embedding of the two analysis pipelines of the repository:

    - [Lib]: the library [analyzeSite] (cheerio based; URL normaliser,
      markup fetcher, SEO / trust / CTA extraction, issue synthesis, PageSpeed
      client without retry, score aggregation);
    - [Route]: the self-contained route handler [POST] of
      [src/app/api/analyze/route.ts] (regex based extraction, PageSpeed client
      with the keyless retry, degraded report when the page cannot be fetched);
    - [Tracking], [Cors], [Ui]: the tracking detector of the route file, the
      route that serves the library behind an allow-list of origins, and the
      issue labels of the page.

    Conventions.  A JS string is a [string]; [trim], [toLowerCase],
    [includes] and [length] are the JS operations on ASCII text (the
    whitespace and case mappings outside ASCII are not modelled).  A JS number
    that the code keeps integral (a penalty score, the result of
    [Math.round]) is a [Z]; the fractional arithmetic (category score times
    100, the weighted totals) is carried out on binary64 floats, as in JS.
    The network, the [URL] class, cheerio and the environment are the
    platform: they are the fields of a [World]. *)

From Stdlib Require Import ZArith List Bool String Ascii Lia.
From Stdlib Require Import Permutation Sorted.
From Stdlib Require Import Floats.PrimFloat Floats.SpecFloat Floats.FloatOps.
From Stdlib Require Import Numbers.DecimalString.
Import ListNotations.

Set Warnings "-inexact-float".
Set Implicit Arguments.

(* ================================================================= *)
(** * The JavaScript platform *)

Module JS.

Local Open Scope string_scope.

(** ** Strings *)

(** [WhiteSpace] and [LineTerminator] code points below 128. *)
Definition isWhiteSpace (c : ascii) : bool :=
  let n := nat_of_ascii c in
  ((9 <=? n) && (n <=? 13) || (n =? 32))%nat.

Fixpoint trimStart (s : string) : string :=
  match s with
  | String c s' => if isWhiteSpace c then trimStart s' else s
  | EmptyString => EmptyString
  end.

Fixpoint trimEnd (s : string) : string :=
  match s with
  | EmptyString => EmptyString
  | String c s' =>
      match trimEnd s' with
      | EmptyString => if isWhiteSpace c then EmptyString else String c EmptyString
      | t => String c t
      end
  end.

(** [String.prototype.trim] *)
Definition trim (s : string) : string := trimEnd (trimStart s).

Definition lowerChar (c : ascii) : ascii :=
  let n := nat_of_ascii c in
  if ((65 <=? n) && (n <=? 90))%nat then ascii_of_nat (n + 32) else c.

(** [String.prototype.toLowerCase] *)
Fixpoint toLowerCase (s : string) : string :=
  match s with
  | EmptyString => EmptyString
  | String c s' => String (lowerChar c) (toLowerCase s')
  end.

(** [s.includes(p)] *)
Fixpoint includes (s p : string) : bool :=
  String.prefix p s
  || match s with
     | EmptyString => false
     | String _ s' => includes s' p
     end.

(** Truthiness of a string: [!!s]. *)
Definition truthy (s : string) : bool := negb (s =? "").

(** [o || ""] for a value that is a string or [undefined]. *)
Definition orEmpty (o : option string) : string :=
  match o with Some s => s | None => "" end.

(** [arr.includes(x)] on an array of strings. *)
Definition Array_includes (arr : list string) (x : string) : bool :=
  existsb (String.eqb x) arr.

(** A number inside a template literal; only naturals occur. *)
Definition string_of_nat (n : nat) : string :=
  NilEmpty.string_of_uint (Nat.to_uint n).

(** [s.slice(0, n)] *)
Fixpoint slice0 (n : nat) (s : string) : string :=
  match n, s with
  | S n', String c s' => String c (slice0 n' s')
  | _, _ => EmptyString
  end.

(** ** Numbers *)

(** The real value of a finite binary64 [x] is [v * 2 ^ e]; [Math.round]
    returns the greatest integer not above [x + 1/2] (ties go up).  For NaN
    and the infinities [Math.round] returns its argument, which no integer
    denotes: the model gives 0 there, and [isFinite] tells the cases apart. *)
Definition Math_round (x : float) : Z :=
  match Prim2SF x with
  | S754_finite s m e =>
      let v := if s then Z.neg m else Z.pos m in
      if (0 <=? e)%Z then (v * 2 ^ e)%Z
      else ((2 * v + 2 ^ (- e)) / 2 ^ (- e + 1))%Z
  | _ => 0%Z
  end.

(** The same integer with shifts in place of powers (see [Math_round_shift_eq]). *)
Definition Math_round_shift (x : float) : Z :=
  match Prim2SF x with
  | S754_finite s m e =>
      let v := if s then Z.neg m else Z.pos m in
      if (0 <=? e)%Z then Z.shiftl v e
      else Z.shiftr (Z.shiftr v (- e - 1) + 1) 1
  | _ => 0%Z
  end.

Definition isFinite (x : float) : bool := PrimFloat.is_finite x.

(** The binary64 nearest to an integer (exact up to 2^53). *)
Definition Number (z : Z) : float :=
  SF2Prim (binary_normalize prec emax z 0 false).

(** ** Errors and results *)

Record JsError := { name : string; message : string }.

(** [new Error(msg)] *)
Definition Error (msg : string) : JsError := {| name := "Error"; message := msg |}.

(** [Error.prototype.toString] *)
Definition Error_toString (e : JsError) : string :=
  if name e =? "" then message e
  else if message e =? "" then name e
  else name e ++ ": " ++ message e.

(** What can be thrown: zod's validation error, or an error object. *)
Inductive Exn :=
| ZodError
| Thrown (e : JsError).

Inductive result (E A : Type) :=
| Ok (a : A)
| Err (e : E).
Arguments Ok {E A} a.
Arguments Err {E A} e.

(** ** Arrays *)

(** [Array.prototype.sort] with a comparator is a stable sort: going from
    the last element to the first, each element is put in front of the
    sorted elements that followed it, up to the first one it does not
    compare above. *)
Section Sort.
Variable A : Type.
Variable cmp : A -> A -> Z.

Fixpoint insert (x : A) (l : list A) : list A :=
  match l with
  | [] => [x]
  | y :: l' => if (cmp x y <=? 0)%Z then x :: l else y :: insert x l'
  end.

Definition Array_sort (l : list A) : list A := fold_right insert [] l.
End Sort.

(** ** The network *)

(** What a request is addressed to: a page, or the PageSpeed endpoint
    [https://www.googleapis.com/pagespeedonline/v5/runPagespeed] with its
    query parameters in order. *)
Inductive Target :=
| Page (url : string)
| PageSpeedApi (params : list (string * string)).

(** [URLSearchParams.set]: replaces the first pair named [k] and drops the
    others, or appends. *)
Fixpoint params_drop (k : string) (ps : list (string * string)) :=
  match ps with
  | [] => []
  | (k', v') :: ps' =>
      if k' =? k then params_drop k ps' else (k', v') :: params_drop k ps'
  end.

Fixpoint params_set (k v : string) (ps : list (string * string)) :=
  match ps with
  | [] => [(k, v)]
  | (k', v') :: ps' =>
      if k' =? k then (k, v) :: params_drop k ps' else (k', v') :: params_set k v ps'
  end.

Definition params_append (k v : string) (ps : list (string * string)) :=
  (ps ++ [(k, v)])%list.

Definition params_has (k : string) (ps : list (string * string)) : bool :=
  existsb (fun kv => fst kv =? k) ps.

(** The view of the PageSpeed response document that the code reads. *)
Inductive Category := cat_performance | cat_seo | cat_best_practices | cat_accessibility.

Inductive Audit :=
| largest_contentful_paint
| cumulative_layout_shift
| interaction_to_next_paint
| interactive_to_next_paint
| total_byte_weight.

Record Json := {
  (** [j.error.message] *)
  error_message : option string;
  (** [j.lighthouseResult.categories[id].score]: [None] when a link of the
      chain is missing or the score is [null] *)
  category_score : Category -> option float;
  (** whether [j.lighthouseResult.audits[id]] is there *)
  audit_present : Audit -> bool;
  (** [j.lighthouseResult.audits[id].numericValue], when it is a number *)
  audit_numericValue : Audit -> option float;
  (** the length of [audits["network-requests"].details.items] when it is an array *)
  network_requests_items : option nat;
  (** [j.lighthouseResult.finalUrl] *)
  lighthouse_finalUrl : option string
}.

Record HttpResponse := {
  status : nat;
  res_url : string;
  (** [res.headers.get("content-type")] *)
  content_type : option string;
  (** [await res.text()] *)
  res_text : result JsError string;
  (** [await res.json()] *)
  res_json : result JsError Json
}.

(** [res.ok] *)
Definition res_ok (r : HttpResponse) : bool :=
  ((200 <=? status r) && (status r <=? 299))%nat.

(** The answer of the network to the [n]-th request of the run. *)
Definition Net := nat -> Target -> result JsError HttpResponse.

(** Asynchronous code: a computation reads the log of the requests made so
    far, may throw, and extends the log. *)
Definition IO (A : Type) : Type := list Target -> result Exn A * list Target.

Definition ret {A} (a : A) : IO A := fun log => (Ok a, log).

Definition throw {A} (e : Exn) : IO A := fun log => (Err e, log).

Definition bind {A B} (c : IO A) (k : A -> IO B) : IO B :=
  fun log =>
    match c log with
    | (Ok a, log') => k a log'
    | (Err e, log') => (Err e, log')
    end.

(** [try { c } catch (e) { h e }] *)
Definition try_catch {A} (c : IO A) (h : Exn -> IO A) : IO A :=
  fun log =>
    match c log with
    | (Ok a, log') => (Ok a, log')
    | (Err e, log') => h e log'
    end.

(** A synchronous call that may throw. *)
Definition lift {A} (r : result Exn A) : IO A := fun log => (r, log).

(** [await fetch(t)] *)
Definition fetch (net : Net) (t : Target) : IO HttpResponse :=
  fun log =>
    (match net (List.length log) t with
     | Ok r => Ok r
     | Err e => Err (Thrown e)
     end, (log ++ [t])%list).

(** [await p] for the promise of a body reader. *)
Definition await {A} (r : result JsError A) : IO A :=
  lift (match r with Ok a => Ok a | Err e => Err (Thrown e) end).

(** [try { c }] with the outcome as a value, for a handler that goes on with
    the variables assigned before the throw. *)
Definition reify {A} (c : IO A) : IO (result Exn A) :=
  fun log => let (r, log') := c log in (Ok r, log').

Definition run {A} (c : IO A) : result Exn A * list Target := c [].

(** [String(e?.message || e)].  The message of a zod error is a rendering of
    its issue list, which is not modelled; its name stands for it. *)
Definition String_of_thrown (e : Exn) : string :=
  match e with
  | ZodError => "ZodError"
  | Thrown e => if truthy (message e) then message e else Error_toString e
  end.

End JS.

Declare Scope io_scope.
Delimit Scope io_scope with io.
Notation "x <- c ;; k" := (JS.bind c (fun x => k))
  (at level 61, c at next level, right associativity) : io_scope.

(* ================================================================= *)
(** * The library: [analyzeSite] *)

Module Lib.
Import JS.
Local Open Scope string_scope.
Local Open Scope list_scope.
Local Open Scope io_scope.

Inductive Severity := critical | high | medium | low.

(** [fix] is the remediation text. *)
Record Issue := { key : string; severity : Severity; fix_ : string }.

(** What [new URL(s)] exposes to the code. *)
Record URL := { hostname : string; href : string }.

(** The elements selected by [$("a,button")]. *)
Inductive Tag := tag_a | tag_button.

Record Element := {
  tag : Tag;
  (** [$(el).attr("href")] *)
  attr_href : option string;
  (** [$(el).text()] *)
  text : string
}.

(** The answers of the parsed document to the selectors the code uses. *)
Record Dom := {
  (** [$("title").first().text()] *)
  dom_title : string;
  (** [$('meta[name="description"]').attr("content")] *)
  dom_meta_description : option string;
  (** the text of every [h1], in document order *)
  dom_h1 : list string;
  (** [$('link[rel="canonical"]').attr("href")] *)
  dom_canonical : option string;
  (** [$('meta[name="robots"]').attr("content")] *)
  dom_robots : option string;
  dom_og_title : option string;
  dom_og_description : option string;
  dom_og_image : option string;
  (** [$("a,button")], in document order *)
  dom_a_button : list Element
}.

Record World := {
  (** [new URL(s)]; [None] when the constructor throws *)
  URL_new : string -> option URL;
  (** [cheerio.load(html)] *)
  cheerio_load : string -> Dom;
  (** [process.env.PAGESPEED_API_KEY] *)
  PAGESPEED_API_KEY : option string;
  net : Net
}.

(** ** normalizeUrl *)

(** [raw.match(/^https?:\/\//i)] *)
Definition hasHttpPrefix (raw : string) : bool :=
  let l := toLowerCase raw in
  String.prefix "http://" l || String.prefix "https://" l.

Definition withProto (raw : string) : string :=
  if hasHttpPrefix raw then raw else ("https://" ++ raw)%string.

Definition disallowedHosts : list string := ["localhost"; "127.0.0.1"; "0.0.0.0"].

Definition invalidUrl : Exn := Thrown (Error "URL non valido. Esempio: https://miosito.com").
Definition hostNotAllowed : Exn := Thrown (Error "Dominio non consentito.").

(** [InputSchema.parse]: [z.string().min(1)] *)
Definition InputSchema_parse (input : string) : result Exn string :=
  if (1 <=? String.length input)%nat then Ok input else Err ZodError.

Definition normalizeUrl (w : World) (input : string) : result Exn string :=
  match InputSchema_parse input with
  | Err e => Err e
  | Ok parsed =>
      let raw := trim parsed in
      match URL_new w (withProto raw) with
      | None => Err invalidUrl
      | Some url =>
          let host := toLowerCase (hostname url) in
          if Array_includes disallowedHosts host then Err hostNotAllowed
          else Ok (href url)
      end
  end.

(** ** fetchHtml *)

Record FetchResult := { html : string; finalUrl : string; status : nat }.

Definition notHtml (ct : string) : Exn :=
  Thrown (Error ("La risorsa non è HTML (content-type: " ++ ct ++ ").")%string).

Definition fetchHtml (w : World) (url : string) : IO FetchResult :=
  res <- fetch (net w) (Page url) ;;
  let ct := orEmpty (content_type res) in
  if negb (includes ct "text/html") then throw (notHtml ct)
  else
    html <- await (res_text res) ;;
    ret {| html := html; finalUrl := res_url res; status := JS.status res |}.

(** ** Extraction *)

Definition detectPlatform (html : string) : string :=
  let h := toLowerCase html in
  if includes h "cdn.shopify.com" || includes h "x-shopify" then "Shopify"
  else if includes h "woocommerce" || includes h "wp-content" then "WooCommerce/WordPress"
  else if includes h "magento" then "Magento"
  else if includes h "prestashop" then "PrestaShop"
  else if includes h "bigcommerce" then "BigCommerce"
  else "Sconosciuta/Custom".

Definition textLen (s : string) : nat := String.length (trim s).

Record Trust := {
  contact : bool; shipping : bool; returns : bool;
  privacy : bool; terms : bool; faq : bool
}.

Record Link := { link_href : string; label : string }.

(** The [links] array of [findTrustLinks]: one entry per [a[href]] whose
    trimmed href is not empty. *)
Definition trustLinks (d : Dom) : list Link :=
  flat_map
    (fun a =>
       match tag a, attr_href a with
       | tag_a, Some h =>
           let href := toLowerCase (trim h) in
           let label := toLowerCase (trim (text a)) in
           if negb (truthy href) then [] else [{| link_href := href; label := label |}]
       | _, _ => []
       end)
    (dom_a_button d).

Definition findTrustLinks (d : Dom) : Trust :=
  let links := trustLinks d in
  let has (patterns : list string) :=
    existsb (fun l => existsb (fun p => includes (label l) p || includes (link_href l) p) patterns) links in
  {| contact := has ["contatt"; "contact"; "assistenza"; "support"; "help"];
     shipping := has ["sped"; "shipping"; "delivery"; "consegna"];
     returns := has ["reso"; "return"; "cambi"; "refund"];
     privacy := has ["privacy"; "gdpr"; "cookie"];
     terms := has ["termini"; "terms"; "condizioni"];
     faq := has ["faq"; "domande"] |}.

Record OpenGraph := { ogTitle : string; ogDesc : string; ogImage : string }.

Record SeoChecks := {
  title : string;
  metaDesc : string;
  h1Text : string;
  canonical : string;
  robots : string;
  openGraph : OpenGraph;
  seo_issues : list Issue
}.

Definition seoChecks (d : Dom) : SeoChecks :=
  let title := dom_title d in
  let metaDesc := orEmpty (dom_meta_description d) in
  let h1 := dom_h1 d in
  let canonical := orEmpty (dom_canonical d) in
  let robots := orEmpty (dom_robots d) in
  let ogTitle := orEmpty (dom_og_title d) in
  let ogDesc := orEmpty (dom_og_description d) in
  let ogImage := orEmpty (dom_og_image d) in
  let issues : list Issue := [] in
  let tLen := textLen title in
  let issues :=
    if (tLen =? 0)%nat then
      issues ++ [{| key := "seo.title.missing"; severity := high;
                    fix_ := "Aggiungi un <title> unico per la homepage." |}]
    else if ((tLen <? 25) || (65 <? tLen))%nat then
      issues ++ [{| key := "seo.title.length"; severity := medium;
                    fix_ := ("Ottimizza il title (attuale " ++ string_of_nat tLen ++ " caratteri).")%string |}]
    else issues in
  let dLen := textLen metaDesc in
  let issues :=
    if (dLen =? 0)%nat then
      issues ++ [{| key := "seo.metadesc.missing"; severity := high;
                    fix_ := "Aggiungi meta description per aumentare CTR su Google." |}]
    else if ((dLen <? 70) || (170 <? dLen))%nat then
      issues ++ [{| key := "seo.metadesc.length"; severity := medium;
                    fix_ := ("Ottimizza la description (attuale " ++ string_of_nat dLen ++ " caratteri).")%string |}]
    else issues in
  let issues :=
    if (List.length h1 =? 0)%nat then
      issues ++ [{| key := "seo.h1.missing"; severity := high;
                    fix_ := "Inserisci un H1 chiaro (proposta di valore)." |}]
    else if (1 <? List.length h1)%nat then
      issues ++ [{| key := "seo.h1.multiple"; severity := low;
                    fix_ := "Mantieni 1 solo H1 principale per pagina." |}]
    else issues in
  let issues :=
    if negb (truthy canonical) then
      issues ++ [{| key := "seo.canonical.missing"; severity := low;
                    fix_ := "Imposta canonical per evitare duplicazioni." |}]
    else issues in
  let issues :=
    if includes (toLowerCase robots) "noindex" then
      issues ++ [{| key := "seo.noindex"; severity := critical;
                    fix_ := "Rimuovi noindex dalla homepage (se non voluto)." |}]
    else issues in
  let issues :=
    if negb (truthy ogTitle) || negb (truthy ogDesc) || negb (truthy ogImage) then
      issues ++ [{| key := "seo.opengraph.incomplete"; severity := low;
                    fix_ := "Completa OpenGraph (og:title/og:description/og:image) per anteprime social." |}]
    else issues in
  {| title := title;
     metaDesc := metaDesc;
     h1Text := match h1 with t :: _ => trim t | [] => "" end;
     canonical := canonical;
     robots := robots;
     openGraph := {| ogTitle := ogTitle; ogDesc := ogDesc; ogImage := ogImage |};
     seo_issues := issues |}.

(** ** Scores *)

Definition penalty (s : Severity) : Z :=
  match s with
  | critical => 25
  | high => 15
  | medium => 8
  | low => 3
  end.

Definition scoreFromIssues (issues : list Issue) : Z :=
  let score := fold_left (fun score it => score - penalty (severity it))%Z issues 100%Z in
  Z.max 0 (Z.min 100 score).

(** The [?? 9] of the source is for a value outside the four severities. *)
Definition severityRank (sev : Severity) : Z :=
  match sev with
  | critical => 0
  | high => 1
  | medium => 2
  | low => 3
  end.

(** ** runPageSpeed *)

Record PageSpeedScores := {
  psi_performance : Z; psi_seo : Z; bestPractices : Z; accessibility : Z
}.

Record PageSpeedMetrics := {
  lcpMs : option float; cls : option float; inpMs : option float
}.

Record PageSpeedResult := { psi_scores : PageSpeedScores; metrics : PageSpeedMetrics }.

(** [Math.round((cat?.score ?? 0) * 100)] *)
Definition percent (score : option float) : Z :=
  Math_round ((match score with Some s => s | None => 0 end) * 100)%float.

Definition pageSpeedError (status : nat) : Exn :=
  Thrown (Error ("PageSpeed API error (" ++ string_of_nat status ++ ")")%string).

Definition runPageSpeed (w : World) (url strategy : string) : IO PageSpeedResult :=
  let key := orEmpty (PAGESPEED_API_KEY w) in
  let qs := [("url", url); ("strategy", strategy)] in
  let qs := params_append "category" "performance" qs in
  let qs := params_append "category" "seo" qs in
  let qs := params_append "category" "best-practices" qs in
  let qs := params_append "category" "accessibility" qs in
  let qs := if truthy key then params_set "key" key qs else qs in
  res <- fetch (net w) (PageSpeedApi qs) ;;
  if negb (res_ok res) then throw (pageSpeedError (JS.status res))
  else
    json <- await (res_json res) ;;
    let cats := category_score json in
    let audits := audit_numericValue json in
    ret {| psi_scores :=
             {| psi_performance := percent (cats cat_performance);
                psi_seo := percent (cats cat_seo);
                bestPractices := percent (cats cat_best_practices);
                accessibility := percent (cats cat_accessibility) |};
           metrics :=
             {| lcpMs := audits largest_contentful_paint;
                cls := audits cumulative_layout_shift;
                inpMs := audits interaction_to_next_paint |} |}.

(** ** analyzeSite *)

(** [psi]: the PageSpeed result, or the object [{ error }] of the catch. *)
Inductive Psi :=
| PsiData (r : PageSpeedResult)
| PsiError (error : string).

Record Scores := {
  total : Z;
  performance : option Z;
  seo : Z;
  ux : Z;
  trust : Z
}.

Record ReportSeo := {
  r_title : string; r_metaDesc : string; r_h1 : string;
  r_canonical : string; r_robots : string; r_openGraph : OpenGraph
}.

Record Report := {
  input : string;
  r_finalUrl : string;
  httpStatus : nat;
  platform : string;
  scores : Scores;
  pagespeed : Psi;
  r_seo : ReportSeo;
  r_trust : Trust;
  issues : list Issue;
  quickWins : list string
}.

(** Lines 185-190. *)
Definition trustIssues (trust : Trust) : list Issue :=
  (if negb (contact trust) then
     [{| key := "trust.contact.missing"; severity := high;
         fix_ := "Rendi visibili Contatti/Assistenza (header o footer)." |}] else [])
  ++ (if negb (shipping trust) then
     [{| key := "trust.shipping.missing"; severity := high;
         fix_ := "Aggiungi pagina Spedizioni e linkala nel footer." |}] else [])
  ++ (if negb (returns trust) then
     [{| key := "trust.returns.missing"; severity := high;
         fix_ := "Aggiungi pagina Resi/Cambi vicino alle CTA prodotto." |}] else [])
  ++ (if negb (privacy trust) then
     [{| key := "trust.privacy.missing"; severity := medium;
         fix_ := "Linka Privacy/Cookie policy nel footer." |}] else [])
  ++ (if negb (terms trust) then
     [{| key := "trust.terms.missing"; severity := low;
         fix_ := "Aggiungi Termini e Condizioni nel footer." |}] else []).

(** Lines 192-193. *)
Definition hasPrimaryCta (d : Dom) : bool :=
  let btnTexts := map (fun el => toLowerCase (trim (text el))) (dom_a_button d) in
  existsb
    (fun t => existsb (fun k => includes t k) ["acquista"; "shop"; "scopri"; "compra"; "aggiungi"])
    btnTexts.

(** Lines 194-195. *)
Definition uxIssues (hasPrimaryCta : bool) : list Issue :=
  if negb hasPrimaryCta then
    [{| key := "ux.cta.unclear"; severity := medium;
        fix_ := "Inserisci una CTA primaria chiara sopra la piega (es. 'Scopri i prodotti')." |}]
  else [].

Definition Severity_eqb (a b : Severity) : bool :=
  match a, b with
  | critical, critical | high, high | medium, medium | low, low => true
  | _, _ => false
  end.

(** Everything [analyzeSite] computes once the page and the PageSpeed outcome
    are there (lines 179-195 and 204-248); nothing in it awaits. *)
Definition report (inputUrl : string) (page : FetchResult) (d : Dom) (psi : Psi) : Report :=
  let platform := detectPlatform (html page) in
  let trust := findTrustLinks d in
  let seo := seoChecks d in
  let trustIssues := trustIssues trust in
  let uxIssues := uxIssues (hasPrimaryCta d) in
  let issues :=
    Array_sort (fun a b => severityRank (severity a) - severityRank (severity b))%Z
               (seo_issues seo ++ trustIssues ++ uxIssues) in
  let trustScore := scoreFromIssues trustIssues in
  let uxScore := scoreFromIssues uxIssues in
  let perfScore :=
    match psi with
    | PsiData r => Some (psi_performance (psi_scores r))
    | PsiError _ => None
    end in
  let seoScore :=
    match psi with
    | PsiData r => psi_seo (psi_scores r)
    | PsiError _ => scoreFromIssues (seo_issues seo)
    end in
  let total :=
    match perfScore with
    | Some perfScore =>
        Math_round (0.35 * Number perfScore + 0.3 * Number uxScore
                    + 0.2 * Number seoScore + 0.15 * Number trustScore)%float
    | None =>
        Math_round (0.4 * Number seoScore + 0.35 * Number uxScore
                    + 0.25 * Number trustScore)%float
    end in
  let quickWins :=
    map fix_
        (firstn 7
           (filter (fun i => existsb (Severity_eqb (severity i)) [critical; high; medium])
                   issues)) in
  {| input := inputUrl;
     r_finalUrl := finalUrl page;
     httpStatus := status page;
     platform := platform;
     scores := {| total := total; performance := perfScore; seo := seoScore;
                  ux := uxScore; trust := trustScore |};
     pagespeed := psi;
     r_seo := {| r_title := title seo; r_metaDesc := metaDesc seo; r_h1 := h1Text seo;
                 r_canonical := canonical seo; r_robots := robots seo;
                 r_openGraph := openGraph seo |};
     r_trust := trust;
     issues := issues;
     quickWins := quickWins |}.

Definition analyzeSite (w : World) (inputUrl : string) : IO Report :=
  url <- lift (normalizeUrl w inputUrl) ;;
  page <- fetchHtml w url ;;
  let d := cheerio_load w (html page) in
  psi <- try_catch (r <- runPageSpeed w (finalUrl page) "mobile" ;; ret (PsiData r))
                   (fun e => ret (PsiError (String_of_thrown e))) ;;
  ret (report inputUrl page d psi).

End Lib.

(* ================================================================= *)
(** * The route handler of [src/app/api/analyze/route.ts] *)

Module Route.
Import JS.
Local Open Scope string_scope.
Local Open Scope list_scope.
Local Open Scope io_scope.

Definition normalizeUrl (input : string) : option string :=
  let s := trim input in
  if negb (truthy s) then None
  else if Lib.hasHttpPrefix s then Some s
  else Some ("https://" ++ s)%string.

Definition detectPlatform (html : string) : string :=
  let h := toLowerCase html in
  if includes h "cdn.shopify.com" || includes h "shopify" then "Shopify"
  else if includes h "wp-content" || includes h "wordpress" then "WordPress"
  else "Sconosciuta/Custom".

Record Trust := {
  contact : bool; shipping : bool; returns : bool;
  privacy : bool; terms : bool; faq : bool
}.

Definition computeTrustScore (trust : Trust) : Z :=
  let score := 100%Z in
  let score := if negb (shipping trust) then (score - 15)%Z else score in
  Z.max 0 (Z.min 100 score).

Definition weightedTotal (perf seo ux trust : Z) : Z :=
  let total := (0.35 * Number perf + 0.25 * Number seo + 0.2 * Number ux + 0.2 * Number trust)%float in
  Math_round total.

(** [bytesToKB]: [None] is [null]. *)
Definition bytesToKB (bytes : option float) : option float :=
  match bytes with
  | Some b =>
      if negb (isFinite b) then None
      else Some (Number (Math_round ((b / 1024) * 10)) / 10)%float
  | None => None
  end.

Record PageStats := { totalWeightKB : option float; requestsCount : option nat }.

Definition extractPageStats (pagespeedJson : Json) : PageStats :=
  let totalBytes := audit_numericValue pagespeedJson total_byte_weight in
  {| totalWeightKB := bytesToKB totalBytes;
     requestsCount := network_requests_items pagespeedJson |}.

(** [/class=["'][^"']*(btn|button)[^"']*["']/i.test(html)]: somewhere
    [class=] is followed by a quote, a run without quotes that contains
    [btn] or [button], and a quote. *)
Definition isQuote (c : ascii) : bool :=
  let n := nat_of_ascii c in ((n =? 34) || (n =? 39))%nat.

Fixpoint spanNoQuote (s : string) : string * string :=
  match s with
  | EmptyString => (EmptyString, EmptyString)
  | String c s' =>
      if isQuote c then (EmptyString, s)
      else let (run, rest) := spanNoQuote s' in (String c run, rest)
  end.

Definition classButtonHere (s : string) : bool :=
  if String.prefix "class=" s then
    match String.substring 6 (String.length s - 6) s with
    | String q s' =>
        if isQuote q then
          let (run, rest) := spanNoQuote s' in
          match rest with
          | String _ _ => includes run "btn" || includes run "button"
          | EmptyString => false
          end
        else false
    | EmptyString => false
    end
  else false.

Fixpoint somewhere (f : string -> bool) (s : string) : bool :=
  f s || match s with
         | EmptyString => false
         | String _ s' => somewhere f s'
         end.

Definition classButton (html : string) : bool :=
  somewhere classButtonHere (toLowerCase html).

(** ** runPageSpeed, with the keyless retry *)

(** The object an attempt returns: [{ ok: true, json }] or
    [{ ok: false, error, json? }]. *)
Inductive Attempt :=
| AttemptOk (json : Json)
| AttemptFailed (error : string) (json : option Json).

Definition attempt_ok (a : Attempt) : bool :=
  match a with AttemptOk _ => true | AttemptFailed _ _ => false end.

Definition attempt_error (a : Attempt) : string :=
  match a with AttemptOk _ => "" | AttemptFailed e _ => e end.

(** [maybeKey] is truthy. *)
Definition keyGiven (key : option string) : bool :=
  match key with Some k => truthy k | None => false end.

(** The [searchParams] of the [apiUrl] of an attempt. *)
Definition apiParams (url : string) (maybeKey : option string) : list (string * string) :=
  let params := params_set "url" url [] in
  let params := params_set "strategy" "mobile" params in
  let params :=
    fold_left (fun ps c => params_append "category" c ps)
              ["performance"; "accessibility"; "best-practices"; "seo"] params in
  if keyGiven maybeKey then params_set "key" (orEmpty maybeKey) params else params.

Definition attempt (net : Net) (url : string) (maybeKey : option string) : IO Attempt :=
  try_catch
    (r <- fetch net (PageSpeedApi (apiParams url maybeKey)) ;;
     j <- await (res_json r) ;;
     if negb (res_ok r) then
       let msg :=
         match error_message j with
         | Some m => if truthy m then m else ("PageSpeed error (" ++ string_of_nat (status r) ++ ")")%string
         | None => ("PageSpeed error (" ++ string_of_nat (status r) ++ ")")%string
         end in
       ret (AttemptFailed msg (Some j))
     else ret (AttemptOk j))
    (fun e =>
       let msg :=
         match e with
         | Thrown e => if truthy (message e) then message e else "Errore PageSpeed"
         | ZodError => "Errore PageSpeed"
         end in
       ret (AttemptFailed msg None)).

(** [/api key not valid|invalid api key|keyinvalid|not authorized|forbidden/i.test(msg)] *)
Definition authFailure (msg : string) : bool :=
  let m := toLowerCase msg in
  existsb (includes m)
          ["api key not valid"; "invalid api key"; "keyinvalid"; "not authorized"; "forbidden"].

Definition runPageSpeed (net : Net) (url : string) (key : option string) : IO Attempt :=
  first <- attempt net url key ;;
  if negb (attempt_ok first) && keyGiven key && authFailure (attempt_error first) then
    second <- attempt net url None ;;
    if attempt_ok second then ret second
    else ret first
  else ret first.

(** ** POST *)

Inductive Severity := high | medium | low.

Record Issue := { key : string; severity : Severity; fix_ : string }.

Definition severityRank (sev : Severity) : Z :=
  match sev with
  | high => 0
  | medium => 1
  | low => 2
  end.

Record Schema := { hasLdJson : bool; count : nat; types : list string }.

Record Tracking := {
  metaPixel : bool; gtm : bool; ga4 : bool; googleAds : bool; tiktok : bool
}.

Record Pwa := { available : bool; hasManifest : bool; hasServiceWorker : bool }.

(** The environment of the handler.  Its regular-expression extractors, which
    run on non-empty markup only, are taken as given. *)
Record World := {
  (** [process.env.PAGESPEED_API_KEY] *)
  PAGESPEED_API_KEY : option string;
  net : Net;
  getTagContent : string -> string -> string;
  getMetaContent : string -> string -> string -> string;
  getLinkHref : string -> string -> string;
  countTags : string -> string -> nat;
  (** the [stripTags] of every match of [/<h1[^>]*>([\s\S]*?)<\/h1>/gi] *)
  h1Matches : string -> list string;
  parseLdJsonTypes : string -> Schema;
  detectTracking : string -> Tracking;
  detectPwaFromHtml : string -> Pwa
}.

Record OpenGraph := { ogTitle : string; ogDesc : string; ogImage : string }.

Record Seo := {
  title : string; metaDesc : string; h1 : string;
  canonical : string; robots : string; openGraph : OpenGraph
}.

Record Tech := {
  page : PageStats;
  schema : option Schema;
  tracking : option Tracking;
  pwa : Pwa
}.

Record Scores := {
  total : option Z;
  performance : option Z;
  seo : option Z;
  ux : Z;
  trust : Z
}.

Record PageSpeedScores := {
  psi_performance : option Z; psi_seo : option Z;
  bestPractices : option Z; accessibility : option Z
}.

Record PageSpeedMetrics := {
  lcpMs : option float; cls : option float; inpMs : option float
}.

Record PageSpeed := {
  psi_scores : PageSpeedScores;
  metrics : PageSpeedMetrics;
  error : option string
}.

Record Report := {
  input : string;
  finalUrl : string;
  httpStatus : option nat;
  platform : string;
  scores : Scores;
  pagespeed : PageSpeed;
  r_seo : Seo;
  r_trust : Trust;
  tech : Tech;
  issues : list Issue;
  quickWins : list string
}.

(** The request body after [await req.json()]. *)
Record ReqBody := { body_domain : option string; body_url : option string }.

Inductive Reply :=
| Reply200 (r : Report)
| ReplyError (status : nat) (error : string).

Definition newline2 : string := String (ascii_of_nat 10) (String (ascii_of_nat 10) "").

(** Step 1 of [POST] (lines 231-253): the markup cut to two million
    characters, the status and the final URL, as the [try] leaves them; when
    the fetch or the reading of the body throws, the markup stays empty and
    the final URL is the input. *)
Definition fetchMarkup (w : World) (inputUrl : string) : IO (string * option nat * string) :=
  htmlRes <- reify (fetch (net w) (Page inputUrl)) ;;
  ret (match htmlRes with
       | Ok htmlRes =>
           let httpStatus := Some (status htmlRes) in
           match res_text htmlRes with
           | Ok t =>
               (slice0 (N.to_nat 2000000) t, httpStatus,
                if truthy (res_url htmlRes) then res_url htmlRes else inputUrl)
           | Err _ => ("", httpStatus, inputUrl)
           end
       | Err _ => ("", None, inputUrl)
       end).

(** Steps 2 to 7 of [POST] after the PageSpeed call has returned [ps]
    (lines 255-459): nothing in them awaits. *)
Definition report (w : World) (inputUrl html : string) (httpStatus : option nat)
    (finalUrl : string) (ps : Attempt) : Report :=
  let platform := if truthy html then detectPlatform html else "Sconosciuta/Custom" in
  let pagespeedJson := match ps with AttemptOk j => Some j | AttemptFailed _ _ => None end in
  let pagespeedError := match ps with AttemptOk _ => None | AttemptFailed e _ => Some e end in
  let score (id : Category) : option Z :=
    match pagespeedJson with
    | Some j =>
        match category_score j id with
        | Some s => Some (Math_round (s * 100)%float)
        | None => None
        end
    | None => None
    end in
  let pagespeedScores :=
    {| psi_performance := score cat_performance;
       psi_seo := score cat_seo;
       bestPractices := score cat_best_practices;
       accessibility := score cat_accessibility |} in
  let audits (id : Audit) : option float :=
    match pagespeedJson with
    | Some j => audit_numericValue j id
    | None => None
    end in
  let lcpMs := audits largest_contentful_paint in
  let cls := audits cumulative_layout_shift in
  let inpAudit :=
    match pagespeedJson with
    | Some j =>
        if audit_present j interaction_to_next_paint then interaction_to_next_paint
        else interactive_to_next_paint
    | None => interactive_to_next_paint
    end in
  let inpMs := audits inpAudit in
  let pageStats :=
    match pagespeedJson with
    | Some j => extractPageStats j
    | None => {| totalWeightKB := None; requestsCount := None |}
    end in
  (* 3) SEO base *)
  let seo :=
    if truthy html then
      {| title := getTagContent w html "title";
         metaDesc := getMetaContent w html "name" "description";
         h1 := String.concat newline2 (filter truthy (h1Matches w html));
         canonical := getLinkHref w html "canonical";
         robots := getMetaContent w html "name" "robots";
         openGraph :=
           {| ogTitle := getMetaContent w html "property" "og:title";
              ogDesc := getMetaContent w html "property" "og:description";
              ogImage := getMetaContent w html "property" "og:image" |} |}
    else
      {| title := ""; metaDesc := ""; h1 := ""; canonical := ""; robots := "";
         openGraph := {| ogTitle := ""; ogDesc := ""; ogImage := "" |} |} in
  let h1Count := if truthy html then countTags w html "h1" else 0%nat in
  (* 4) Trust *)
  let lower := toLowerCase html in
  let has (needle : string) := includes lower needle in
  let trust :=
    {| contact := has "contatti" || has "contact" || has "chi siamo" || has "about";
       shipping := has "spedizion" || has "shipping" || has "consegna";
       returns := has "resi" || has "reso" || has "returns";
       privacy := has "privacy";
       terms := has "termini" || has "terms" || has "condizioni";
       faq := has "faq" || has "domande frequenti" |} in
  (* 5) UX *)
  let hasCTA :=
    has "acquista" || has "shop" || has "nuovi arrivi" || has "collezione"
    || has "scopri" || classButton html in
  let ux := if hasCTA then 100%Z else 92%Z in
  (* 6) Issues + quick wins *)
  let issues : list Issue :=
    (if negb (shipping trust) then
       [{| key := "trust.shipping.missing"; severity := high;
           fix_ := "Aggiungi una pagina Spedizioni e linkala nel footer." |}] else [])
    ++ (let titleLen := String.length (trim (title seo)) in
        if ((0 <? titleLen) && (titleLen <? 25))%nat then
          [{| key := "seo.title.length"; severity := medium;
              fix_ := ("Titolo pagina troppo corto (attuale " ++ string_of_nat titleLen
                       ++ " caratteri).")%string |}] else [])
    ++ (let mdLen := String.length (trim (metaDesc seo)) in
        if ((0 <? mdLen) && ((mdLen <? 70) || (160 <? mdLen)))%nat then
          [{| key := "seo.metadesc.length"; severity := medium;
              fix_ := ("Descrizione Google non ottimale (attuale " ++ string_of_nat mdLen
                       ++ " caratteri).")%string |}] else [])
    ++ (if (1 <? h1Count)%nat then
          [{| key := "seo.h1.multiple"; severity := low;
              fix_ := "Troppi titoli principali (H1): mantieni 1 solo H1 per pagina." |}] else [])
    ++ (if negb (truthy (canonical seo)) then
          [{| key := "seo.canonical.missing"; severity := low;
              fix_ := "Manca la canonical (utile per evitare duplicazioni)." |}] else [])
    ++ (if negb hasCTA then
          [{| key := "ux.cta.unclear"; severity := medium;
              fix_ := "CTA poco chiara: aggiungi un bottone principale sopra la piega (es. “Scopri i prodotti”)." |}] else []) in
  let quickWins :=
    map fix_
        (firstn 3
           (Array_sort (fun a b => severityRank (severity a) - severityRank (severity b))%Z
                       issues)) in
  (* 7) Tech *)
  let tech :=
    if truthy html then
      {| page := pageStats;
         schema := Some (parseLdJsonTypes w html);
         tracking := Some (detectTracking w html);
         pwa := detectPwaFromHtml w html |}
    else
      {| page := pageStats; schema := None; tracking := None;
         pwa := {| available := false; hasManifest := false; hasServiceWorker := false |} |} in
  let perf := psi_performance pagespeedScores in
  let seoScore := psi_seo pagespeedScores in
  let trustScore := computeTrustScore trust in
  let total :=
    match perf, seoScore with
    | Some perf, Some seoScore => Some (weightedTotal perf seoScore ux trustScore)
    | _, _ => None
    end in
  {| input := inputUrl;
     finalUrl :=
       match pagespeedJson with
       | Some j =>
           match lighthouse_finalUrl j with
           | Some u => u
           | None => finalUrl
           end
       | None => finalUrl
       end;
     httpStatus := httpStatus;
     platform := platform;
     scores := {| total := total; performance := perf; seo := seoScore;
                  ux := ux; trust := trustScore |};
     pagespeed :=
       {| psi_scores := pagespeedScores;
          metrics := {| lcpMs := lcpMs; cls := cls; inpMs := inpMs |};
          error :=
            match pagespeedError with
            | Some e => if truthy e then Some e else None
            | None => None
            end |};
     r_seo := seo;
     r_trust := trust;
     tech := tech;
     issues := issues;
     quickWins := quickWins |}.

(** [body?.domain ?? body?.url ?? ""] *)
Definition inputRaw (body : ReqBody) : string :=
  match body_domain body with
  | Some d => d
  | None => match body_url body with Some u => u | None => "" end
  end.

Definition POST (w : World) (req_json : result JsError ReqBody) : IO Reply :=
  try_catch
    (body <- await req_json ;;
     match normalizeUrl (inputRaw body) with
     | None => ret (ReplyError 400 "Missing domain/url")
     | Some inputUrl =>
         let key := PAGESPEED_API_KEY w in
         fetched <- fetchMarkup w inputUrl ;;
         let '(html, httpStatus, finalUrl) := fetched in
         ps <- runPageSpeed (net w) (if truthy finalUrl then finalUrl else inputUrl) key ;;
         ret (Reply200 (report w inputUrl html httpStatus finalUrl ps))
     end)
    (fun e =>
       ret (ReplyError 500
              (match e with
               | Thrown e => message e
               | ZodError => "Unknown error"
               end))).

End Route.

(* ================================================================= *)
(** * The score formulas as the specification words them *)

Module Spec.
Import JS.

(** [round(0.35·performance + 0.30·ux + 0.20·seo + 0.15·trust)] *)
Definition total_with_performance (performance ux seo trust : Z) : Z :=
  Math_round (0.35 * Number performance + 0.30 * Number ux
              + 0.20 * Number seo + 0.15 * Number trust)%float.

(** [round(0.40·seo + 0.35·ux + 0.25·trust)] *)
Definition total_without_performance (seo ux trust : Z) : Z :=
  Math_round (0.40 * Number seo + 0.35 * Number ux + 0.25 * Number trust)%float.

(** A composite score lies in the interval from 0 to 100. *)
Definition in_range (score : Z) : Prop := (0 <= score <= 100)%Z.

(** [l1] is a subsequence of [l2]. *)
Inductive Subseq {A : Type} : list A -> list A -> Prop :=
| Subseq_nil : forall l, Subseq [] l
| Subseq_take : forall x l1 l2, Subseq l1 l2 -> Subseq (x :: l1) (x :: l2)
| Subseq_skip : forall x l1 l2, Subseq l1 l2 -> Subseq l1 (x :: l2).

End Spec.

(* ================================================================= *)
(** * Concrete worlds *)

Module Demo.
Import JS.
Local Open Scope string_scope.
Local Open Scope list_scope.

(** ** A fragment of the URL parser

    It accepts the strings that are already serialised [http(s)] URLs
    with a lower-case host and a path, and leaves them as they are. *)

Definition urlChar (c : ascii) : bool :=
  let n := nat_of_ascii c in ((33 <=? n) && (n <=? 126))%nat.

Definition hostChar (c : ascii) : bool :=
  let n := nat_of_ascii c in
  ((97 <=? n) && (n <=? 122) || (48 <=? n) && (n <=? 57) || (n =? 45) || (n =? 46))%nat.

Fixpoint allChars (f : ascii -> bool) (s : string) : bool :=
  match s with
  | EmptyString => true
  | String c s' => f c && allChars f s'
  end.

Fixpoint untilSlash (s : string) : string * string :=
  match s with
  | EmptyString => (EmptyString, EmptyString)
  | String c s' =>
      if (nat_of_ascii c =? 47)%nat then (EmptyString, s)
      else let (host, rest) := untilSlash s' in (String c host, rest)
  end.

Definition URL_new (s : string) : option Lib.URL :=
  if Lib.hasHttpPrefix s && allChars urlChar s then
    let n := if String.prefix "https://" s then 8%nat else 7%nat in
    if String.prefix "https://" s || String.prefix "http://" s then
      let (host, rest) := untilSlash (String.substring n (String.length s - n) s) in
      match rest with
      | String _ _ =>
          if truthy host && allChars hostChar host
          then Some {| Lib.hostname := host; Lib.href := s |}
          else None
      | EmptyString => None
      end
    else None
  else None.

(** ** A page without title, description, canonical, OpenGraph, trust links
    and call to action, with one heading *)

Definition bare_html : string :=
  "<html><head><title></title></head><body><h1>Welcome</h1><a href='/team'>Our team</a></body></html>".

Definition bare_dom : Lib.Dom :=
  {| Lib.dom_title := "";
     Lib.dom_meta_description := None;
     Lib.dom_h1 := ["Welcome"];
     Lib.dom_canonical := None;
     Lib.dom_robots := None;
     Lib.dom_og_title := None;
     Lib.dom_og_description := None;
     Lib.dom_og_image := None;
     Lib.dom_a_button :=
       [{| Lib.tag := Lib.tag_a; Lib.attr_href := Some "/team"; Lib.text := "Our team" |}] |}.

Definition empty_dom : Lib.Dom :=
  {| Lib.dom_title := "";
     Lib.dom_meta_description := None;
     Lib.dom_h1 := [];
     Lib.dom_canonical := None;
     Lib.dom_robots := None;
     Lib.dom_og_title := None;
     Lib.dom_og_description := None;
     Lib.dom_og_image := None;
     Lib.dom_a_button := [] |}.

Definition cheerio_load (html : string) : Lib.Dom :=
  if html =? bare_html then bare_dom else empty_dom.

Definition page_response (url : string) : HttpResponse :=
  {| status := 200;
     res_url := url;
     content_type := Some "text/html; charset=utf-8";
     res_text := Ok bare_html;
     res_json := Err {| name := "SyntaxError"; message := "Unexpected token <" |} |}.

Definition no_audits : Audit -> option float := fun _ => None.

(** A PageSpeed document with the four categories. *)
Definition json_full : Json :=
  {| error_message := None;
     category_score := fun c =>
       match c with
       | cat_performance => Some 0.87%float
       | cat_seo => Some 0.92%float
       | cat_best_practices => Some 1%float
       | cat_accessibility => Some 0.9%float
       end;
     audit_present := fun a =>
       match a with
       | largest_contentful_paint | cumulative_layout_shift => true
       | _ => false
       end;
     audit_numericValue := fun a =>
       match a with
       | largest_contentful_paint => Some 2412.5%float
       | cumulative_layout_shift => Some 0.02%float
       | _ => None
       end;
     network_requests_items := Some 41%nat;
     lighthouse_finalUrl := Some "https://example.com/" |}.

(** A PageSpeed document without the performance category. *)
Definition json_no_performance : Json :=
  {| error_message := None;
     category_score := fun c =>
       match c with
       | cat_performance => None
       | cat_seo => Some 0.92%float
       | cat_best_practices => Some 1%float
       | cat_accessibility => Some 0.9%float
       end;
     audit_present := fun _ => false;
     audit_numericValue := no_audits;
     network_requests_items := None;
     lighthouse_finalUrl := None |}.


Definition json_key_invalid : Json :=
  {| error_message := Some "API key not valid. Please pass a valid API key.";
     category_score := fun _ => None;
     audit_present := fun _ => false;
     audit_numericValue := no_audits;
     network_requests_items := None;
     lighthouse_finalUrl := None |}.

Definition api_response (status : nat) (j : Json) : HttpResponse :=
  {| status := status;
     res_url := "https://www.googleapis.com/pagespeedonline/v5/runPagespeed";
     content_type := Some "application/json; charset=UTF-8";
     res_text := Ok "";
     res_json := Ok j |}.

Definition fetch_failed : JsError := {| name := "TypeError"; message := "fetch failed" |}.

(** The page is served; the PageSpeed endpoint answers [psi]. *)
Definition world (psi : result JsError HttpResponse) : Lib.World :=
  {| Lib.URL_new := URL_new;
     Lib.cheerio_load := cheerio_load;
     Lib.PAGESPEED_API_KEY := Some "demo-key";
     Lib.net := fun _ t =>
       match t with
       | Page url => Ok (page_response url)
       | PageSpeedApi _ => psi
       end |}.

Definition world_full : Lib.World := world (Ok (api_response 200 json_full)).
Definition world_no_performance : Lib.World := world (Ok (api_response 200 json_no_performance)).
Definition world_api_down : Lib.World := world (Err fetch_failed).

Definition run_full := Eval vm_compute in run (Lib.analyzeSite world_full "example.com/").
Definition run_no_performance :=
  Eval vm_compute in run (Lib.analyzeSite world_no_performance "example.com/").
Definition run_api_down := Eval vm_compute in run (Lib.analyzeSite world_api_down "example.com/").

(** ** The route handler: the page cannot be fetched, the configured key is
    refused and the keyless request is served *)

Definition route_net : Net := fun _ t =>
  match t with
  | Page _ => Err fetch_failed
  | PageSpeedApi ps =>
      if params_has "key" ps then Ok (api_response 400 json_key_invalid)
      else Ok (api_response 200 json_full)
  end.

Definition route_world : Route.World :=
  {| Route.PAGESPEED_API_KEY := Some "demo-key";
     Route.net := route_net;
     Route.getTagContent := fun _ _ => "";
     Route.getMetaContent := fun _ _ _ => "";
     Route.getLinkHref := fun _ _ => "";
     Route.countTags := fun _ _ => 0%nat;
     Route.h1Matches := fun _ => [];
     Route.parseLdJsonTypes := fun _ => {| Route.hasLdJson := false; Route.count := 0; Route.types := [] |};
     Route.detectTracking := fun _ =>
       {| Route.metaPixel := false; Route.gtm := false; Route.ga4 := false;
          Route.googleAds := false; Route.tiktok := false |};
     Route.detectPwaFromHtml := fun _ =>
       {| Route.available := false; Route.hasManifest := false; Route.hasServiceWorker := false |} |}.

Definition route_body : Route.ReqBody :=
  {| Route.body_domain := Some "example.com"; Route.body_url := None |}.

Definition route_run := Eval vm_compute in run (Route.POST route_world (Ok route_body)).

End Demo.

(* ================================================================= *)
(** * The rest of the route file and the page *)

(** ** [detectTracking] of the route handler (lines 115-135) *)

Module Tracking.
Import JS.
Local Open Scope string_scope.

(** [s.slice(n)] *)
Fixpoint skip (n : nat) (s : string) : string :=
  match n, s with
  | S n', String _ s' => skip n' s'
  | _, _ => s
  end.

(** [[a-z0-9]] on lower-case text. *)
Definition isAlnum (c : ascii) : bool :=
  let n := nat_of_ascii c in
  ((97 <=? n) && (n <=? 122) || (48 <=? n) && (n <=? 57))%nat.

(** [/gtag\/js\?id=g-[a-z0-9]+/i], on the lower-cased markup. *)
Definition gtagJsId (h : string) : bool :=
  Route.somewhere
    (fun t =>
       String.prefix "gtag/js?id=g-" t
       && match skip 13 t with
          | String c _ => isAlnum c
          | EmptyString => false
          end)
    h.

(** [/gtag\('config',\s*'X/i] for a lower-case [X], on the lower-cased markup. *)
Definition gtagConfig (x : string) (h : string) : bool :=
  Route.somewhere
    (fun t =>
       String.prefix "gtag('config'," t
       && String.prefix x (trimStart (skip 14 t)))
    h.

Definition detectTracking (html : string) : Route.Tracking :=
  let h := toLowerCase html in
  let metaPixel :=
    includes h "connect.facebook.net" || includes h "fbq(" || includes h "facebook pixel" in
  let gtm := includes h "googletagmanager.com/gtm.js" || includes h "gtm.start" in
  let ga4 := includes h "gtag(" || gtagJsId h || gtagConfig "'g-" h in
  let googleAds :=
    includes h "googleadservices.com" || includes h "googlesyndication.com"
    || gtagConfig "'aw-" h in
  let tiktok :=
    includes h "analytics.tiktok.com" || includes h "ttq(" || includes h "tiktok pixel" in
  {| Route.metaPixel := metaPixel; Route.gtm := gtm; Route.ga4 := ga4;
     Route.googleAds := googleAds; Route.tiktok := tiktok |}.

End Tracking.

(** ** The route that calls the library, with an allow-list of origins
    (the third handler of the route file) *)

Module Cors.
Import JS.
Local Open Scope string_scope.
Local Open Scope list_scope.
Local Open Scope io_scope.

(** [s.split(",")] *)
Fixpoint split_comma (s : string) : list string :=
  match s with
  | EmptyString => [EmptyString]
  | String c s' =>
      if (nat_of_ascii c =? 44)%nat then EmptyString :: split_comma s'
      else
        match split_comma s' with
        | piece :: pieces => String c piece :: pieces
        | [] => [String c EmptyString]
        end
  end.

(** The [allowed] array of [corsHeaders]. *)
Definition allowedOrigins (ALLOWED_ORIGINS : option string) : list string :=
  filter truthy (map trim (split_comma (orEmpty ALLOWED_ORIGINS))).

Definition allowOrigin (ALLOWED_ORIGINS : option string) (origin : string) : string :=
  let allowed := allowedOrigins ALLOWED_ORIGINS in
  match allowed with
  | first :: _ => if Array_includes allowed origin then origin else first
  | [] => "*"
  end.

Definition corsHeaders (ALLOWED_ORIGINS : option string) (origin : string)
  : list (string * string) :=
  [("Access-Control-Allow-Origin", allowOrigin ALLOWED_ORIGINS origin);
   ("Access-Control-Allow-Methods", "POST, OPTIONS");
   ("Access-Control-Allow-Headers", "Content-Type");
   ("Access-Control-Max-Age", "86400")].

Record Request := {
  (** [req.headers.get("origin")] *)
  header_origin : option string;
  (** [await req.json()], read as far as [domain] and [url] *)
  req_json : result JsError Route.ReqBody
}.

(** The body of a response: the report, or [{ error: e.message }] for the
    exception caught. *)
Inductive Body :=
| ReportBody (report : Lib.Report)
| ErrorBody (e : Exn).

Record Response := {
  res_status : nat;
  res_headers : list (string * string);
  res_body : option Body
}.

Definition OPTIONS (ALLOWED_ORIGINS : option string) (req : Request) : Response :=
  let origin := orEmpty (header_origin req) in
  {| res_status := 204; res_headers := corsHeaders ALLOWED_ORIGINS origin; res_body := None |}.

(** [body?.domain || body?.url]; [None] is [undefined], which
    [InputSchema.parse] refuses like the empty string. *)
Definition domainOf (body : Route.ReqBody) : option string :=
  match Route.body_domain body with
  | Some d => if truthy d then Some d else Route.body_url body
  | None => Route.body_url body
  end.

Definition POST (w : Lib.World) (ALLOWED_ORIGINS : option string) (req : Request)
  : IO Response :=
  let origin := orEmpty (header_origin req) in
  try_catch
    (body <- await (req_json req) ;;
     let domain := domainOf body in
     report <- match domain with
               | Some d => Lib.analyzeSite w d
               | None => throw ZodError
               end ;;
     ret {| res_status := 200;
            res_headers := ("Content-Type", "application/json")
                           :: corsHeaders ALLOWED_ORIGINS origin;
            res_body := Some (ReportBody report) |})
    (fun e =>
       ret {| res_status := 400;
              res_headers := ("Content-Type", "application/json")
                             :: corsHeaders ALLOWED_ORIGINS origin;
              res_body := Some (ErrorBody e) |}).

End Cors.

(** ** The labels of the page (page.tsx, lines 69-84) *)

Module Ui.
Local Open Scope string_scope.
Local Open Scope list_scope.

Definition ISSUE_LABELS : list (string * string) :=
  [("trust.shipping.missing", "Manca pagina Spedizioni");
   ("trust.contact.missing", "Manca pagina Contatti");
   ("trust.faq.missing", "Manca pagina FAQ");
   ("seo.title.length", "Titolo pagina troppo corto");
   ("seo.metadesc.length", "Descrizione Google non ottimale");
   ("seo.h1.multiple", "Troppi titoli principali (H1)");
   ("seo.canonical.missing", "Manca la canonical (rischio duplicati)");
   ("ux.cta.unclear", "Call-to-action principale poco chiara")].

(** [table[key]] for an own key of the table. *)
Fixpoint lookup (key : string) (table : list (string * string)) : option string :=
  match table with
  | [] => None
  | (k, v) :: table' => if k =? key then Some v else lookup key table'
  end.

(** The names every object inherits from [Object.prototype]: for them
    [table[key]] is the inherited member, which is not a label. *)
Definition Object_prototype_keys : list string :=
  ["constructor"; "__proto__"; "__defineGetter__"; "__defineSetter__";
   "__lookupGetter__"; "__lookupSetter__"; "hasOwnProperty"; "isPrototypeOf";
   "propertyIsEnumerable"; "toLocaleString"; "toString"; "valueOf"].

(** [ISSUE_LABELS[key] ?? "Suggerimento tecnico"]; [None] when the result
    is an inherited member and not a string. *)
Definition issueLabel (key : string) : option string :=
  match lookup key ISSUE_LABELS with
  | Some label => Some label
  | None =>
      if JS.Array_includes Object_prototype_keys key then None
      else Some "Suggerimento tecnico"
  end.

End Ui.

(** ** More concrete pages and worlds *)

Module Samples.
Import JS.
Local Open Scope string_scope.
Local Open Scope list_scope.

Definition anchor (href text : string) : Lib.Element :=
  {| Lib.tag := Lib.tag_a; Lib.attr_href := Some href; Lib.text := text |}.

(** A page that passes every rule of the library. *)
Definition clean_dom : Lib.Dom :=
  {| Lib.dom_title := "Cucitura Digitale - sartoria online";
     Lib.dom_meta_description :=
       Some "Abiti su misura, riparazioni e tessuti italiani: ordina online e ricevi a casa in tre giorni.";
     Lib.dom_h1 := ["Sartoria online"];
     Lib.dom_canonical := Some "https://example.com/";
     Lib.dom_robots := Some "index, follow";
     Lib.dom_og_title := Some "Cucitura Digitale";
     Lib.dom_og_description := Some "Sartoria online";
     Lib.dom_og_image := Some "https://example.com/og.png";
     Lib.dom_a_button :=
       [anchor "/contatti" "Contatti"; anchor "/spedizioni" "Spedizioni";
        anchor "/resi" "Resi e cambi"; anchor "/privacy" "Privacy";
        anchor "/termini" "Termini e condizioni";
        {| Lib.tag := Lib.tag_button; Lib.attr_href := None; Lib.text := " Acquista ora " |}] |}.

(** The same page with a robots directive that forbids indexing. *)
Definition noindex_dom : Lib.Dom :=
  {| Lib.dom_title := Lib.dom_title clean_dom;
     Lib.dom_meta_description := Lib.dom_meta_description clean_dom;
     Lib.dom_h1 := Lib.dom_h1 clean_dom;
     Lib.dom_canonical := Lib.dom_canonical clean_dom;
     Lib.dom_robots := Some "NOINDEX, nofollow";
     Lib.dom_og_title := Lib.dom_og_title clean_dom;
     Lib.dom_og_description := Lib.dom_og_description clean_dom;
     Lib.dom_og_image := Lib.dom_og_image clean_dom;
     Lib.dom_a_button := Lib.dom_a_button clean_dom |}.

(** A page whose only elements are a button and an anchor without address. *)
Definition no_href_dom : Lib.Dom :=
  {| Lib.dom_title := "";
     Lib.dom_meta_description := None;
     Lib.dom_h1 := [];
     Lib.dom_canonical := None;
     Lib.dom_robots := None;
     Lib.dom_og_title := None;
     Lib.dom_og_description := None;
     Lib.dom_og_image := None;
     Lib.dom_a_button :=
       [{| Lib.tag := Lib.tag_button; Lib.attr_href := None; Lib.text := "Contatti" |};
        {| Lib.tag := Lib.tag_a; Lib.attr_href := Some "  "; Lib.text := "Privacy" |}] |}.

Definition page : Lib.FetchResult :=
  {| Lib.html := Demo.bare_html; Lib.finalUrl := "https://example.com/"; Lib.status := 200 |}.

(** The address is served as a PDF document. *)
Definition pdf_response (url : string) : HttpResponse :=
  {| status := 200;
     res_url := url;
     content_type := Some "application/pdf";
     res_text := Ok "%PDF-1.7";
     res_json := Err {| name := "SyntaxError"; message := "Unexpected token %" |} |}.

Definition world_pdf : Lib.World :=
  {| Lib.URL_new := Demo.URL_new;
     Lib.cheerio_load := Demo.cheerio_load;
     Lib.PAGESPEED_API_KEY := None;
     Lib.net := fun _ t =>
       match t with
       | Page url => Ok (pdf_response url)
       | PageSpeedApi _ => Err Demo.fetch_failed
       end |}.

(** The PageSpeed endpoint answers with status 429. *)
Definition world_quota : Lib.World :=
  Demo.world (Ok (Demo.api_response 429 Demo.json_key_invalid)).

Definition run_quota := Eval vm_compute in run (Lib.analyzeSite world_quota "example.com/").

Definition request (origin : option string) (domain : string) : Cors.Request :=
  {| Cors.header_origin := origin;
     Cors.req_json := Ok {| Route.body_domain := Some domain; Route.body_url := None |} |}.

Definition ALLOWED_ORIGINS : option string :=
  Some "https://cucituradigitale.it, https://www.cucituradigitale.it ,".

End Samples.

(** ** Proof steps *)

(** From [H : In i (l1 ++ ... ++ ln)], where each list is a conditional
    singleton, to one goal for each rule that can have put [i] there, with
    the outcome of its tests among the hypotheses. *)
Ltac split_in H :=
  repeat match type of H with
         | In _ (_ ++ _) => apply in_app_or in H; destruct H as [H|H]
         end;
  repeat match type of H with
         | In _ (if ?c then _ else _) => destruct c eqn:?
         end;
  cbn [In] in H;
  repeat match type of H with
         | _ \/ _ => destruct H as [H|H]
         end;
  try contradiction.

(** Membership in a concatenation of explicit lists, by search. *)
Ltac find_in :=
  solve [ simpl; left; reflexivity
        | apply in_or_app; left; find_in
        | apply in_or_app; right; find_in ].

(* ================================================================= *)
(** * Facts about the platform model *)

Section SortFacts.
Variable A : Type.
Variable rank : A -> Z.

Local Abbreviation cmp := (fun a b : A => (rank a - rank b)%Z).
Local Abbreviation le := (fun a b : A => (rank a <= rank b)%Z).

Lemma insert_perm (x : A) (l : list A) : Permutation (JS.insert cmp x l) (x :: l).
Proof.
  induction l as [|y l IH]; simpl.
  - apply Permutation_refl.
  - destruct (cmp x y <=? 0)%Z.
    + apply Permutation_refl.
    + eapply perm_trans; [apply perm_skip, IH | apply perm_swap].
Qed.

Lemma sort_perm (l : list A) : Permutation (JS.Array_sort cmp l) l.
Proof.
  induction l as [|x l IH]; simpl.
  - constructor.
  - eapply perm_trans; [apply insert_perm | apply perm_skip, IH].
Qed.

Lemma insert_sorted (x : A) (l : list A) :
  StronglySorted le l -> StronglySorted le (JS.insert cmp x l).
Proof.
  induction 1 as [|y l Hs IH Hy]; simpl.
  - repeat constructor.
  - destruct (cmp x y <=? 0)%Z eqn:E.
    + apply Z.leb_le in E.
      constructor; [constructor; assumption|].
      constructor; [lia|].
      eapply Forall_impl; [|exact Hy]. simpl. intros a Ha. lia.
    + apply Z.leb_gt in E.
      constructor; [exact IH|].
      eapply Permutation_Forall; [apply Permutation_sym, insert_perm|].
      constructor; [lia | exact Hy].
Qed.

Lemma sort_sorted (l : list A) : StronglySorted le (JS.Array_sort cmp l).
Proof.
  induction l as [|x l IH]; simpl; [constructor | apply insert_sorted, IH].
Qed.

(** An element is never put behind one of its own rank. *)
Lemma insert_filter (k : Z) (x : A) (l : list A) :
  filter (fun y => rank y =? k)%Z (JS.insert cmp x l)
  = filter (fun y => rank y =? k)%Z (x :: l).
Proof.
  induction l as [|y l IH]; simpl; [reflexivity|].
  destruct (cmp x y <=? 0)%Z eqn:E; [reflexivity|].
  apply Z.leb_gt in E.
  simpl. rewrite IH. simpl.
  destruct (rank x =? k)%Z eqn:Ex, (rank y =? k)%Z eqn:Ey; try reflexivity.
  apply Z.eqb_eq in Ex, Ey. lia.
Qed.

Lemma sort_stable (k : Z) (l : list A) :
  filter (fun y => rank y =? k)%Z (JS.Array_sort cmp l) = filter (fun y => rank y =? k)%Z l.
Proof.
  induction l as [|x l IH]; simpl; [reflexivity|].
  rewrite insert_filter. simpl. rewrite IH. reflexivity.
Qed.
End SortFacts.

(** [Math.round] on halves, on the largest number below one half and on a
    product that binary64 rounds below a half. *)
Example Math_round_examples :
  JS.Math_round 2.5 = 3%Z /\ JS.Math_round (-2.5) = (-2)%Z
  /\ JS.Math_round 0.49999999999999994 = 0%Z /\ JS.Math_round (-0.5) = 0%Z
  /\ JS.Math_round (0.575 * 100) = 57%Z /\ JS.Math_round (0.87 * 100) = 87%Z.
Proof. repeat split; vm_compute; reflexivity. Qed.

Example string_examples :
  JS.trim "  a b  " = "a b"%string
  /\ JS.toLowerCase "Noindex, FOLLOW" = "noindex, follow"%string
  /\ JS.includes "noindex, follow" "noindex" = true
  /\ JS.includes "" "x" = false
  /\ JS.string_of_nat 403 = "403"%string.
Proof. repeat split; vm_compute; reflexivity. Qed.

(** Equal keys keep their order. *)
Example Array_sort_example :
  JS.Array_sort (fun a b => (fst a - fst b)%Z)
    [(3, "a"); (1, "b"); (3, "c"); (0, "d"); (1, "e")]%Z%string
  = [(0, "d"); (1, "b"); (1, "e"); (3, "a"); (3, "c")]%Z%string.
Proof. vm_compute. reflexivity. Qed.

Lemma Math_round_shift_eq (x : float) : JS.Math_round x = JS.Math_round_shift x.
Proof.
  unfold JS.Math_round, JS.Math_round_shift.
  destruct (Prim2SF x) as [| | |s m e]; try reflexivity.
  set (v := if s then Z.neg m else Z.pos m). cbv zeta.
  destruct (0 <=? e)%Z eqn:E.
  - apply Z.leb_le in E. symmetry. apply Z.shiftl_mul_pow2. exact E.
  - apply Z.leb_gt in E.
    rewrite !Z.shiftr_div_pow2 by lia.
    replace (- e + 1)%Z with (Z.succ (Z.succ (- e - 1))) by lia.
    replace (- e)%Z with (Z.succ (- e - 1)) at 1 by lia.
    rewrite !Z.pow_succ_r by lia.
    set (a := (2 ^ (- e - 1))%Z).
    assert (Ha : (0 < a)%Z) by (apply Z.pow_pos_nonneg; lia).
    replace (2 * v + 2 * a)%Z with (2 * (v + a))%Z by lia.
    rewrite Z.div_mul_cancel_l by lia.
    rewrite (Z.mul_comm 2 a), <- Z.div_div by lia.
    replace (v + a)%Z with (v + 1 * a)%Z by lia.
    rewrite Z.div_add by lia. reflexivity.
Qed.

(* ================================================================= *)
(** * Facts about the library *)

Import JS Lib.
Local Open Scope Z_scope.


(** The trust score is 100 minus a sum over a subset of 15, 15, 15, 8, 3. *)
Lemma trust_score_values (t : Trust) :
  In (scoreFromIssues (trustIssues t))
     [100; 97; 92; 89; 85; 82; 77; 74; 70; 67; 62; 59; 55; 52; 47; 44].
Proof.
  destruct t as [[] [] [] [] [] f]; cbv - [In]; simpl; tauto.
Qed.

Lemma ux_score_values (b : bool) : In (scoreFromIssues (uxIssues b)) [92; 100].
Proof. destruct b; cbv - [In]; simpl; tauto. Qed.

Lemma in_percent_range (z : Z) : 0 <= z <= 100 -> In z (map Z.of_nat (seq 0 101)).
Proof.
  intros H. rewrite <- (Z2Nat.id z) by lia.
  apply in_map, in_seq. lia.
Qed.


Lemma total3_check :
  let ts := map (fun t => (0.25 * Number t)%float)
                [100; 97; 92; 89; 85; 82; 77; 74; 70; 67; 62; 59; 55; 52; 47; 44] in
  let us := map (fun u => (0.35 * Number u)%float) [92; 100] in
  let ss := map (fun s => (0.4 * Number s)%float) (map Z.of_nat (seq 0 101)) in
  forallb (fun a => forallb (fun b => forallb (fun c =>
    let x := Math_round_shift (a + b + c)%float in
    isFinite (a + b + c)%float && (0 <=? x) && (x <=? 100)) ts) us) ss = true.
Proof. vm_cast_no_check (eq_refl true). Qed.


Lemma total3_range (s u t : Z) :
  0 <= s <= 100 ->
  In u [92; 100] ->
  In t [100; 97; 92; 89; 85; 82; 77; 74; 70; 67; 62; 59; 55; 52; 47; 44] ->
  isFinite (0.40 * Number s + 0.35 * Number u + 0.25 * Number t)%float = true
  /\ Spec.in_range (Spec.total_without_performance s u t).
Proof.
  intros Hs Hu Ht.
  pose proof total3_check as H. cbv zeta in H.
  rewrite forallb_forall in H.
  specialize (H _ (in_map (fun s => (0.4 * Number s)%float) _ _ (in_percent_range Hs))).
  rewrite forallb_forall in H.
  specialize (H _ (in_map (fun u => (0.35 * Number u)%float) _ _ Hu)).
  rewrite forallb_forall in H.
  specialize (H _ (in_map (fun t => (0.25 * Number t)%float) _ _ Ht)).
  rewrite <- Math_round_shift_eq in H.
  apply andb_true_iff in H. destruct H as [H H2].
  apply andb_true_iff in H. destruct H as [H0 H1].
  apply Z.leb_le in H1, H2.
  unfold Spec.in_range, Spec.total_without_performance. repeat split; assumption.
Qed.

(** What a successful run of [analyzeSite] went through. *)
Lemma analyzeSite_inv (w : World) (inputUrl : string) (r : Report) (log : list Target) :
  run (analyzeSite w inputUrl) = (Ok r, log) ->
  exists url page log1 psi,
    normalizeUrl w inputUrl = Ok url
    /\ fetchHtml w url [] = (Ok page, log1)
    /\ psi = match fst (runPageSpeed w (finalUrl page) "mobile" log1) with
             | Ok pr => PsiData pr
             | Err e => PsiError (String_of_thrown e)
             end
    /\ log = snd (runPageSpeed w (finalUrl page) "mobile" log1)
    /\ r = report inputUrl page (cheerio_load w (html page)) psi.
Proof.
  unfold run, analyzeSite, bind, lift, try_catch, ret.
  destruct (normalizeUrl w inputUrl) as [url|e] eqn:En; [|discriminate].
  destruct (fetchHtml w url []) as [[page|e] log1] eqn:Ef; [|discriminate].
  destruct (runPageSpeed w (finalUrl page) "mobile" log1) as [[pr|e] log2] eqn:E;
    intros H; inversion H; subst; clear H;
    exists url, page, log1; eexists;
    (split; [reflexivity|]); (split; [exact Ef|]);
    rewrite E; simpl; repeat split; reflexivity.
Qed.


Section SubseqFacts.
Variable A : Type.
Import Spec.

Lemma Subseq_refl (l : list A) : Subseq l l.
Proof. induction l; constructor; assumption. Qed.


Lemma Subseq_firstn (n : nat) (l : list A) : Subseq (firstn n l) l.
Proof.
  revert l. induction n as [|n IH]; intros [|x l]; simpl; constructor. apply IH.
Qed.




Lemma Subseq_map (B : Type) (f : A -> B) (l1 l2 : list A) :
  Subseq l1 l2 -> Subseq (map f l1) (map f l2).
Proof. induction 1; simpl; constructor; assumption. Qed.
End SubseqFacts.

(* ================================================================= *)
(** * The statements about the library *)


Lemma Severity_eqb_rank (a b : Severity) :
  Severity_eqb a b = (severityRank a =? severityRank b).
Proof. destruct a, b; reflexivity. Qed.

Lemma report_issues_sorted (inputUrl : string) (page : FetchResult) (d : Dom) (psi : Psi) :
  StronglySorted (fun a b => severityRank (severity a) <= severityRank (severity b))
                 (issues (report inputUrl page d psi)).
Proof.
  unfold report; simpl.
  apply (sort_sorted (fun i : Issue => severityRank (severity i))).
Qed.

(** C6: the issues of every report are sorted by severity rank, with
    critical < high < medium < low, and among issues of one severity the
    order of discovery is kept: the SEO findings, then the trust findings,
    then the UX finding, each group in the order it was found. *)
Theorem issues_sorted_stable
  (w : World) (inputUrl : string) (r : Report) (log : list Target) :
  run (analyzeSite w inputUrl) = (Ok r, log) ->
  severityRank critical < severityRank high < severityRank medium
  /\ severityRank medium < severityRank low
  /\ StronglySorted (fun a b => severityRank (severity a) <= severityRank (severity b))
                    (issues r)
  /\ exists d : Dom,
       let seoIssues := seo_issues (seoChecks d) in
       let trustIssues := trustIssues (findTrustLinks d) in
       let uxIssues := uxIssues (hasPrimaryCta d) in
       Permutation (issues r) (seoIssues ++ trustIssues ++ uxIssues)
       /\ forall sev : Severity,
            let same := fun i : Issue => Severity_eqb (severity i) sev in
            filter same (issues r)
            = filter same seoIssues ++ filter same trustIssues ++ filter same uxIssues.
Proof.
  intros H.
  destruct (analyzeSite_inv _ _ H) as (url & page & log1 & psi & _ & _ & _ & _ & ->).
  split; [cbv; auto|]. split; [reflexivity|].
  split; [apply report_issues_sorted|].
  exists (cheerio_load w (html page)). cbv zeta.
  split.
  - unfold report; simpl.
    apply (sort_perm (fun i : Issue => severityRank (severity i))).
  - intros sev. unfold report; simpl.
    rewrite <- !filter_app.
    rewrite (filter_ext _ (fun i : Issue => severityRank (severity i) =? severityRank sev))
      by (intros i; apply Severity_eqb_rank).
    rewrite (filter_ext (fun i : Issue => Severity_eqb (severity i) sev)
                        (fun i : Issue => severityRank (severity i) =? severityRank sev))
      by (intros i; apply Severity_eqb_rank).
    apply (sort_stable (fun i : Issue => severityRank (severity i))).
Qed.

Lemma issues_sorted_stable_witness :
  exists r log,
    run (analyzeSite Demo.world_full "example.com/") = (Ok r, log)
    /\ StronglySorted (fun a b => severityRank (severity a) <= severityRank (severity b))
                      (issues r).
Proof.
  assert (H : run (analyzeSite Demo.world_full "example.com/") = Demo.run_full)
    by (vm_compute; reflexivity).
  unfold Demo.run_full in H.
  eexists. eexists. split; [exact H|].
  exact (proj1 (proj2 (proj2 (issues_sorted_stable _ _ H)))).
Defined.



Lemma fetchHtml_log (w : World) (url : string) (log0 log1 : list Target) (page : FetchResult) :
  fetchHtml w url log0 = (Ok page, log1) -> log1 = (log0 ++ [Page url])%list.
Proof.
  unfold fetchHtml, bind, fetch, await, lift, throw, ret.
  destruct (net w (List.length log0) (Page url)) as [res|e]; [|discriminate].
  destruct (negb (includes (orEmpty (content_type res)) "text/html")); [discriminate|].
  destruct (res_text res); intros H; inversion H; reflexivity.
Qed.

(** The one exchange of the library's [runPageSpeed]. *)
Lemma runPageSpeed_run (w : World) (url strategy : string) (log1 : list Target) :
  exists qs : list (string * string),
    runPageSpeed w url strategy log1
    = (match net w (List.length log1) (PageSpeedApi qs) with
       | Err e => Err (Thrown e)
       | Ok res =>
           if negb (res_ok res) then Err (pageSpeedError (JS.status res))
           else
             match res_json res with
             | Err e => Err (Thrown e)
             | Ok json =>
                 Ok {| psi_scores :=
                         {| psi_performance := percent (category_score json cat_performance);
                            psi_seo := percent (category_score json cat_seo);
                            bestPractices := percent (category_score json cat_best_practices);
                            accessibility := percent (category_score json cat_accessibility) |};
                       metrics :=
                         {| lcpMs := audit_numericValue json largest_contentful_paint;
                            cls := audit_numericValue json cumulative_layout_shift;
                            inpMs := audit_numericValue json interaction_to_next_paint |} |}
             end
       end, (log1 ++ [PageSpeedApi qs])%list).
Proof.
  unfold runPageSpeed, bind, fetch, await, lift, throw, ret.
  match goal with
  | |- context [net w (List.length log1) (PageSpeedApi ?q)] => exists q
  end.
  destruct (net w (List.length log1) _) as [res|e]; [|reflexivity].
  destruct (negb (res_ok res)); [reflexivity|].
  destruct (res_json res); reflexivity.
Qed.

Lemma penalties_sum (l : list Issue) (start : Z) :
  fold_left (fun score it => score - penalty (severity it)) l start
  = start - fold_right Z.add 0 (map (fun it => penalty (severity it)) l).
Proof.
  revert start. induction l as [|it l IH]; intros start; simpl; [lia|].
  rewrite IH. lia.
Qed.






Lemma percent_absent : percent None = 0.
Proof. vm_compute. reflexivity. Qed.

(** C10: when the PageSpeed exchange succeeds (a 2xx answer whose body is a
    JSON document), the result carries the four category scores as
    integers, a category without score counting for 0; the report then has a
    performance score, 0 when the document has no performance category, and
    its total is the four-term weighting of that score, not the three-term
    one. *)
Theorem absent_category_scores_zero
  (w : World) (inputUrl : string) (r : Report) (log : list Target)
  (t : Target) (res : HttpResponse) (json : Json) :
  run (analyzeSite w inputUrl) = (Ok r, log) ->
  nth_error log 1%nat = Some t ->
  net w 1%nat t = Ok res ->
  res_ok res = true ->
  res_json res = Ok json ->
  let cats := category_score json in
  (exists m,
      pagespeed r
      = PsiData {| psi_scores :=
                     {| psi_performance := percent (cats cat_performance);
                        psi_seo := percent (cats cat_seo);
                        bestPractices := percent (cats cat_best_practices);
                        accessibility := percent (cats cat_accessibility) |};
                   metrics := m |})
  /\ (forall c, cats c = None -> percent (cats c) = 0)
  /\ performance (scores r) = Some (percent (cats cat_performance))
  /\ seo (scores r) = percent (cats cat_seo)
  /\ total (scores r)
     = Spec.total_with_performance (percent (cats cat_performance))
         (ux (scores r)) (seo (scores r)) (trust (scores r))
  /\ (cats cat_performance = None ->
      performance (scores r) = Some 0
      /\ total (scores r)
         = Spec.total_with_performance 0 (ux (scores r)) (seo (scores r)) (trust (scores r))).
Proof.
  intros H Ht Hnet Hok Hjson cats.
  destruct (analyzeSite_inv _ _ H) as (url & page & log1 & psi & _ & Hf & Hpsi & Hlog & ->).
  pose proof (fetchHtml_log _ _ _ Hf) as Hl. simpl in Hl. subst log1.
  destruct (runPageSpeed_run w (finalUrl page) "mobile" [Page url]) as (qs & Hps).
  simpl in Hps. rewrite Hps in Hpsi, Hlog. simpl in Hpsi, Hlog.
  subst log. simpl in Ht. inversion Ht; subst t. clear Ht.
  rewrite Hnet, Hok, Hjson in Hpsi. simpl in Hpsi. subst psi.
  split; [eexists; reflexivity|].
  split; [intros c Hc; rewrite Hc; apply percent_absent|].
  split; [reflexivity|]. split; [reflexivity|]. split; [reflexivity|].
  intros Hnone. simpl. fold cats. rewrite Hnone, percent_absent.
  split; reflexivity.
Qed.

Lemma absent_category_scores_zero_witness :
  exists r log,
    run (analyzeSite Demo.world_no_performance "example.com/") = (Ok r, log)
    /\ performance (scores r) = Some 0
    /\ total (scores r) = 53
    /\ Spec.total_without_performance (seo (scores r)) (ux (scores r)) (trust (scores r)) = 80.
Proof.
  assert (H : run (analyzeSite Demo.world_no_performance "example.com/") = Demo.run_no_performance)
    by (vm_compute; reflexivity).
  unfold Demo.run_no_performance in H.
  eexists. eexists. split; [exact H|].
  destruct (@absent_category_scores_zero Demo.world_no_performance "example.com/" _ _ _
              (Demo.api_response 200 Demo.json_no_performance) Demo.json_no_performance
              H eq_refl eq_refl eq_refl eq_refl)
    as (_ & _ & _ & _ & _ & Hzero).
  destruct (Hzero eq_refl) as [Hperf _].
  split; [exact Hperf|].
  split; vm_compute; reflexivity.
Defined.

(** C8: an input whose parsed host name is [localhost], [127.0.0.1] or
    [0.0.0.0] is refused with a validation error, whatever path or query
    the parsed address has, and [analyzeSite] makes no request and gives no
    report. *)
Theorem disallowed_host_rejected (w : World) (input : string) (u : URL) :
  URL_new w (withProto (trim input)) = Some u ->
  In (hostname u) disallowedHosts ->
  (exists e,
      normalizeUrl w input = Err e
      /\ (e = ZodError \/ e = hostNotAllowed)
      /\ (input <> ""%string -> e = hostNotAllowed))
  /\ exists e, run (analyzeSite w input) = (Err e, []).
Proof.
  intros Hu Hin.
  assert (Hhost : Array_includes disallowedHosts (toLowerCase (hostname u)) = true).
  { simpl in Hin. destruct Hin as [<-|[<-|[<-|[]]]]; reflexivity. }
  assert (Hn : exists e,
             normalizeUrl w input = Err e
             /\ (e = ZodError \/ e = hostNotAllowed)
             /\ (input <> ""%string -> e = hostNotAllowed)).
  { unfold normalizeUrl, InputSchema_parse.
    destruct input as [|c input'].
    - exists ZodError. simpl. split; [reflexivity|]. split; [left; reflexivity|].
      intros Hne. contradiction Hne. reflexivity.
    - cbn [String.length Nat.leb]. cbv zeta. rewrite Hu, Hhost.
      exists hostNotAllowed. split; [reflexivity|]. split; [right; reflexivity|].
      intros _. reflexivity. }
  split; [exact Hn|].
  destruct Hn as (e & He & _). exists e.
  unfold run, analyzeSite, bind, lift. rewrite He. reflexivity.
Qed.

Lemma disallowed_host_rejected_witness :
  normalizeUrl Demo.world_full "localhost/admin?next=/a" = Err hostNotAllowed.
Proof.
  destruct (@disallowed_host_rejected Demo.world_full "localhost/admin?next=/a"
              {| hostname := "localhost"; href := "https://localhost/admin?next=/a" |})
    as [(e & He & _ & Hne) _].
  - vm_compute. reflexivity.
  - simpl. left. reflexivity.
  - rewrite He. f_equal. apply Hne. discriminate.
Defined.

Lemma trimEnd_id (s : string) :
  Demo.allChars (fun c => negb (isWhiteSpace c)) s = true -> trimEnd s = s.
Proof.
  induction s as [|c s IH]; simpl; [reflexivity|].
  intros H. apply andb_true_iff in H. destruct H as [Hc Hs].
  rewrite (IH Hs). apply negb_true_iff in Hc. rewrite Hc.
  destruct s; reflexivity.
Qed.

Lemma trim_id (s : string) :
  Demo.allChars (fun c => negb (isWhiteSpace c)) s = true -> trim s = s.
Proof.
  intros H. unfold trim.
  assert (Hs : trimStart s = s).
  { destruct s as [|c s]; [reflexivity|]. simpl in *.
    apply andb_true_iff in H. destruct H as [Hc _].
    apply negb_true_iff in Hc. rewrite Hc. reflexivity. }
  rewrite Hs. apply trimEnd_id, H.
Qed.

Lemma urlChar_not_space (c : ascii) : Demo.urlChar c = true -> negb (isWhiteSpace c) = true.
Proof.
  unfold Demo.urlChar, isWhiteSpace. cbv zeta.
  intros H. apply andb_true_iff in H. destruct H as [H1 H2].
  apply Nat.leb_le in H1. apply negb_true_iff.
  apply orb_false_iff. split.
  - apply andb_false_iff. right. apply Nat.leb_gt. lia.
  - apply Nat.eqb_neq. lia.
Qed.

Lemma allChars_impl (f g : ascii -> bool) (s : string) :
  (forall c, f c = true -> g c = true) ->
  Demo.allChars f s = true -> Demo.allChars g s = true.
Proof.
  intros Hfg. induction s as [|c s IH]; simpl; [reflexivity|].
  intros H. apply andb_true_iff in H. destruct H as [Hc Hs].
  rewrite (Hfg _ Hc), (IH Hs). reflexivity.
Qed.

(** The parser fragment returns its argument as the serialisation. *)
Lemma Demo_URL_new_inv (s : string) (u : URL) :
  Demo.URL_new s = Some u ->
  href u = s /\ hasHttpPrefix s = true /\ Demo.allChars Demo.urlChar s = true.
Proof.
  unfold Demo.URL_new.
  destruct (hasHttpPrefix s) eqn:Hp; [|discriminate].
  destruct (Demo.allChars Demo.urlChar s) eqn:Hc; [|discriminate].
  simpl andb. cbv iota.
  destruct (String.prefix "https://" s || String.prefix "http://" s); [|discriminate].
  destruct (Demo.untilSlash _) as [host rest].
  destruct rest; [discriminate|].
  destruct (truthy host && Demo.allChars Demo.hostChar host); [|discriminate].
  intros H. inversion H; subst. simpl. auto.
Qed.

Lemma prefix_append (p s : string) : String.prefix p (p ++ s) = true.
Proof.
  induction p as [|a p IH]; simpl.
  - destruct s; reflexivity.
  - destruct (ascii_dec a a) as [_|Hn]; [exact IH | contradiction Hn; reflexivity].
Qed.

Lemma withProto_hasHttpPrefix (raw : string) : hasHttpPrefix (withProto raw) = true.
Proof.
  unfold withProto. destruct (hasHttpPrefix raw) eqn:E; [exact E|].
  unfold hasHttpPrefix. cbv zeta.
  assert (Hl : toLowerCase ("https://" ++ raw) = ("https://" ++ toLowerCase raw)%string)
    by (vm_compute; reflexivity).
  rewrite Hl, prefix_append. apply orb_true_r.
Qed.

Lemma hasHttpPrefix_nonempty (s : string) : hasHttpPrefix s = true -> s <> ""%string.
Proof. intros H ->. discriminate H. Qed.

Section Idempotence.
Variable w : World.

(** What the [URL] class guarantees: parsing the serialisation of a parsed
    address gives the same address back; the serialisation of an
    [http(s)] address starts with its scheme and has no white space
    around it. *)
Hypothesis URL_roundtrip :
  forall s u, URL_new w s = Some u -> URL_new w (href u) = Some u.
Hypothesis URL_scheme :
  forall s u, hasHttpPrefix s = true -> URL_new w s = Some u -> hasHttpPrefix (href u) = true.
Hypothesis URL_trimmed :
  forall s u, URL_new w s = Some u -> trim (href u) = href u.

(** C9: an input that, once trimmed, does not start with [http://] or
    [https://] (in any letter case) is parsed with [https://] put in
    front; and normalising the result of a successful normalisation
    gives that result again. *)
Theorem normalizeUrl_prepends_idempotent :
  (forall input,
      input <> ""%string ->
      hasHttpPrefix (trim input) = false ->
      normalizeUrl w input
      = match URL_new w ("https://" ++ trim input)%string with
        | None => Err invalidUrl
        | Some url =>
            if Array_includes disallowedHosts (toLowerCase (hostname url))
            then Err hostNotAllowed
            else Ok (href url)
        end)
  /\ (forall x y, normalizeUrl w x = Ok y -> normalizeUrl w y = Ok y).
Proof.
  split.
  - intros input Hne Hp. unfold normalizeUrl, InputSchema_parse, withProto.
    destruct input as [|c input']; [contradiction Hne; reflexivity|].
    cbn [String.length Nat.leb]. cbv zeta. rewrite Hp. reflexivity.
  - intros x y. unfold normalizeUrl at 1. unfold InputSchema_parse.
    destruct (1 <=? String.length x)%nat; [|discriminate]. cbv zeta.
    destruct (URL_new w (withProto (trim x))) as [u|] eqn:Hu; [|discriminate].
    destruct (Array_includes disallowedHosts (toLowerCase (hostname u))) eqn:Hh;
      [discriminate|].
    intros Hy. inversion Hy; subst y. clear Hy.
    pose proof (URL_scheme _ (withProto_hasHttpPrefix (trim x)) Hu) as Hp.
    pose proof (URL_trimmed _ Hu) as Ht.
    pose proof (URL_roundtrip _ Hu) as Hr.
    unfold normalizeUrl, InputSchema_parse.
    destruct (href u) as [|c s] eqn:Hhref;
      [exfalso; exact (hasHttpPrefix_nonempty Hp eq_refl)|].
    cbn [String.length Nat.leb]. cbv zeta.
    rewrite Ht. unfold withProto. rewrite Hp, Hr, Hh, Hhref. reflexivity.
Qed.
End Idempotence.

Lemma normalizeUrl_prepends_idempotent_witness :
  normalizeUrl Demo.world_full "example.com/shop" = Ok "https://example.com/shop"%string
  /\ normalizeUrl Demo.world_full "https://example.com/shop" = Ok "https://example.com/shop"%string.
Proof.
  assert (H1 : normalizeUrl Demo.world_full "example.com/shop" = Ok "https://example.com/shop"%string)
    by (vm_compute; reflexivity).
  split; [exact H1|].
  refine (proj2 (@normalizeUrl_prepends_idempotent Demo.world_full _ _ _) _ _ H1).
  - intros s u Hu. destruct (Demo_URL_new_inv _ Hu) as (Hhref & _ & _).
    simpl in *. rewrite Hhref. exact Hu.
  - intros s u Hp Hu. destruct (Demo_URL_new_inv _ Hu) as (Hhref & _ & _).
    rewrite Hhref. exact Hp.
  - intros s u Hu. destruct (Demo_URL_new_inv _ Hu) as (Hhref & _ & Hc).
    rewrite Hhref. apply trim_id.
    exact (@allChars_impl Demo.urlChar (fun c => negb (isWhiteSpace c)) s urlChar_not_space Hc).
Defined.

Lemma report_issues_perm (inputUrl : string) (page : FetchResult) (d : Dom) (psi : Psi) :
  Permutation (issues (report inputUrl page d psi))
              (seo_issues (seoChecks d) ++ trustIssues (findTrustLinks d)
               ++ uxIssues (hasPrimaryCta d)).
Proof.
  unfold report; simpl.
  apply (sort_perm (fun i : Issue => severityRank (severity i))).
Qed.

Lemma in_push (c : bool) (prev extra : list Issue) (i : Issue) :
  In i (if c then prev ++ extra else prev) -> In i prev \/ In i extra.
Proof. destruct c; [apply in_app_or | left; assumption]. Qed.

Lemma in_push2 (c c' : bool) (prev extra extra' : list Issue) (i : Issue) :
  In i (if c then prev ++ extra else if c' then prev ++ extra' else prev) ->
  In i prev \/ In i extra \/ In i extra'.
Proof.
  destruct c; [|destruct c'].
  - intros H. apply in_app_or in H. tauto.
  - intros H. apply in_app_or in H. tauto.
  - tauto.
Qed.

(** No rule of the library produces an issue for the FAQ category. *)
Lemma no_faq_issue (inputUrl : string) (page : FetchResult) (d : Dom) (psi : Psi) :
  ~ In "trust.faq.missing"%string (map key (issues (report inputUrl page d psi))).
Proof.
  intros H. apply in_map_iff in H. destruct H as (i & Hk & Hi).
  apply (Permutation_in _ (report_issues_perm inputUrl page d psi)) in Hi.
  rewrite !in_app_iff in Hi. destruct Hi as [Hi|[Hi|Hi]].
  - unfold seoChecks in Hi. cbv zeta in Hi. simpl seo_issues in Hi.
    apply in_push in Hi. destruct Hi as [Hi|[<-|[]]]; [|discriminate Hk].
    apply in_push in Hi. destruct Hi as [Hi|[<-|[]]]; [|discriminate Hk].
    apply in_push in Hi. destruct Hi as [Hi|[<-|[]]]; [|discriminate Hk].
    apply in_push2 in Hi. destruct Hi as [Hi|[[<-|[]]|[<-|[]]]]; [|discriminate Hk ..].
    apply in_push2 in Hi. destruct Hi as [Hi|[[<-|[]]|[<-|[]]]]; [|discriminate Hk ..].
    repeat match type of Hi with
           | context [if ?c then _ else _] => destruct c
           end;
      simpl in Hi;
      repeat (destruct Hi as [Hi|Hi]; [subst i; discriminate Hk|]); exact Hi.
  - unfold trustIssues in Hi.
    destruct (findTrustLinks d) as [[] [] [] [] [] f]; simpl in Hi;
      repeat (destruct Hi as [Hi|Hi]; [subst i; discriminate Hk|]); exact Hi.
  - unfold uxIssues in Hi. destruct (hasPrimaryCta d); simpl in Hi;
      repeat (destruct Hi as [Hi|Hi]; [subst i; discriminate Hk|]); exact Hi.
Qed.

(** C4, as amended: for a page with an empty title, no meta description,
    exactly one H1, no canonical, no OpenGraph tag, no trust link and no
    call to action, the issues include seo.title.missing (high),
    seo.metadesc.missing (high), seo.canonical.missing (low),
    seo.opengraph.incomplete (low), the five trust entries
    trust.contact.missing, trust.shipping.missing, trust.returns.missing
    (high), trust.privacy.missing (medium) and trust.terms.missing (low),
    and ux.cta.unclear (medium); there is no entry for the FAQ category;
    the trust score is 100 - (3 x 15 + 8 + 3) = 44. *)
Theorem bare_page_issues
  (inputUrl : string) (page : FetchResult) (d : Dom) (psi : Psi) :
  textLen (dom_title d) = 0%nat ->
  dom_meta_description d = None ->
  List.length (dom_h1 d) = 1%nat ->
  dom_canonical d = None ->
  dom_og_title d = None ->
  dom_og_description d = None ->
  dom_og_image d = None ->
  findTrustLinks d
  = {| contact := false; shipping := false; returns := false;
       privacy := false; terms := false; faq := false |} ->
  hasPrimaryCta d = false ->
  let r := report inputUrl page d psi in
  (forall k sev,
      In (k, sev)
         [("seo.title.missing", high); ("seo.metadesc.missing", high);
          ("seo.canonical.missing", low); ("seo.opengraph.incomplete", low);
          ("trust.contact.missing", high); ("trust.shipping.missing", high);
          ("trust.returns.missing", high); ("trust.privacy.missing", medium);
          ("trust.terms.missing", low); ("ux.cta.unclear", medium)]%string ->
      exists i, In i (issues r) /\ key i = k /\ severity i = sev)
  /\ ~ In "trust.faq.missing"%string (map key (issues r))
  /\ trust (scores r) = 100 - (3 * 15 + 8 + 3)
  /\ trust (scores r) = 44.
Proof.
  intros Ht Hm Hh Hc Ho1 Ho2 Ho3 Htrust Hcta r.
  split; [|split; [apply no_faq_issue|]].
  - set (view := fun i : Issue => (key i, severity i)).
    assert (Hin : forall p,
               In p (map view (seo_issues (seoChecks d) ++ trustIssues (findTrustLinks d)
                               ++ uxIssues (hasPrimaryCta d))) ->
               exists i, In i (issues r) /\ key i = fst p /\ severity i = snd p).
    { intros p Hp. apply in_map_iff in Hp. destruct Hp as (i & <- & Hi).
      exists i. split; [|split; reflexivity].
      revert Hi. apply Permutation_in, Permutation_sym, report_issues_perm. }
    clearbody r.
    rewrite Htrust, Hcta in Hin.
    unfold seoChecks, uxIssues in Hin. cbv zeta in Hin.
    rewrite Ht, Hm, Hh, Hc, Ho1, Ho2, Ho3 in Hin.
    intros k sev Hk. apply (Hin (k, sev)). clear Hin.
    simpl in Hk.
    destruct (includes (toLowerCase (orEmpty (dom_robots d))) "noindex");
      simpl;
      repeat (destruct Hk as [Hk|Hk];
              [inversion Hk; subst k sev; repeat (first [left; reflexivity | right])|]);
      contradiction Hk.
  - unfold r, report; simpl. rewrite Htrust. split; reflexivity.
Qed.

Lemma bare_page_issues_witness :
  exists i,
    In i (issues (report "example.com/"
                    {| html := Demo.bare_html; finalUrl := "https://example.com/"; status := 200 |}
                    Demo.bare_dom (PsiError "fetch failed")))
    /\ key i = "trust.terms.missing"%string /\ severity i = low.
Proof.
  refine (proj1 (@bare_page_issues "example.com/"
                   {| html := Demo.bare_html; finalUrl := "https://example.com/"; status := 200 |}
                   Demo.bare_dom (PsiError "fetch failed")
                   eq_refl eq_refl eq_refl eq_refl eq_refl eq_refl eq_refl eq_refl eq_refl)
                "trust.terms.missing"%string low _).
  simpl. repeat (first [left; reflexivity | right]).
Defined.

(** C4 as stated fails: the page of the scenario gets five trust entries,
    not six; no [trust.faq.missing] is among its issues. *)
Lemma six_trust_entries_counterexample :
  exists r log,
    run (analyzeSite Demo.world_api_down "example.com/") = (Ok r, log)
    /\ cheerio_load Demo.world_api_down Demo.bare_html = Demo.bare_dom
    /\ textLen (dom_title Demo.bare_dom) = 0%nat
    /\ dom_meta_description Demo.bare_dom = None
    /\ List.length (dom_h1 Demo.bare_dom) = 1%nat
    /\ dom_canonical Demo.bare_dom = None
    /\ (dom_og_title Demo.bare_dom, dom_og_description Demo.bare_dom, dom_og_image Demo.bare_dom)
       = (None, None, None)
    /\ r_trust r
       = {| contact := false; shipping := false; returns := false;
            privacy := false; terms := false; faq := false |}
    /\ hasPrimaryCta Demo.bare_dom = false
    /\ trust (scores r) = 44
    /\ ~ (forall category,
             In category ["contact"; "shipping"; "returns"; "privacy"; "terms"; "faq"]%string ->
             In ("trust." ++ category ++ ".missing")%string (map key (issues r))).
Proof.
  assert (H : run (analyzeSite Demo.world_api_down "example.com/") = Demo.run_api_down)
    by (vm_compute; reflexivity).
  unfold Demo.run_api_down in H.
  eexists. eexists. split; [exact H|].
  repeat (split; [reflexivity|]).
  intros Hall.
  assert (Hfaq : In "faq"%string ["contact"; "shipping"; "returns"; "privacy"; "terms"; "faq"]%string)
    by (simpl; do 5 right; left; reflexivity).
  specialize (Hall "faq"%string Hfaq). simpl in Hall.
  repeat (destruct Hall as [Hall|Hall]; [discriminate Hall|]).
  exact Hall.
Qed.

(* ================================================================= *)
(** * The statements about the route handler *)

Import Route.

(** An attempt makes one request and never throws. *)
Lemma attempt_run (net : Net) (url : string) (maybeKey : option string) (log : list Target) :
  exists a : Attempt,
    attempt net url maybeKey log = (Ok a, (log ++ [PageSpeedApi (apiParams url maybeKey)])%list).
Proof.
  unfold attempt, try_catch, bind, fetch, await, lift, ret.
  destruct (net (List.length log) (PageSpeedApi (apiParams url maybeKey))) as [res|e];
    [|eexists; reflexivity].
  destruct (res_json res) as [j|e]; [|eexists; reflexivity].
  destruct (negb (res_ok res)); eexists; reflexivity.
Qed.

Lemma runPageSpeed_returns (net : Net) (url : string) (key : option string) (log : list Target) :
  exists ps log', Route.runPageSpeed net url key log = (Ok ps, log').
Proof.
  unfold Route.runPageSpeed, bind, ret.
  destruct (attempt_run net url key log) as (first & ->).
  destruct (negb (attempt_ok first) && keyGiven key && authFailure (attempt_error first)).
  - destruct (attempt_run net url None (log ++ [PageSpeedApi (apiParams url key)])) as (second & ->).
    destruct (attempt_ok second); eexists; eexists; reflexivity.
  - eexists; eexists; reflexivity.
Qed.




(** C3: when the page cannot be retrieved (the fetch or the reading of the
    body throws), [POST] still answers with a report, the one of the empty
    markup: the platform is the unknown one, the SEO fields are empty, every
    trust flag is false, no call to action is found, and no structured
    data, tracking or PWA finding is reported. *)
Theorem fetch_failure_degrades
  (w : Route.World) (body : ReqBody) (inputUrl : string) :
  Route.normalizeUrl (inputRaw body) = Some inputUrl ->
  (exists e, Route.net w 0%nat (Page inputUrl) = Err e)
  \/ (exists res e, Route.net w 0%nat (Page inputUrl) = Ok res /\ res_text res = Err e) ->
  exists r log,
    run (POST w (Ok body)) = (Ok (Reply200 r), log)
    /\ (exists httpStatus ps, r = Route.report w inputUrl "" httpStatus inputUrl ps)
    /\ Route.input r = inputUrl
    /\ Route.platform r = "Sconosciuta/Custom"%string
    /\ Route.r_seo r
       = {| Route.title := ""; Route.metaDesc := ""; Route.h1 := ""; Route.canonical := "";
            Route.robots := "";
            Route.openGraph := {| Route.ogTitle := ""; Route.ogDesc := ""; Route.ogImage := "" |} |}
    /\ Route.r_trust r
       = {| Route.contact := false; Route.shipping := false; Route.returns := false;
            Route.privacy := false; Route.terms := false; Route.faq := false |}
    /\ Route.ux (Route.scores r) = 92
    /\ In "ux.cta.unclear"%string (map Route.key (Route.issues r))
    /\ Route.schema (Route.tech r) = None
    /\ Route.tracking (Route.tech r) = None
    /\ Route.pwa (Route.tech r)
       = {| Route.available := false; Route.hasManifest := false;
            Route.hasServiceWorker := false |}.
Proof.
  intros Hn Hfail.
  assert (Hf : exists st, fetchMarkup w inputUrl [] = (Ok (""%string, st, inputUrl), [Page inputUrl])).
  { unfold fetchMarkup, bind, reify, fetch, ret.
    change (List.length (@nil Target)) with 0%nat.
    destruct Hfail as [(e & ->)|(res & e & -> & Ht)].
    - eexists. reflexivity.
    - rewrite Ht. eexists. reflexivity. }
  destruct Hf as (st & Hf).
  destruct (runPageSpeed_returns (Route.net w) (if truthy inputUrl then inputUrl else inputUrl)
              (Route.PAGESPEED_API_KEY w) [Page inputUrl]) as (ps & log & Hps).
  exists (Route.report w inputUrl "" st inputUrl ps), log.
  split.
  - unfold run, POST, try_catch, bind, await, lift, ret.
    rewrite Hn, Hf, Hps. reflexivity.
  - split; [exists st, ps; reflexivity|].
    unfold Route.report. cbn.
    repeat split; try reflexivity.
    right. right. left. reflexivity.
Qed.

Lemma fetch_failure_degrades_witness :
  exists r log,
    run (POST Demo.route_world (Ok Demo.route_body)) = (Ok (Reply200 r), log)
    /\ Route.platform r = "Sconosciuta/Custom"%string.
Proof.
  destruct (@fetch_failure_degrades Demo.route_world Demo.route_body "https://example.com")
    as (r & log & Hrun & _ & _ & Hplatform & _).
  - vm_compute. reflexivity.
  - left. exists Demo.fetch_failed. reflexivity.
  - exists r, log. split; assumption.
Defined.

(* ================================================================= *)
(** * Where the two pipelines differ *)

(** The rounding of the total is that of binary64: the four products of
    this example add up to a number just below 44.5, whose exact value is
    4450/100. *)
Example total_rounding_is_binary64 :
  Spec.total_with_performance 0 92 23 82 = 44
  /\ 35 * 0 + 30 * 92 + 20 * 23 + 15 * 82 = 4450.
Proof. split; vm_compute; reflexivity. Qed.

(** The library's [runPageSpeed] makes one request, whatever the answer. *)
Lemma lib_runPageSpeed_one_request
  (w : Lib.World) (url strategy : string) (log : list Target) :
  exists t, snd (Lib.runPageSpeed w url strategy log) = (log ++ [t])%list.
Proof.
  destruct (runPageSpeed_run w url strategy log) as (qs & ->).
  exists (PageSpeedApi qs). reflexivity.
Qed.

(** In the library a failed fetch of the page ends the analysis. *)
Lemma lib_fetch_failure_is_fatal (w : Lib.World) (inputUrl url : string) (e : JsError) :
  Lib.normalizeUrl w inputUrl = Ok url ->
  Lib.net w 0%nat (Page url) = Err e ->
  run (Lib.analyzeSite w inputUrl) = (Err (Thrown e), [Page url]).
Proof.
  intros Hn He.
  unfold run, Lib.analyzeSite, Lib.fetchHtml, bind, lift, fetch.
  rewrite Hn. simpl. rewrite He. reflexivity.
Qed.

(** The route handler weighs the scores otherwise, and gives no total when
    the PageSpeed call failed; its quick wins are the first three issues by
    rank, of any severity. *)
Lemma route_total_needs_pagespeed
  (w : Route.World) (inputUrl html : string) (httpStatus : option nat) (finalUrl : string)
  (e : string) (j : option Json) :
  Route.total (Route.scores (Route.report w inputUrl html httpStatus finalUrl (AttemptFailed e j)))
  = None.
Proof. reflexivity. Qed.

Example route_quickWins_with_low_severity :
  exists r log,
    Demo.route_run = (Ok (Reply200 r), log)
    /\ Route.total (Route.scores r) = Some (Route.weightedTotal 87 92 92 85)
    /\ Route.quickWins r
       = map Route.fix_
             [{| Route.key := "trust.shipping.missing"; Route.severity := Route.high;
                 Route.fix_ := "Aggiungi una pagina Spedizioni e linkala nel footer." |};
              {| Route.key := "ux.cta.unclear"; Route.severity := Route.medium;
                 Route.fix_ := "CTA poco chiara: aggiungi un bottone principale sopra la piega (es. “Scopri i prodotti”)." |};
              {| Route.key := "seo.canonical.missing"; Route.severity := Route.low;
                 Route.fix_ := "Manca la canonical (utile per evitare duplicazioni)." |}].
Proof. eexists. eexists. repeat split. Qed.

(* ================================================================= *)
(** * More facts about strings *)

Lemma string_app_assoc (a b c : string) : ((a ++ b) ++ c = a ++ (b ++ c))%string.
Proof. induction a as [|x a IH]; simpl; [reflexivity | rewrite IH; reflexivity]. Qed.

Lemma prefix_spec (p s : string) :
  String.prefix p s = true <-> exists r, s = (p ++ r)%string.
Proof.
  revert s. induction p as [|a p IH]; intros s; simpl.
  - split; [intros _; exists s; reflexivity | intros _; destruct s; reflexivity].
  - destruct s as [|b s]; simpl.
    + split; [discriminate | intros (r & Hr); discriminate Hr].
    + destruct (ascii_dec a b) as [->|Hn].
      * rewrite IH. split; intros (r & Hr); exists r; [rewrite Hr; reflexivity | inversion Hr; reflexivity].
      * split; [discriminate | intros (r & Hr); exfalso; apply Hn; congruence].
Qed.

(** [s.includes(p)] holds exactly when [s] is [a ++ p ++ b]. *)
Lemma includes_spec (s p : string) :
  includes s p = true <-> exists a b, s = (a ++ p ++ b)%string.
Proof.
  induction s as [|c s IH].
  - cbn [includes]. rewrite orb_false_r, prefix_spec. split.
    + intros (r & Hr). exists ""%string, r. exact Hr.
    + intros (a & b & H). destruct a; [exists b; exact H | discriminate H].
  - cbn [includes]. rewrite orb_true_iff, prefix_spec, IH. split.
    + intros [(r & Hr)|(a & b & H)].
      * exists ""%string, r. exact Hr.
      * exists (String c a), b. rewrite H. reflexivity.
    + intros (a & b & H). destruct a as [|x a].
      * left. exists b. exact H.
      * right. simpl in H. inversion H. exists a, b. reflexivity.
Qed.

Lemma includes_append (s p a b : string) :
  includes s p = true -> includes (a ++ s ++ b) p = true.
Proof.
  rewrite !includes_spec. intros (x & y & ->).
  exists (a ++ x)%string, (y ++ b)%string.
  rewrite !string_app_assoc. reflexivity.
Qed.

Lemma includes_trans (s p q : string) :
  includes s p = true -> includes p q = true -> includes s q = true.
Proof.
  rewrite !includes_spec. intros (a & b & ->) (x & y & ->).
  exists (a ++ x)%string, (y ++ b)%string.
  rewrite !string_app_assoc. reflexivity.
Qed.

Lemma toLowerCase_app (a b : string) :
  toLowerCase (a ++ b) = (toLowerCase a ++ toLowerCase b)%string.
Proof. induction a as [|x a IH]; simpl; [reflexivity | rewrite IH; reflexivity]. Qed.

Lemma lowerChar_idem (c : ascii) : lowerChar (lowerChar c) = lowerChar c.
Proof. destruct c as [[] [] [] [] [] [] [] []]; vm_compute; reflexivity. Qed.

Lemma toLowerCase_idem (s : string) : toLowerCase (toLowerCase s) = toLowerCase s.
Proof.
  induction s as [|c s IH]; simpl; [reflexivity|].
  rewrite lowerChar_idem, IH. reflexivity.
Qed.

(** What [trimEnd] leaves does not end in white space, and what it leaves
    of a string that does not start with white space does not either. *)
Lemma trimEnd_idem (s : string) : trimEnd (trimEnd s) = trimEnd s.
Proof.
  induction s as [|c s IH]; simpl; [reflexivity|].
  destruct (trimEnd s) as [|d t] eqn:E.
  - destruct (isWhiteSpace c) eqn:Ec; simpl; [reflexivity|]. rewrite Ec. reflexivity.
  - simpl. simpl in IH. rewrite IH. destruct (trimEnd t); [|reflexivity].
    destruct (isWhiteSpace d); [discriminate IH | reflexivity].
Qed.

Lemma trimStart_fixed (s : string) :
  match s with String c _ => isWhiteSpace c = false | EmptyString => True end ->
  trimStart s = s.
Proof. destruct s as [|c s]; simpl; [reflexivity|]. intros ->. reflexivity. Qed.

Lemma trimStart_head (s : string) :
  match trimStart s with String c _ => isWhiteSpace c = false | EmptyString => True end.
Proof.
  induction s as [|c s IH]; simpl; [exact I|].
  destruct (isWhiteSpace c) eqn:E; [exact IH | exact E].
Qed.

Lemma trimEnd_head (s : string) :
  match s with String c _ => isWhiteSpace c = false | EmptyString => True end ->
  match trimEnd s with String c _ => isWhiteSpace c = false | EmptyString => True end.
Proof.
  destruct s as [|c s]; simpl; [trivial|].
  intros Hc. destruct (trimEnd s); [rewrite Hc|]; exact Hc.
Qed.

Lemma trim_idem (s : string) : trim (trim s) = trim s.
Proof.
  unfold trim.
  rewrite (trimStart_fixed (trimEnd (trimStart s))).
  - apply trimEnd_idem.
  - apply trimEnd_head, trimStart_head.
Qed.

(* ================================================================= *)
(** * More about the library *)

Lemma push1 (c : bool) (prev : list Lib.Issue) (x : Lib.Issue) :
  (if c then prev ++ [x] else prev) = (prev ++ (if c then [x] else []))%list.
Proof. destruct c; [reflexivity | rewrite app_nil_r; reflexivity]. Qed.

Lemma push2 (c c' : bool) (prev : list Lib.Issue) (x y : Lib.Issue) :
  (if c then prev ++ [x] else if c' then prev ++ [y] else prev)
  = (prev ++ (if c then [x] else if c' then [y] else []))%list.
Proof. destruct c, c'; try reflexivity; rewrite app_nil_r; reflexivity. Qed.

(** The issues of [seoChecks], rule by rule. *)
Lemma seo_issues_eq (d : Dom) :
  Lib.seo_issues (seoChecks d)
  = ((if (textLen (dom_title d) =? 0)%nat then
        [{| Lib.key := "seo.title.missing"; Lib.severity := Lib.high;
            Lib.fix_ := "Aggiungi un <title> unico per la homepage." |}]
      else if ((textLen (dom_title d) <? 25) || (65 <? textLen (dom_title d)))%nat then
        [{| Lib.key := "seo.title.length"; Lib.severity := Lib.medium;
            Lib.fix_ := ("Ottimizza il title (attuale "
                         ++ string_of_nat (textLen (dom_title d)) ++ " caratteri).")%string |}]
      else [])
     ++ (if (textLen (orEmpty (dom_meta_description d)) =? 0)%nat then
           [{| Lib.key := "seo.metadesc.missing"; Lib.severity := Lib.high;
               Lib.fix_ := "Aggiungi meta description per aumentare CTR su Google." |}]
         else if ((textLen (orEmpty (dom_meta_description d)) <? 70)
                  || (170 <? textLen (orEmpty (dom_meta_description d))))%nat then
           [{| Lib.key := "seo.metadesc.length"; Lib.severity := Lib.medium;
               Lib.fix_ := ("Ottimizza la description (attuale "
                            ++ string_of_nat (textLen (orEmpty (dom_meta_description d)))
                            ++ " caratteri).")%string |}]
         else [])
     ++ (if (List.length (dom_h1 d) =? 0)%nat then
           [{| Lib.key := "seo.h1.missing"; Lib.severity := Lib.high;
               Lib.fix_ := "Inserisci un H1 chiaro (proposta di valore)." |}]
         else if (1 <? List.length (dom_h1 d))%nat then
           [{| Lib.key := "seo.h1.multiple"; Lib.severity := Lib.low;
               Lib.fix_ := "Mantieni 1 solo H1 principale per pagina." |}]
         else [])
     ++ (if negb (truthy (orEmpty (dom_canonical d))) then
           [{| Lib.key := "seo.canonical.missing"; Lib.severity := Lib.low;
               Lib.fix_ := "Imposta canonical per evitare duplicazioni." |}]
         else [])
     ++ (if includes (toLowerCase (orEmpty (dom_robots d))) "noindex" then
           [{| Lib.key := "seo.noindex"; Lib.severity := Lib.critical;
               Lib.fix_ := "Rimuovi noindex dalla homepage (se non voluto)." |}]
         else [])
     ++ (if negb (truthy (orEmpty (dom_og_title d)))
            || negb (truthy (orEmpty (dom_og_description d)))
            || negb (truthy (orEmpty (dom_og_image d))) then
           [{| Lib.key := "seo.opengraph.incomplete"; Lib.severity := Lib.low;
               Lib.fix_ := "Completa OpenGraph (og:title/og:description/og:image) per anteprime social." |}]
         else []))%list.
Proof.
  unfold seoChecks. cbv zeta. cbn [Lib.seo_issues].
  rewrite !push2, !push1. cbn [app]. rewrite <- !app_assoc. reflexivity.
Qed.

Local Open Scope string_scope.
Local Open Scope list_scope.

Section MoreSubseq.
Variable A : Type.
Import Spec.

Lemma Subseq_app (a b c e : list A) :
  Subseq a c -> Subseq b e -> Subseq (a ++ b) (c ++ e).
Proof.
  induction 1 as [l|x l1 l2 H IH|x l1 l2 H IH]; intros Hb; simpl.
  - induction l as [|y l IHl]; simpl; [exact Hb | constructor; exact IHl].
  - constructor. apply IH, Hb.
  - constructor. apply IH, Hb.
Qed.

Lemma Subseq_In (l1 l2 : list A) (x : A) : Subseq l1 l2 -> In x l1 -> In x l2.
Proof.
  induction 1 as [l|y l1 l2 H IH|y l1 l2 H IH]; simpl; intros Hx.
  - contradiction.
  - destruct Hx as [->|Hx]; [left; reflexivity | right; apply IH, Hx].
  - right. apply IH, Hx.
Qed.

Lemma Subseq_NoDup (l1 l2 : list A) : Subseq l1 l2 -> NoDup l2 -> NoDup l1.
Proof.
  induction 1 as [l|y l1 l2 H IH|y l1 l2 H IH]; intros Hn.
  - constructor.
  - inversion Hn; subst. constructor; [|apply IH; assumption].
    intros Hy. eapply Subseq_In in Hy; [|exact H]. contradiction.
  - inversion Hn; subst. apply IH; assumption.
Qed.

End MoreSubseq.

(** The keys of the findings, in the order of the rules. *)
Lemma discovered_keys_subseq (d : Dom) :
  Spec.Subseq
    (map Lib.key (Lib.seo_issues (seoChecks d) ++ trustIssues (findTrustLinks d)
                  ++ uxIssues (hasPrimaryCta d)))
    ["seo.title.missing"; "seo.title.length"; "seo.metadesc.missing"; "seo.metadesc.length";
     "seo.h1.missing"; "seo.h1.multiple"; "seo.canonical.missing"; "seo.noindex";
     "seo.opengraph.incomplete"; "trust.contact.missing"; "trust.shipping.missing";
     "trust.returns.missing"; "trust.privacy.missing"; "trust.terms.missing";
     "ux.cta.unclear"].
Proof.
  rewrite seo_issues_eq. unfold trustIssues, uxIssues.
  rewrite !map_app.
  change ["seo.title.missing"; "seo.title.length"; "seo.metadesc.missing"; "seo.metadesc.length";
          "seo.h1.missing"; "seo.h1.multiple"; "seo.canonical.missing"; "seo.noindex";
          "seo.opengraph.incomplete"; "trust.contact.missing"; "trust.shipping.missing";
          "trust.returns.missing"; "trust.privacy.missing"; "trust.terms.missing";
          "ux.cta.unclear"]%string
    with ((["seo.title.missing"; "seo.title.length"]
           ++ ["seo.metadesc.missing"; "seo.metadesc.length"]
           ++ ["seo.h1.missing"; "seo.h1.multiple"] ++ ["seo.canonical.missing"]
           ++ ["seo.noindex"] ++ ["seo.opengraph.incomplete"])
          ++ (["trust.contact.missing"] ++ ["trust.shipping.missing"]
              ++ ["trust.returns.missing"] ++ ["trust.privacy.missing"]
              ++ ["trust.terms.missing"])
          ++ ["ux.cta.unclear"])%list.
  repeat apply Subseq_app;
    repeat match goal with
           | |- context [if ?c then _ else _] => destruct c
           end;
    simpl; repeat constructor.
Qed.

Lemma rule_keys_NoDup :
  NoDup ["seo.title.missing"; "seo.title.length"; "seo.metadesc.missing"; "seo.metadesc.length";
         "seo.h1.missing"; "seo.h1.multiple"; "seo.canonical.missing"; "seo.noindex";
         "seo.opengraph.incomplete"; "trust.contact.missing"; "trust.shipping.missing";
         "trust.returns.missing"; "trust.privacy.missing"; "trust.terms.missing";
         "ux.cta.unclear"].
Proof.
  repeat (constructor;
          [simpl; intros H; repeat (destruct H as [H|H]; [discriminate H|]); exact H|]).
  constructor.
Qed.

Lemma length_if1 (A : Type) (c : bool) (x : A) :
  (List.length (if c then [x] else []) <= 1)%nat.
Proof. destruct c; simpl; lia. Qed.

Lemma length_if2 (A : Type) (c c' : bool) (x y : A) :
  (List.length (if c then [x] else if c' then [y] else []) <= 1)%nat.
Proof. destruct c, c'; simpl; lia. Qed.

Lemma seo_issues_length (d : Dom) : (List.length (Lib.seo_issues (seoChecks d)) <= 6)%nat.
Proof.
  rewrite seo_issues_eq, !length_app.
  change 6%nat with (1 + (1 + (1 + (1 + (1 + 1)))))%nat.
  repeat apply Nat.add_le_mono; first [apply length_if2 | apply length_if1].
Qed.

Lemma trustIssues_length (t : Lib.Trust) : (List.length (trustIssues t) <= 5)%nat.
Proof.
  unfold trustIssues. rewrite !length_app.
  change 5%nat with (1 + (1 + (1 + (1 + 1))))%nat.
  repeat apply Nat.add_le_mono; apply length_if1.
Qed.

Lemma uxIssues_length (b : bool) : (List.length (uxIssues b) <= 1)%nat.
Proof. destruct b; simpl; lia. Qed.

(** X1: the keys of the issues of a report are pairwise distinct, each rule
    firing at most once, and a report has at most twelve issues. *)
Theorem report_issue_keys_distinct
  (inputUrl : string) (page : FetchResult) (d : Dom) (psi : Psi) :
  NoDup (map Lib.key (Lib.issues (Lib.report inputUrl page d psi)))
  /\ (List.length (Lib.issues (Lib.report inputUrl page d psi)) <= 12)%nat.
Proof.
  pose proof (report_issues_perm inputUrl page d psi) as Hp.
  split.
  - eapply Permutation_NoDup; [apply Permutation_sym, Permutation_map, Hp|].
    eapply Subseq_NoDup; [apply discovered_keys_subseq | apply rule_keys_NoDup].
  - rewrite (Permutation_length Hp), !length_app.
    pose proof (seo_issues_length d). pose proof (trustIssues_length (findTrustLinks d)).
    pose proof (uxIssues_length (hasPrimaryCta d)). lia.
Qed.

(** Every finding is one of the fifteen the rules can make. *)
Lemma discovered_table (d : Dom) (i : Lib.Issue) :
  In i (Lib.seo_issues (seoChecks d) ++ trustIssues (findTrustLinks d)
        ++ uxIssues (hasPrimaryCta d)) ->
  In (Lib.key i, Lib.severity i)
     [("seo.title.missing", Lib.high); ("seo.title.length", Lib.medium);
      ("seo.metadesc.missing", Lib.high); ("seo.metadesc.length", Lib.medium);
      ("seo.h1.missing", Lib.high); ("seo.h1.multiple", Lib.low);
      ("seo.canonical.missing", Lib.low); ("seo.noindex", Lib.critical);
      ("seo.opengraph.incomplete", Lib.low); ("trust.contact.missing", Lib.high);
      ("trust.shipping.missing", Lib.high); ("trust.returns.missing", Lib.high);
      ("trust.privacy.missing", Lib.medium); ("trust.terms.missing", Lib.low);
      ("ux.cta.unclear", Lib.medium)].
Proof.
  rewrite seo_issues_eq. unfold trustIssues, uxIssues.
  intros H. split_in H;
    subst i; cbn [Lib.key Lib.severity];
    repeat (first [left; reflexivity | right]).
Qed.

(** X2: an issue of a report has the severity its key stands for, and it is
    critical exactly when it is the noindex finding. *)
Theorem issue_severity_by_key
  (inputUrl : string) (page : FetchResult) (d : Dom) (psi : Psi) (i : Lib.Issue) :
  In i (Lib.issues (Lib.report inputUrl page d psi)) ->
  In (Lib.key i, Lib.severity i)
     [("seo.title.missing", Lib.high); ("seo.title.length", Lib.medium);
      ("seo.metadesc.missing", Lib.high); ("seo.metadesc.length", Lib.medium);
      ("seo.h1.missing", Lib.high); ("seo.h1.multiple", Lib.low);
      ("seo.canonical.missing", Lib.low); ("seo.noindex", Lib.critical);
      ("seo.opengraph.incomplete", Lib.low); ("trust.contact.missing", Lib.high);
      ("trust.shipping.missing", Lib.high); ("trust.returns.missing", Lib.high);
      ("trust.privacy.missing", Lib.medium); ("trust.terms.missing", Lib.low);
      ("ux.cta.unclear", Lib.medium)]
  /\ (Lib.severity i = Lib.critical <-> Lib.key i = "seo.noindex").
Proof.
  intros Hi.
  assert (Ht := discovered_table d i
                  (Permutation_in _ (report_issues_perm inputUrl page d psi) Hi)).
  split; [exact Ht|].
  simpl in Ht.
  repeat (destruct Ht as [Ht|Ht];
          [inversion Ht as [[Hk Hs]]; split; intros H; congruence|]).
  contradiction.
Qed.

Lemma issue_severity_by_key_witness :
  let i := {| Lib.key := "seo.noindex"; Lib.severity := Lib.critical;
              Lib.fix_ := "Rimuovi noindex dalla homepage (se non voluto)." |} in
  In i (Lib.issues (Lib.report "example.com/" Samples.page Samples.noindex_dom
                      (PsiError "fetch failed")))
  /\ (Lib.severity i = Lib.critical <-> Lib.key i = "seo.noindex").
Proof.
  intros i.
  assert (H : In i (Lib.issues (Lib.report "example.com/" Samples.page Samples.noindex_dom
                                  (PsiError "fetch failed")))).
  { vm_compute. left. reflexivity. }
  split; [exact H|].
  exact (proj2 (@issue_severity_by_key "example.com/" Samples.page Samples.noindex_dom
                  (PsiError "fetch failed") i H)).
Defined.

Section FilterFacts.
Variable A : Type.
Variable f : A -> bool.

Lemma Permutation_filter (l l' : list A) :
  Permutation l l' -> Permutation (filter f l) (filter f l').
Proof.
  induction 1 as [|x l l' H IH|x y l|l l' l'' H1 IH1 H2 IH2]; simpl.
  - constructor.
  - destruct (f x); [constructor|]; exact IH.
  - destruct (f x), (f y); try apply Permutation_refl. constructor.
  - eapply Permutation_trans; eassumption.
Qed.

Lemma filter_all (l : list A) : Forall (fun x => f x = true) l -> filter f l = l.
Proof. induction 1 as [|x l Hx H IH]; simpl; [reflexivity|]. rewrite Hx, IH. reflexivity. Qed.

Lemma filter_none (l : list A) : Forall (fun x => f x = false) l -> filter f l = [].
Proof. induction 1 as [|x l Hx H IH]; simpl; [reflexivity|]. rewrite Hx. exact IH. Qed.
End FilterFacts.

Lemma scoreFromIssues_perm (l l' : list Lib.Issue) :
  Permutation l l' -> scoreFromIssues l = scoreFromIssues l'.
Proof.
  intros H. unfold scoreFromIssues. rewrite !penalties_sum.
  assert (E : forall m m' : list Z, Permutation m m' ->
                fold_right Z.add 0 m = fold_right Z.add 0 m').
  { induction 1; simpl; lia. }
  rewrite (E _ _ (Permutation_map (fun it => penalty (Lib.severity it)) H)).
  reflexivity.
Qed.

(** The key of a finding names the group of rules that made it. *)
Lemma seo_issue_keys (d : Dom) :
  Forall (fun i => String.prefix "seo." (Lib.key i) = true
                   /\ String.prefix "trust." (Lib.key i) = false
                   /\ String.prefix "ux." (Lib.key i) = false)
         (Lib.seo_issues (seoChecks d)).
Proof.
  apply Forall_forall. intros i H. rewrite seo_issues_eq in H.
  split_in H; subst i; repeat split.
Qed.

Lemma trust_issue_keys (t : Lib.Trust) :
  Forall (fun i => String.prefix "seo." (Lib.key i) = false
                   /\ String.prefix "trust." (Lib.key i) = true
                   /\ String.prefix "ux." (Lib.key i) = false)
         (trustIssues t).
Proof.
  apply Forall_forall. intros i H. unfold trustIssues in H.
  split_in H; subst i; repeat split.
Qed.

Lemma ux_issue_keys (b : bool) :
  Forall (fun i => String.prefix "seo." (Lib.key i) = false
                   /\ String.prefix "trust." (Lib.key i) = false
                   /\ String.prefix "ux." (Lib.key i) = true)
         (uxIssues b).
Proof.
  apply Forall_forall. intros i H. unfold uxIssues in H.
  split_in H; subst i; repeat split.
Qed.

Lemma Forall_weaken (A : Type) (P Q : A -> Prop) (l : list A) :
  (forall x, P x -> Q x) -> Forall P l -> Forall Q l.
Proof. intros H F. eapply Forall_impl; eassumption. Qed.

(** X3: the trust and UX scores of a report are the penalty scores of its
    issues whose key starts with [trust.] and with [ux.]; when the
    PageSpeed call failed, the SEO score is the penalty score of the issues
    whose key starts with [seo.]. *)
Theorem scores_follow_issues
  (inputUrl : string) (page : FetchResult) (d : Dom) (psi : Psi) :
  let r := Lib.report inputUrl page d psi in
  let group := fun p => filter (fun i => String.prefix p (Lib.key i)) (Lib.issues r) in
  Lib.trust (Lib.scores r) = scoreFromIssues (group "trust.")
  /\ Lib.ux (Lib.scores r) = scoreFromIssues (group "ux.")
  /\ (forall msg, psi = PsiError msg -> Lib.seo (Lib.scores r) = scoreFromIssues (group "seo.")).
Proof.
  intros r group.
  pose proof (seo_issue_keys d) as Hs.
  pose proof (trust_issue_keys (findTrustLinks d)) as Ht.
  pose proof (ux_issue_keys (hasPrimaryCta d)) as Hu.
  assert (Hg : forall p,
             scoreFromIssues (group p)
             = scoreFromIssues
                 (filter (fun i => String.prefix p (Lib.key i))
                         (Lib.seo_issues (seoChecks d) ++ trustIssues (findTrustLinks d)
                          ++ uxIssues (hasPrimaryCta d)))).
  { intros p. apply scoreFromIssues_perm, Permutation_filter, report_issues_perm. }
  rewrite !Hg, !filter_app. clear Hg.
  split; [|split].
  - rewrite (@filter_none _ _ (Lib.seo_issues (seoChecks d))),
            (@filter_all _ _ (trustIssues (findTrustLinks d))),
            (@filter_none _ _ (uxIssues (hasPrimaryCta d))).
    + rewrite app_nil_r. reflexivity.
    + eapply Forall_weaken; [|exact Hu]. simpl. tauto.
    + eapply Forall_weaken; [|exact Ht]. simpl. tauto.
    + eapply Forall_weaken; [|exact Hs]. simpl. tauto.
  - rewrite (@filter_none _ _ (Lib.seo_issues (seoChecks d))),
            (@filter_none _ _ (trustIssues (findTrustLinks d))),
            (@filter_all _ _ (uxIssues (hasPrimaryCta d))).
    + reflexivity.
    + eapply Forall_weaken; [|exact Hu]. simpl. tauto.
    + eapply Forall_weaken; [|exact Ht]. simpl. tauto.
    + eapply Forall_weaken; [|exact Hs]. simpl. tauto.
  - intros msg ->.
    rewrite (@filter_all _ _ (Lib.seo_issues (seoChecks d))),
            (@filter_none _ _ (trustIssues (findTrustLinks d))),
            (@filter_none _ _ (uxIssues (hasPrimaryCta d))).
    + rewrite app_nil_r. reflexivity.
    + eapply Forall_weaken; [|exact Hu]. simpl. tauto.
    + eapply Forall_weaken; [|exact Ht]. simpl. tauto.
    + eapply Forall_weaken; [|exact Hs]. simpl. tauto.
Qed.

Lemma scores_follow_issues_witness :
  Lib.seo (Lib.scores (Lib.report "example.com/" Samples.page Demo.bare_dom
                         (PsiError "fetch failed")))
  = scoreFromIssues
      (filter (fun i => String.prefix "seo." (Lib.key i))
              (Lib.issues (Lib.report "example.com/" Samples.page Demo.bare_dom
                             (PsiError "fetch failed")))).
Proof.
  exact (proj2 (proj2 (@scores_follow_issues "example.com/" Samples.page Demo.bare_dom
                         (PsiError "fetch failed")))
           "fetch failed" eq_refl).
Defined.

Lemma report_key_in (inputUrl : string) (page : FetchResult) (d : Dom) (psi : Psi) (k : string) :
  In k (map Lib.key (Lib.issues (Lib.report inputUrl page d psi)))
  <-> exists i, Lib.key i = k
                /\ In i (Lib.seo_issues (seoChecks d) ++ trustIssues (findTrustLinks d)
                         ++ uxIssues (hasPrimaryCta d)).
Proof.
  rewrite in_map_iff. split; intros (i & Hk & Hi); exists i; (split; [exact Hk|]).
  - exact (Permutation_in _ (report_issues_perm inputUrl page d psi) Hi).
  - exact (Permutation_in _ (Permutation_sym (report_issues_perm inputUrl page d psi)) Hi).
Qed.

(** X4: the trust flags, the UX score and the issue list of one report agree:
    a trust category other than the FAQ has its [missing] issue exactly
    when its flag is false, and the call-to-action issue is there exactly
    when the UX score is 92 and not 100. *)
Theorem trust_flags_match_issues
  (inputUrl : string) (page : FetchResult) (d : Dom) (psi : Psi) :
  let r := Lib.report inputUrl page d psi in
  let reported := fun k => In k (map Lib.key (Lib.issues r)) in
  (reported "trust.contact.missing" <-> Lib.contact (Lib.r_trust r) = false)
  /\ (reported "trust.shipping.missing" <-> Lib.shipping (Lib.r_trust r) = false)
  /\ (reported "trust.returns.missing" <-> Lib.returns (Lib.r_trust r) = false)
  /\ (reported "trust.privacy.missing" <-> Lib.privacy (Lib.r_trust r) = false)
  /\ (reported "trust.terms.missing" <-> Lib.terms (Lib.r_trust r) = false)
  /\ (reported "ux.cta.unclear" <-> Lib.ux (Lib.scores r) = 92)
  /\ (~ reported "ux.cta.unclear" <-> Lib.ux (Lib.scores r) = 100).
Proof.
  intros r reported. unfold reported, r.
  change (Lib.r_trust (Lib.report inputUrl page d psi)) with (findTrustLinks d).
  change (Lib.ux (Lib.scores (Lib.report inputUrl page d psi)))
    with (scoreFromIssues (uxIssues (hasPrimaryCta d))).
  assert (Hfound : forall (k : string) (i : Lib.Issue),
             Lib.key i = k ->
             In i (trustIssues (findTrustLinks d) ++ uxIssues (hasPrimaryCta d)) ->
             In k (map Lib.key (Lib.issues (Lib.report inputUrl page d psi)))).
  { intros k i Hk Hi. apply report_key_in. exists i. split; [exact Hk|].
    apply in_or_app. right. exact Hi. }
  repeat split; intros H;
    try (apply report_key_in in H; destruct H as (i & Hk & H);
         rewrite seo_issues_eq in H; unfold trustIssues, uxIssues in H;
         split_in H; subst i; try discriminate Hk;
         apply negb_true_iff; assumption);
    try (eapply Hfound; [|unfold trustIssues, uxIssues; rewrite H; find_in]; reflexivity).
  - apply report_key_in in H. destruct H as (i & Hk & H).
    rewrite seo_issues_eq in H. unfold trustIssues, uxIssues in H.
    split_in H; subst i; try discriminate Hk.
    destruct (hasPrimaryCta d); [discriminate|reflexivity].
  - destruct (hasPrimaryCta d) eqn:E; [discriminate H|].
    eapply Hfound; [|unfold uxIssues; find_in]. reflexivity.
  - destruct (hasPrimaryCta d) eqn:E; [reflexivity|].
    exfalso. apply H.
    eapply Hfound; [|unfold uxIssues; find_in]. reflexivity.
  - intros H'. apply report_key_in in H'. destruct H' as (i & Hk & H').
    rewrite seo_issues_eq in H'. unfold trustIssues, uxIssues in H'.
    split_in H'; subst i; try discriminate Hk.
    destruct (hasPrimaryCta d); discriminate.
Qed.

Lemma trust_flags_match_issues_witness :
  In "trust.contact.missing"
     (map Lib.key (Lib.issues (Lib.report "example.com/" Samples.page Demo.bare_dom
                                 (PsiError "fetch failed")))).
Proof.
  apply (proj2 (proj1 (@trust_flags_match_issues "example.com/" Samples.page Demo.bare_dom
                         (PsiError "fetch failed")))).
  vm_compute. reflexivity.
Defined.









Lemma critical_is_noindex (d : Dom) (i : Lib.Issue) :
  In i (Lib.seo_issues (seoChecks d) ++ trustIssues (findTrustLinks d)
        ++ uxIssues (hasPrimaryCta d)) ->
  Lib.severity i = Lib.critical ->
  i = {| Lib.key := "seo.noindex"; Lib.severity := Lib.critical;
         Lib.fix_ := "Rimuovi noindex dalla homepage (se non voluto)." |}.
Proof.
  rewrite seo_issues_eq. unfold trustIssues, uxIssues.
  intros H Hs. split_in H; subst i; try discriminate Hs; reflexivity.
Qed.

(** X6: when the robots directive of the page contains [noindex], in any
    letter case, the noindex finding is the first issue of the report and
    its remedy the first quick win. *)
Theorem noindex_reported_first
  (inputUrl : string) (page : FetchResult) (d : Dom) (psi : Psi) :
  includes (toLowerCase (orEmpty (dom_robots d))) "noindex" = true ->
  let r := Lib.report inputUrl page d psi in
  exists rest wins,
    Lib.issues r
    = {| Lib.key := "seo.noindex"; Lib.severity := Lib.critical;
         Lib.fix_ := "Rimuovi noindex dalla homepage (se non voluto)." |} :: rest
    /\ Lib.quickWins r = "Rimuovi noindex dalla homepage (se non voluto)." :: wins.
Proof.
  intros Hn r.
  set (noindex := {| Lib.key := "seo.noindex"; Lib.severity := Lib.critical;
                     Lib.fix_ := "Rimuovi noindex dalla homepage (se non voluto)." |}).
  pose proof (report_issues_perm inputUrl page d psi) as Hp.
  pose proof (report_issues_sorted inputUrl page d psi) as Hs.
  assert (Hin : In noindex (Lib.issues r)).
  { apply (Permutation_in _ (Permutation_sym Hp)).
    rewrite seo_issues_eq, Hn.
    apply in_or_app. left. rewrite !in_app_iff. simpl. tauto. }
  assert (Hq : Lib.quickWins r
               = map Lib.fix_
                   (firstn 7
                      (filter (fun i => existsb (Severity_eqb (Lib.severity i))
                                                [Lib.critical; Lib.high; Lib.medium])
                              (Lib.issues r)))) by reflexivity.
  fold r in Hp, Hs. clearbody r.
  destruct (Lib.issues r) as [|h rest] eqn:E; [contradiction|].
  assert (Hh : h = noindex).
  { apply (critical_is_noindex d).
    - apply (Permutation_in _ Hp). left. reflexivity.
    - destruct Hin as [->|Hin]; [reflexivity|].
      inversion Hs as [|? ? _ Hall]; subst.
      rewrite Forall_forall in Hall. specialize (Hall _ Hin).
      destruct (Lib.severity h); simpl in Hall; try lia. reflexivity. }
  subst h. exists rest. eexists. split; [reflexivity|].
  rewrite Hq. simpl. reflexivity.
Qed.

Lemma noindex_reported_first_witness :
  exists rest wins,
    Lib.issues (Lib.report "example.com/" Samples.page Samples.noindex_dom
                  (PsiError "fetch failed"))
    = {| Lib.key := "seo.noindex"; Lib.severity := Lib.critical;
         Lib.fix_ := "Rimuovi noindex dalla homepage (se non voluto)." |} :: rest
    /\ Lib.quickWins (Lib.report "example.com/" Samples.page Samples.noindex_dom
                        (PsiError "fetch failed"))
       = "Rimuovi noindex dalla homepage (se non voluto)." :: wins.
Proof.
  apply (@noindex_reported_first "example.com/" Samples.page Samples.noindex_dom
           (PsiError "fetch failed")).
  vm_compute. reflexivity.
Defined.

Lemma sum_app (l l' : list Z) :
  fold_right Z.add 0 (l ++ l') = fold_right Z.add 0 l + fold_right Z.add 0 l'.
Proof. induction l as [|x l IH]; simpl; lia. Qed.

Lemma if1_penalty (c : bool) (x : Lib.Issue) :
  0 <= fold_right Z.add 0 (map (fun it => penalty (Lib.severity it)) (if c then [x] else []))
    <= penalty (Lib.severity x).
Proof. destruct c; simpl; destruct (Lib.severity x); simpl; lia. Qed.

Lemma if2_penalty (c c' : bool) (x y : Lib.Issue) :
  0 <= fold_right Z.add 0
         (map (fun it => penalty (Lib.severity it)) (if c then [x] else if c' then [y] else []))
    <= Z.max (penalty (Lib.severity x)) (penalty (Lib.severity y)).
Proof.
  destruct c, c'; simpl; destruct (Lib.severity x); simpl;
    destruct (Lib.severity y); simpl; lia.
Qed.

(** The SEO rules take at most 15 + 15 + 15 + 3 + 25 + 3 = 76 points. *)
Lemma seo_penalty_score (d : Dom) : 24 <= scoreFromIssues (Lib.seo_issues (seoChecks d)) <= 100.
Proof.
  unfold scoreFromIssues. rewrite penalties_sum, seo_issues_eq.
  rewrite !map_app, !sum_app.
  repeat match goal with
         | |- context [fold_right Z.add 0 (map ?f (if ?c then [?x] else if ?c' then [?y] else []))] =>
             generalize (if2_penalty c c' x y);
             generalize (fold_right Z.add 0 (map f (if c then [x] else if c' then [y] else [])));
             cbn [Lib.severity penalty]; intros ? ?
         end;
  repeat match goal with
         | |- context [fold_right Z.add 0 (map ?f (if ?c then [?x] else []))] =>
             generalize (if1_penalty c x);
             generalize (fold_right Z.add 0 (map f (if c then [x] else [])));
             cbn [Lib.severity penalty]; intros ? ?
         end.
  lia.
Qed.

Lemma total3_floor_check :
  let ts := map (fun t => (0.25 * Number t)%float)
                [100; 97; 92; 89; 85; 82; 77; 74; 70; 67; 62; 59; 55; 52; 47; 44] in
  let us := map (fun u => (0.35 * Number u)%float) [92; 100] in
  let ss := map (fun s => (0.4 * Number s)%float) (map Z.of_nat (seq 24 77)) in
  forallb (fun a => forallb (fun b => forallb (fun c =>
    (53 <=? Math_round_shift (a + b + c)%float)%Z) ts) us) ss = true.
Proof. vm_cast_no_check (eq_refl true). Qed.

(** X7: a report made without PageSpeed data has an SEO score of at least
    24, a trust score of at least 44, a UX score of 92 or 100, and a total
    of at least 53: the rules cannot take more from a page. *)
Theorem fallback_score_floors
  (inputUrl : string) (page : FetchResult) (d : Dom) (msg : string) :
  let s := Lib.scores (Lib.report inputUrl page d (PsiError msg)) in
  24 <= Lib.seo s <= 100
  /\ 44 <= Lib.trust s <= 100
  /\ (Lib.ux s = 92 \/ Lib.ux s = 100)
  /\ 53 <= Lib.total s <= 100.
Proof.
  intros s. unfold s. clear s.
  change (Lib.seo (Lib.scores (Lib.report inputUrl page d (PsiError msg))))
    with (scoreFromIssues (Lib.seo_issues (seoChecks d))).
  change (Lib.trust (Lib.scores (Lib.report inputUrl page d (PsiError msg))))
    with (scoreFromIssues (trustIssues (findTrustLinks d))).
  change (Lib.ux (Lib.scores (Lib.report inputUrl page d (PsiError msg))))
    with (scoreFromIssues (uxIssues (hasPrimaryCta d))).
  change (Lib.total (Lib.scores (Lib.report inputUrl page d (PsiError msg))))
    with (Spec.total_without_performance
            (scoreFromIssues (Lib.seo_issues (seoChecks d)))
            (scoreFromIssues (uxIssues (hasPrimaryCta d)))
            (scoreFromIssues (trustIssues (findTrustLinks d)))).
  pose proof (seo_penalty_score d) as Hs.
  pose proof (trust_score_values (findTrustLinks d)) as Ht.
  pose proof (ux_score_values (hasPrimaryCta d)) as Hu.
  generalize dependent (scoreFromIssues (Lib.seo_issues (seoChecks d))). intros sv Hs.
  generalize dependent (scoreFromIssues (trustIssues (findTrustLinks d))). intros tv Ht.
  generalize dependent (scoreFromIssues (uxIssues (hasPrimaryCta d))). intros uv Hu.
  split; [exact Hs|].
  split; [simpl in Ht; lia|].
  split; [simpl in Hu; lia|].
  split; [|apply total3_range; [lia | exact Hu | exact Ht]].
  pose proof total3_floor_check as H. cbv zeta in H.
  rewrite forallb_forall in H.
  assert (Hin : In sv (map Z.of_nat (seq 24 77))).
  { rewrite <- (Z2Nat.id sv) by lia. apply in_map, in_seq. lia. }
  specialize (H _ (in_map (fun s => (0.4 * Number s)%float) _ _ Hin)).
  rewrite forallb_forall in H.
  specialize (H _ (in_map (fun u => (0.35 * Number u)%float) _ _ Hu)).
  rewrite forallb_forall in H.
  specialize (H _ (in_map (fun t => (0.25 * Number t)%float) _ _ Ht)).
  rewrite <- Math_round_shift_eq in H.
  apply Z.leb_le in H. exact H.
Qed.

Lemma penalty_sum_nonneg (l : list Lib.Issue) :
  0 <= fold_right Z.add 0 (map (fun it => penalty (Lib.severity it)) l).
Proof.
  induction l as [|i l IH]; cbn [map fold_right]; [lia|].
  destruct (Lib.severity i); cbn [penalty]; lia.
Qed.

Lemma penalty_sum_count (l : list Lib.Issue) :
  fold_right Z.add 0 (map (fun it => penalty (Lib.severity it)) l)
  = 25 * Z.of_nat (List.length (filter (fun i => Severity_eqb (Lib.severity i) Lib.critical) l))
    + 15 * Z.of_nat (List.length (filter (fun i => Severity_eqb (Lib.severity i) Lib.high) l))
    + 8 * Z.of_nat (List.length (filter (fun i => Severity_eqb (Lib.severity i) Lib.medium) l))
    + 3 * Z.of_nat (List.length (filter (fun i => Severity_eqb (Lib.severity i) Lib.low) l)).
Proof.
  induction l as [|i l IH]; [reflexivity|].
  cbn [map fold_right filter]. rewrite IH.
  destruct (Lib.severity i); cbn [Severity_eqb penalty List.length]; lia.
Qed.

(** X8: the penalty score depends on how many issues of each severity there
    are and not on their order: it is 100 - 25 c - 15 h - 8 m - 3 l, or 0
    when that is negative; more issues never raise it, and it is 100 only
    for the empty list. *)
Theorem scoreFromIssues_counts :
  (forall l : list Lib.Issue,
      let n := fun sev =>
        Z.of_nat (List.length (filter (fun i => Severity_eqb (Lib.severity i) sev) l)) in
      scoreFromIssues l
      = Z.max 0 (100 - 25 * n Lib.critical - 15 * n Lib.high - 8 * n Lib.medium - 3 * n Lib.low))
  /\ (forall l l' : list Lib.Issue, Permutation l l' -> scoreFromIssues l = scoreFromIssues l')
  /\ (forall l l' : list Lib.Issue, scoreFromIssues (l ++ l') <= scoreFromIssues l)
  /\ (forall l : list Lib.Issue, scoreFromIssues l = 100 <-> l = []).
Proof.
  split; [|split; [|split]].
  - intros l n. unfold scoreFromIssues. rewrite penalties_sum, penalty_sum_count.
    fold (n Lib.critical) (n Lib.high) (n Lib.medium) (n Lib.low).
    assert (0 <= n Lib.critical /\ 0 <= n Lib.high /\ 0 <= n Lib.medium /\ 0 <= n Lib.low)
      by (unfold n; lia).
    lia.
  - exact scoreFromIssues_perm.
  - intros l l'. unfold scoreFromIssues. rewrite !penalties_sum, map_app, sum_app.
    pose proof (penalty_sum_nonneg l'). lia.
  - intros l. split; [|intros ->; reflexivity].
    unfold scoreFromIssues. rewrite penalties_sum.
    destruct l as [|i l]; [reflexivity|]. cbn [map fold_right].
    pose proof (penalty_sum_nonneg l).
    destruct (Lib.severity i); cbn [penalty]; lia.
Qed.

Lemma scoreFromIssues_counts_witness :
  scoreFromIssues (trustIssues (findTrustLinks Demo.bare_dom))
  = scoreFromIssues (rev (trustIssues (findTrustLinks Demo.bare_dom))).
Proof.
  apply (proj1 (proj2 scoreFromIssues_counts)).
  apply Permutation_rev.
Defined.

(** What a successful fetch of the page went through. *)
Lemma fetchHtml_inv (w : Lib.World) (url : string) (page : FetchResult) (log1 : list Target) :
  fetchHtml w url [] = (Ok page, log1) ->
  exists res markup,
    Lib.net w 0%nat (Page url) = Ok res
    /\ includes (orEmpty (content_type res)) "text/html" = true
    /\ res_text res = Ok markup
    /\ page = {| html := markup; Lib.finalUrl := res_url res; status := JS.status res |}
    /\ log1 = [Page url].
Proof.
  unfold fetchHtml, bind, fetch, await, lift, throw, ret.
  change (List.length (@nil Target)) with 0%nat.
  destruct (Lib.net w 0%nat (Page url)) as [res|e] eqn:Hnet; [|discriminate].
  destruct (includes (orEmpty (content_type res)) "text/html") eqn:Ect; [|discriminate].
  cbn [negb].
  destruct (res_text res) as [markup|e] eqn:Ht; [|discriminate].
  intros H. inversion H; subst. exists res, markup.
  repeat split; try reflexivity; assumption.
Qed.

(** The query of the library's PageSpeed request. *)
Lemma runPageSpeed_log (w : Lib.World) (url strategy : string) (log1 : list Target) :
  snd (Lib.runPageSpeed w url strategy log1)
  = log1 ++ [PageSpeedApi
               ([("url", url); ("strategy", strategy);
                 ("category", "performance"); ("category", "seo");
                 ("category", "best-practices"); ("category", "accessibility")]
                ++ match Lib.PAGESPEED_API_KEY w with
                   | Some k => if truthy k then [("key", k)] else []
                   | None => []
                   end)].
Proof.
  assert (E : (if truthy (orEmpty (Lib.PAGESPEED_API_KEY w))
               then params_set "key" (orEmpty (Lib.PAGESPEED_API_KEY w))
                      (params_append "category" "accessibility"
                         (params_append "category" "best-practices"
                            (params_append "category" "seo"
                               (params_append "category" "performance"
                                  [("url", url); ("strategy", strategy)]))))
               else params_append "category" "accessibility"
                      (params_append "category" "best-practices"
                         (params_append "category" "seo"
                            (params_append "category" "performance"
                               [("url", url); ("strategy", strategy)]))))
              = [("url", url); ("strategy", strategy);
                 ("category", "performance"); ("category", "seo");
                 ("category", "best-practices"); ("category", "accessibility")]
                ++ match Lib.PAGESPEED_API_KEY w with
                   | Some k => if truthy k then [("key", k)] else []
                   | None => []
                   end).
  { destruct (Lib.PAGESPEED_API_KEY w) as [k|]; cbn [orEmpty]; [|reflexivity].
    destruct (truthy k); reflexivity. }
  unfold Lib.runPageSpeed, bind, fetch, await, lift, throw, ret. cbv zeta.
  rewrite E.
  destruct (Lib.net w (List.length log1) _) as [res|e]; [|reflexivity].
  destruct (negb (res_ok res)); [reflexivity|].
  destruct (res_json res); reflexivity.
Qed.

(** X9: a successful analysis makes two requests: the page at the normalised
    address, and the PageSpeed endpoint, asked about the address the page
    was finally served from (after redirects), for the mobile strategy and
    the four categories, with the API key when one is configured.  The
    report echoes the input as given and carries the final address and the
    HTTP status of the page. *)
Theorem analyzeSite_requests
  (w : Lib.World) (inputUrl : string) (r : Lib.Report) (log : list Target) :
  run (analyzeSite w inputUrl) = (Ok r, log) ->
  exists url res,
    Lib.normalizeUrl w inputUrl = Ok url
    /\ Lib.net w 0%nat (Page url) = Ok res
    /\ log = [Page url;
              PageSpeedApi
                ([("url", res_url res); ("strategy", "mobile");
                  ("category", "performance"); ("category", "seo");
                  ("category", "best-practices"); ("category", "accessibility")]
                 ++ match Lib.PAGESPEED_API_KEY w with
                    | Some k => if truthy k then [("key", k)] else []
                    | None => []
                    end)]
    /\ Lib.input r = inputUrl
    /\ Lib.r_finalUrl r = res_url res
    /\ Lib.httpStatus r = JS.status res.
Proof.
  intros H.
  destruct (analyzeSite_inv _ _ H) as (url & page & log1 & psi & Hn & Hf & _ & Hlog & ->).
  destruct (fetchHtml_inv _ _ Hf) as (res & markup & Hnet & _ & _ & -> & ->).
  exists url, res. split; [exact Hn|]. split; [exact Hnet|].
  split; [|repeat split].
  rewrite Hlog, runPageSpeed_log. reflexivity.
Qed.

Lemma analyzeSite_requests_witness :
  exists r log url res,
    run (analyzeSite Demo.world_full "example.com/") = (Ok r, log)
    /\ Lib.net Demo.world_full 0%nat (Page url) = Ok res
    /\ nth_error log 1
       = Some (PageSpeedApi
                 [("url", res_url res); ("strategy", "mobile");
                  ("category", "performance"); ("category", "seo");
                  ("category", "best-practices"); ("category", "accessibility");
                  ("key", "demo-key")]).
Proof.
  assert (H : run (analyzeSite Demo.world_full "example.com/") = Demo.run_full)
    by (vm_compute; reflexivity).
  unfold Demo.run_full in H.
  destruct (analyzeSite_requests _ _ H) as (url & res & _ & Hnet & Hlog & _).
  eexists. eexists. exists url, res.
  split; [exact H|]. split; [exact Hnet|].
  rewrite Hlog. reflexivity.
Defined.

(** X10: white space around the input does not change the outcome of the
    normalisation. *)
Theorem normalizeUrl_ignores_outer_space (w : Lib.World) (input : string) :
  trim input <> "" ->
  Lib.normalizeUrl w input = Lib.normalizeUrl w (trim input).
Proof.
  intros Hne. unfold Lib.normalizeUrl, InputSchema_parse.
  destruct input as [|c input']; [contradiction Hne; reflexivity|].
  pose proof (trim_idem (String c input')) as Hi.
  cbn [String.length Nat.leb]. cbv beta iota zeta.
  destruct (trim (String c input')) as [|c' t]; [contradiction Hne; reflexivity|].
  cbn [String.length Nat.leb]. cbv beta iota zeta. rewrite Hi. reflexivity.
Qed.

Lemma normalizeUrl_ignores_outer_space_witness :
  Lib.normalizeUrl Demo.world_full "  example.com/shop  "
  = Lib.normalizeUrl Demo.world_full "example.com/shop".
Proof.
  apply (@normalizeUrl_ignores_outer_space Demo.world_full "  example.com/shop  ").
  vm_compute. discriminate.
Defined.

(** X11: an input without any visible character is refused before any
    request: the empty string by the input schema, a run of white space
    as an invalid address, the parser being given the bare scheme
    [https://]. *)
Theorem normalizeUrl_blank (w : Lib.World) (input : string) :
  trim input = "" ->
  Lib.URL_new w "https://" = None ->
  exists e,
    Lib.normalizeUrl w input = Err e
    /\ (input = "" -> e = ZodError)
    /\ (input <> "" -> e = invalidUrl)
    /\ run (analyzeSite w input) = (Err e, []).
Proof.
  intros Ht Hu.
  assert (Hn : exists e,
             Lib.normalizeUrl w input = Err e
             /\ (input = "" -> e = ZodError) /\ (input <> "" -> e = invalidUrl)).
  { unfold Lib.normalizeUrl, InputSchema_parse.
    destruct input as [|c input'].
    - exists ZodError. split; [reflexivity|]. split; [reflexivity|].
      intros H. exfalso. apply H. reflexivity.
    - cbn [String.length Nat.leb]. cbv zeta. rewrite Ht.
      change (withProto "") with "https://". rewrite Hu.
      exists invalidUrl. split; [reflexivity|]. split; [discriminate|reflexivity]. }
  destruct Hn as (e & He & H1 & H2). exists e.
  split; [exact He|]. split; [exact H1|]. split; [exact H2|].
  unfold run, analyzeSite, bind, lift. rewrite He. reflexivity.
Qed.

Lemma normalizeUrl_blank_witness :
  exists e,
    Lib.normalizeUrl Demo.world_full "   " = Err e
    /\ e = invalidUrl
    /\ run (analyzeSite Demo.world_full "   ") = (Err e, []).
Proof.
  destruct (@normalizeUrl_blank Demo.world_full "   ") as (e & He & _ & Hinv & Hrun).
  - vm_compute. reflexivity.
  - vm_compute. reflexivity.
  - exists e. split; [exact He|]. split; [apply Hinv; discriminate | exact Hrun].
Defined.

(** X12: a page whose content type does not contain [text/html], as written
    and in lower case, ends the analysis with an error that quotes the
    content type; the PageSpeed endpoint is not called. *)
Theorem non_html_is_refused
  (w : Lib.World) (inputUrl url : string) (res : HttpResponse) :
  Lib.normalizeUrl w inputUrl = Ok url ->
  Lib.net w 0%nat (Page url) = Ok res ->
  includes (orEmpty (content_type res)) "text/html" = false ->
  run (analyzeSite w inputUrl)
  = (Err (Thrown (Error ("La risorsa non è HTML (content-type: "
                         ++ orEmpty (content_type res) ++ ").")%string)),
     [Page url]).
Proof.
  intros Hn Hnet Hct.
  unfold run, analyzeSite, fetchHtml, bind, lift, fetch, throw.
  rewrite Hn. change (List.length (@nil Target)) with 0%nat.
  rewrite Hnet, Hct. reflexivity.
Qed.

Lemma non_html_is_refused_witness :
  run (analyzeSite Samples.world_pdf "example.com/catalogo.pdf")
  = (Err (Thrown (Error "La risorsa non è HTML (content-type: application/pdf).")),
     [Page "https://example.com/catalogo.pdf"]).
Proof.
  apply (@non_html_is_refused Samples.world_pdf "example.com/catalogo.pdf"
           "https://example.com/catalogo.pdf"
           (Samples.pdf_response "https://example.com/catalogo.pdf")).
  - vm_compute. reflexivity.
  - reflexivity.
  - vm_compute. reflexivity.
Defined.

(** X13: the [pagespeed] field of a report tells what the PageSpeed exchange
    gave: the message of the network error, [PageSpeed API error (status)]
    for an answer outside 200..299, the message of the JSON parser for an
    unreadable body, and the scores otherwise; the report has a
    performance score in the last case only. *)
Theorem pagespeed_outcome
  (w : Lib.World) (inputUrl : string) (r : Lib.Report) (log : list Target) (t : Target) :
  run (analyzeSite w inputUrl) = (Ok r, log) ->
  nth_error log 1%nat = Some t ->
  match Lib.net w 1%nat t with
  | Err e =>
      Lib.pagespeed r = PsiError (String_of_thrown (Thrown e))
      /\ Lib.performance (Lib.scores r) = None
  | Ok res =>
      if res_ok res then
        match res_json res with
        | Ok json =>
            (exists pr, Lib.pagespeed r = PsiData pr)
            /\ Lib.performance (Lib.scores r) = Some (percent (category_score json cat_performance))
        | Err e =>
            Lib.pagespeed r = PsiError (String_of_thrown (Thrown e))
            /\ Lib.performance (Lib.scores r) = None
        end
      else
        Lib.pagespeed r
        = PsiError ("PageSpeed API error (" ++ string_of_nat (JS.status res) ++ ")")%string
        /\ Lib.performance (Lib.scores r) = None
  end.
Proof.
  intros H Ht.
  destruct (analyzeSite_inv _ _ H) as (url & page & log1 & psi & Hn & Hf & Hpsi & Hlog & ->).
  pose proof (fetchHtml_log _ _ _ Hf) as Hl1. simpl in Hl1. subst log1.
  destruct (runPageSpeed_run w (Lib.finalUrl page) "mobile" [Page url]) as (qs & Hrun).
  rewrite Hrun in Hlog, Hpsi. cbn [fst snd] in Hlog, Hpsi. subst log.
  simpl in Ht. inversion Ht; subst t. clear Ht.
  change (List.length [Page url]) with 1%nat in Hpsi.
  destruct (Lib.net w 1%nat (PageSpeedApi qs)) as [res|e].
  - destruct (res_ok res); cbn [negb] in Hpsi.
    + destruct (res_json res) as [json|e]; subst psi.
      * split; [eexists; reflexivity | reflexivity].
      * split; reflexivity.
    + subst psi. split; reflexivity.
  - subst psi. split; reflexivity.
Qed.

Lemma pagespeed_outcome_witness :
  exists r log,
    run (analyzeSite Samples.world_quota "example.com/") = (Ok r, log)
    /\ Lib.pagespeed r = PsiError "PageSpeed API error (429)"
    /\ Lib.performance (Lib.scores r) = None.
Proof.
  assert (H : run (analyzeSite Samples.world_quota "example.com/") = Samples.run_quota)
    by (vm_compute; reflexivity).
  unfold Samples.run_quota in H.
  eexists. eexists. split; [exact H|].
  exact (pagespeed_outcome _ _ H eq_refl).
Defined.

(* ================================================================= *)
(** * Links, calls to action and the platform *)

Lemma existsb_incl (A : Type) (f : A -> bool) (l l' : list A) :
  incl l l' -> existsb f l = true -> existsb f l' = true.
Proof.
  intros Hi H. apply existsb_exists in H. destruct H as (x & Hx & Hf).
  apply existsb_exists. exists x. split; [apply Hi, Hx | exact Hf].
Qed.

Lemma trustLinks_incl (d d' : Dom) :
  incl (dom_a_button d) (dom_a_button d') -> incl (trustLinks d) (trustLinks d').
Proof.
  intros Hi l Hl. unfold trustLinks in *.
  apply in_flat_map in Hl. destruct Hl as (a & Ha & Hl).
  apply in_flat_map. exists a. split; [apply Hi, Ha | exact Hl].
Qed.

Lemma trust_score_mono (t t' : Lib.Trust) :
  (Lib.contact t = true -> Lib.contact t' = true) ->
  (Lib.shipping t = true -> Lib.shipping t' = true) ->
  (Lib.returns t = true -> Lib.returns t' = true) ->
  (Lib.privacy t = true -> Lib.privacy t' = true) ->
  (Lib.terms t = true -> Lib.terms t' = true) ->
  scoreFromIssues (trustIssues t) <= scoreFromIssues (trustIssues t').
Proof.
  destruct t as [c s r p m f], t' as [c' s' r' p' m' f']. cbn [Lib.contact Lib.shipping Lib.returns Lib.privacy Lib.terms].
  intros Hc Hs Hr Hp Hm.
  unfold scoreFromIssues, trustIssues. rewrite !penalties_sum, !map_app, !sum_app.
  cbn [Lib.contact Lib.shipping Lib.returns Lib.privacy Lib.terms].
  assert (B : forall (b b' : bool) (x : Lib.Issue),
             (b = true -> b' = true) ->
             0 <= fold_right Z.add 0
                    (map (fun it => penalty (Lib.severity it)) (if negb b' then [x] else []))
               <= fold_right Z.add 0
                    (map (fun it => penalty (Lib.severity it)) (if negb b then [x] else []))).
  { intros b b' x H. destruct b; [rewrite (H eq_refl)|destruct b']; simpl;
      destruct (Lib.severity x); simpl; lia. }
  repeat match goal with
         | H : ?b = true -> ?b' = true |- _ =>
             match goal with
             | |- context [fold_right Z.add 0 (map ?g (if negb b then [?x] else []))] =>
                 generalize (B b b' x H);
                 generalize (fold_right Z.add 0 (map g (if negb b then [x] else [])));
                 generalize (fold_right Z.add 0 (map g (if negb b' then [x] else [])));
                 clear H; intros ? ? ?
             end
         end.
  lia.
Qed.

(** X14: a page with more links and buttons never fares worse: each trust
    flag and the call to action found on a page are found on every page
    that has its links and buttons among its own, and the trust and UX
    scores do not go down. *)
Theorem more_links_never_hurt (d d' : Dom) :
  incl (dom_a_button d) (dom_a_button d') ->
  let t := findTrustLinks d in
  let t' := findTrustLinks d' in
  (Lib.contact t = true -> Lib.contact t' = true)
  /\ (Lib.shipping t = true -> Lib.shipping t' = true)
  /\ (Lib.returns t = true -> Lib.returns t' = true)
  /\ (Lib.privacy t = true -> Lib.privacy t' = true)
  /\ (Lib.terms t = true -> Lib.terms t' = true)
  /\ (Lib.faq t = true -> Lib.faq t' = true)
  /\ (hasPrimaryCta d = true -> hasPrimaryCta d' = true)
  /\ scoreFromIssues (trustIssues t) <= scoreFromIssues (trustIssues t')
  /\ scoreFromIssues (uxIssues (hasPrimaryCta d)) <= scoreFromIssues (uxIssues (hasPrimaryCta d')).
Proof.
  intros Hi t t'.
  pose proof (trustLinks_incl d d' Hi) as Hl.
  assert (Hc : Lib.contact t = true -> Lib.contact t' = true) by (apply existsb_incl, Hl).
  assert (Hs : Lib.shipping t = true -> Lib.shipping t' = true) by (apply existsb_incl, Hl).
  assert (Hr : Lib.returns t = true -> Lib.returns t' = true) by (apply existsb_incl, Hl).
  assert (Hp : Lib.privacy t = true -> Lib.privacy t' = true) by (apply existsb_incl, Hl).
  assert (Hm : Lib.terms t = true -> Lib.terms t' = true) by (apply existsb_incl, Hl).
  assert (Hf : Lib.faq t = true -> Lib.faq t' = true) by (apply existsb_incl, Hl).
  assert (Hcta : hasPrimaryCta d = true -> hasPrimaryCta d' = true).
  { unfold hasPrimaryCta. apply existsb_incl.
    intros x Hx. apply in_map_iff in Hx. destruct Hx as (a & <- & Ha).
    apply (in_map (fun el => toLowerCase (trim (Lib.text el)))), Hi, Ha. }
  repeat (split; [assumption|]).
  split; [apply trust_score_mono; assumption|].
  destruct (hasPrimaryCta d); [rewrite (Hcta eq_refl); reflexivity|].
  destruct (hasPrimaryCta d'); vm_compute; discriminate.
Qed.

Lemma more_links_never_hurt_witness :
  scoreFromIssues (trustIssues (findTrustLinks Demo.bare_dom))
  <= scoreFromIssues
       (trustIssues
          (findTrustLinks
             {| dom_title := ""; dom_meta_description := None; dom_h1 := [];
                dom_canonical := None; dom_robots := None; dom_og_title := None;
                dom_og_description := None; dom_og_image := None;
                dom_a_button := Samples.anchor "/privacy" "Privacy"
                                :: dom_a_button Demo.bare_dom |})).
Proof.
  refine (proj1 (proj2 (proj2 (proj2 (proj2 (proj2 (proj2 (proj2
            (@more_links_never_hurt Demo.bare_dom
               {| dom_title := ""; dom_meta_description := None; dom_h1 := [];
                  dom_canonical := None; dom_robots := None; dom_og_title := None;
                  dom_og_description := None; dom_og_image := None;
                  dom_a_button := Samples.anchor "/privacy" "Privacy"
                                  :: dom_a_button Demo.bare_dom |} _))))))))).
  intros a Ha. right. exact Ha.
Defined.

(** X15: only anchors with a non-blank [href] count as trust links: on a page
    whose links and buttons are all buttons, anchors without [href] or
    anchors with a blank [href], every trust flag is false, whatever the
    texts say, and the trust score is 44. *)
Theorem links_need_href (d : Dom) :
  (forall a, In a (dom_a_button d) ->
             Lib.tag a = tag_button \/ trim (orEmpty (attr_href a)) = "") ->
  findTrustLinks d
  = {| Lib.contact := false; Lib.shipping := false; Lib.returns := false;
       Lib.privacy := false; Lib.terms := false; Lib.faq := false |}
  /\ scoreFromIssues (trustIssues (findTrustLinks d)) = 44.
Proof.
  intros H.
  assert (E : trustLinks d = []).
  { unfold trustLinks. induction (dom_a_button d) as [|a l IH]; [reflexivity|].
    cbn [flat_map]. rewrite IH by (intros x Hx; apply H; right; exact Hx).
    rewrite app_nil_r.
    destruct (H a (or_introl eq_refl)) as [Ht|Hh].
    - rewrite Ht. reflexivity.
    - destruct (Lib.tag a); [|reflexivity].
      destruct (attr_href a) as [h|]; [|reflexivity].
      cbn [orEmpty] in Hh. rewrite Hh. reflexivity. }
  unfold findTrustLinks. rewrite E. split; reflexivity.
Qed.

Lemma links_need_href_witness :
  scoreFromIssues (trustIssues (findTrustLinks Samples.no_href_dom)) = 44.
Proof.
  refine (proj2 (@links_need_href Samples.no_href_dom _)).
  intros a Ha. simpl in Ha.
  destruct Ha as [<-|[<-|[]]]; [left; reflexivity | right; reflexivity].
Defined.

(** X16: the platform is decided by the first marker found, in the order
    Shopify, WooCommerce/WordPress, Magento, PrestaShop, BigCommerce: a
    Shopify marker wins whatever else surrounds it, in any letter case,
    and the unknown platform is reported only when no marker is there. *)
Theorem detectPlatform_priority (markup : string) :
  let h := toLowerCase markup in
  (includes h "cdn.shopify.com" = true \/ includes h "x-shopify" = true ->
   forall before after, Lib.detectPlatform (before ++ markup ++ after) = "Shopify")
  /\ (Lib.detectPlatform markup = "Sconosciuta/Custom" ->
      forall marker,
        In marker ["cdn.shopify.com"; "x-shopify"; "woocommerce"; "wp-content"; "magento";
                   "prestashop"; "bigcommerce"] ->
        includes h marker = false)
  /\ Lib.detectPlatform (toLowerCase markup) = Lib.detectPlatform markup
  /\ In (Lib.detectPlatform markup)
        ["Shopify"; "WooCommerce/WordPress"; "Magento"; "PrestaShop"; "BigCommerce";
         "Sconosciuta/Custom"].
Proof.
  intros h. split; [|split; [|split]].
  - intros H before after. unfold Lib.detectPlatform.
    rewrite !toLowerCase_app. fold h.
    destruct H as [H|H];
      rewrite (includes_append _ _ (toLowerCase before) (toLowerCase after) H).
    + reflexivity.
    + rewrite orb_true_r. reflexivity.
  - unfold Lib.detectPlatform. fold h. intros H marker Hm.
    destruct (includes h "cdn.shopify.com") eqn:?; [discriminate H|].
    destruct (includes h "x-shopify") eqn:?; [discriminate H|].
    destruct (includes h "woocommerce") eqn:?; [discriminate H|].
    destruct (includes h "wp-content") eqn:?; [discriminate H|].
    destruct (includes h "magento") eqn:?; [discriminate H|].
    destruct (includes h "prestashop") eqn:?; [discriminate H|].
    destruct (includes h "bigcommerce") eqn:?; [discriminate H|].
    simpl in Hm.
    repeat (destruct Hm as [<-|Hm]; [assumption|]). contradiction.
  - unfold Lib.detectPlatform. rewrite toLowerCase_idem. reflexivity.
  - unfold Lib.detectPlatform. fold h.
    destruct (includes h "cdn.shopify.com" || includes h "x-shopify"); [simpl; tauto|].
    destruct (includes h "woocommerce" || includes h "wp-content"); [simpl; tauto|].
    destruct (includes h "magento"); [simpl; tauto|].
    destruct (includes h "prestashop"); [simpl; tauto|].
    destruct (includes h "bigcommerce"); simpl; tauto.
Qed.

Lemma detectPlatform_priority_witness :
  Lib.detectPlatform
    ("<link href='/wp-content/a.css'>"
     ++ "<script src='https://CDN.Shopify.com/s/files/theme.js'></script>" ++ "</html>")
  = "Shopify".
Proof.
  apply (proj1 (detectPlatform_priority
                  "<script src='https://CDN.Shopify.com/s/files/theme.js'></script>")).
  left. vm_compute. reflexivity.
Defined.

(* ================================================================= *)
(** * More about the route handler *)





(** X18: for the route handler a page is a Shopify page exactly when its
    markup contains [shopify] in any letter case, the test for
    [cdn.shopify.com] adding nothing; every page the library takes for a
    Shopify page is one for the route handler too. *)
Theorem route_detectPlatform_shopify (markup : string) :
  (Route.detectPlatform markup = "Shopify" <-> includes (toLowerCase markup) "shopify" = true)
  /\ (Lib.detectPlatform markup = "Shopify" -> Route.detectPlatform markup = "Shopify")
  /\ In (Route.detectPlatform markup) ["Shopify"; "WordPress"; "Sconosciuta/Custom"].
Proof.
  set (h := toLowerCase markup).
  assert (Hcdn : includes h "cdn.shopify.com" = true -> includes h "shopify" = true).
  { intros H. apply (includes_trans _ _ _ H). reflexivity. }
  assert (Hx : includes h "x-shopify" = true -> includes h "shopify" = true).
  { intros H. apply (includes_trans _ _ _ H). reflexivity. }
  assert (Hiff : Route.detectPlatform markup = "Shopify" <-> includes h "shopify" = true).
  { unfold Route.detectPlatform. fold h.
    destruct (includes h "shopify") eqn:Es.
    - rewrite orb_true_r. split; reflexivity.
    - destruct (includes h "cdn.shopify.com") eqn:Ec; [specialize (Hcdn eq_refl); discriminate|].
      cbn [orb].
      destruct (includes h "wp-content" || includes h "wordpress"); split; discriminate. }
  split; [exact Hiff|]. split.
  - intros H. apply Hiff. unfold Lib.detectPlatform in H. fold h in H.
    destruct (includes h "cdn.shopify.com") eqn:Ec; [apply Hcdn; reflexivity|].
    destruct (includes h "x-shopify") eqn:Ex; [apply Hx; reflexivity|].
    cbn [orb] in H.
    destruct (includes h "woocommerce" || includes h "wp-content"); [discriminate H|].
    destruct (includes h "magento"); [discriminate H|].
    destruct (includes h "prestashop"); [discriminate H|].
    destruct (includes h "bigcommerce"); discriminate H.
  - unfold Route.detectPlatform. fold h.
    destruct (includes h "cdn.shopify.com" || includes h "shopify"); [simpl; tauto|].
    destruct (includes h "wp-content" || includes h "wordpress"); simpl; tauto.
Qed.

Lemma route_detectPlatform_shopify_witness :
  Route.detectPlatform "<meta name='x-shopify-stage' content='production'>" = "Shopify".
Proof.
  apply (proj1 (proj2 (route_detectPlatform_shopify
                         "<meta name='x-shopify-stage' content='production'>"))).
  vm_compute. reflexivity.
Defined.

(** The requests of the route handler's [runPageSpeed]: one, or two when
    the keyless retry is made. *)
Lemma route_runPageSpeed_log (net : Net) (url : string) (key : option string) (log : list Target) :
  exists ps log',
    Route.runPageSpeed net url key log = (Ok ps, log')
    /\ (log' = log ++ [PageSpeedApi (apiParams url key)]
        \/ log' = log ++ [PageSpeedApi (apiParams url key); PageSpeedApi (apiParams url None)]).
Proof.
  unfold Route.runPageSpeed, bind, ret.
  destruct (attempt_run net url key log) as (first & ->).
  destruct (negb (attempt_ok first) && keyGiven key && authFailure (attempt_error first)).
  - destruct (attempt_run net url None (log ++ [PageSpeedApi (apiParams url key)]))
      as (second & ->).
    rewrite <- app_assoc. cbn [app].
    destruct (attempt_ok second); eexists; eexists; (split; [reflexivity|]); right; reflexivity.
  - eexists; eexists. split; [reflexivity|]. left. reflexivity.
Qed.

(** X19: the route handler always answers: with status 500 and the message of
    the error when the body cannot be read, with status 400 when the input
    is blank, both without any request, and otherwise with a report for the
    normalised input, after the request for the page and one or two
    requests to the PageSpeed endpoint, whatever these requests give. *)
Theorem route_POST_always_answers (w : Route.World) (req : result JsError ReqBody) :
  exists reply log,
    run (POST w req) = (Ok reply, log)
    /\ match req with
       | Err e => reply = ReplyError 500 (message e) /\ log = []
       | Ok body =>
           match Route.normalizeUrl (inputRaw body) with
           | None => reply = ReplyError 400 "Missing domain/url" /\ log = []
           | Some inputUrl =>
               (exists r, reply = Reply200 r /\ Route.input r = inputUrl)
               /\ nth_error log 0 = Some (Page inputUrl)
               /\ (List.length log = 2 \/ List.length log = 3)%nat
           end
       end.
Proof.
  unfold run, POST, try_catch, bind, await, lift, ret.
  destruct req as [body|e]; [|eexists; eexists; split; [reflexivity|split; reflexivity]].
  destruct (Route.normalizeUrl (inputRaw body)) as [inputUrl|] eqn:Hn;
    [|eexists; eexists; split; [reflexivity|split; reflexivity]].
  assert (Hf : exists markup httpStatus finalUrl,
             fetchMarkup w inputUrl [] = (Ok (markup, httpStatus, finalUrl), [Page inputUrl])).
  { unfold fetchMarkup, bind, reify, fetch, ret.
    change (List.length (@nil Target)) with 0%nat.
    destruct (Route.net w 0%nat (Page inputUrl)) as [res|e];
      [destruct (res_text res)|]; eexists; eexists; eexists; reflexivity. }
  destruct Hf as (markup & httpStatus & finalUrl & Hf). rewrite Hf.
  destruct (route_runPageSpeed_log (Route.net w) (if truthy finalUrl then finalUrl else inputUrl)
              (Route.PAGESPEED_API_KEY w) [Page inputUrl]) as (ps & log' & Hps & Hlog).
  rewrite Hps. eexists. eexists. split; [reflexivity|].
  split; [eexists; split; reflexivity|].
  destruct Hlog as [-> | ->]; split; try reflexivity; [left | right]; reflexivity.
Qed.

Lemma computeTrustScore_shipping (t : Route.Trust) :
  computeTrustScore t = if Route.shipping t then 100 else 85.
Proof. unfold computeTrustScore. destruct (Route.shipping t); reflexivity. Qed.

Lemma weightedTotal_check :
  let ts := map (fun t => (0.2 * Number t)%float) [85; 100] in
  let us := map (fun u => (0.2 * Number u)%float) [92; 100] in
  let ss := map (fun s => (0.25 * Number s)%float) (map Z.of_nat (seq 0 101)) in
  let ps := map (fun p => (0.35 * Number p)%float) (map Z.of_nat (seq 0 101)) in
  forallb (fun a => forallb (fun b => forallb (fun c => forallb (fun d =>
    let x := Math_round_shift (a + b + c + d)%float in
    (35 <=? x)%Z && (x <=? 100)%Z) ts) us) ss) ps = true.
Proof. vm_cast_no_check (eq_refl true). Qed.

Lemma weightedTotal_fixed_check :
  forallb (fun x => (weightedTotal x x x x =? x)%Z) (map Z.of_nat (seq 0 101)) = true.
Proof. vm_cast_no_check (eq_refl true). Qed.

Lemma weightedTotal_range (p s u t : Z) :
  0 <= p <= 100 -> 0 <= s <= 100 -> In u [92; 100] -> In t [85; 100] ->
  35 <= weightedTotal p s u t <= 100.
Proof.
  intros Hp Hs Hu Ht.
  pose proof weightedTotal_check as H. cbv zeta in H.
  rewrite forallb_forall in H.
  specialize (H _ (in_map (fun p => (0.35 * Number p)%float) _ _ (in_percent_range Hp))).
  rewrite forallb_forall in H.
  specialize (H _ (in_map (fun s => (0.25 * Number s)%float) _ _ (in_percent_range Hs))).
  rewrite forallb_forall in H.
  specialize (H _ (in_map (fun u => (0.2 * Number u)%float) _ _ Hu)).
  rewrite forallb_forall in H.
  specialize (H _ (in_map (fun t => (0.2 * Number t)%float) _ _ Ht)).
  rewrite <- Math_round_shift_eq in H.
  apply andb_true_iff in H. destruct H as [H1 H2].
  apply Z.leb_le in H1, H2. unfold weightedTotal. split; assumption.
Qed.

(** X20: the total of the route handler's report is there exactly when the
    PageSpeed result has both a performance and an SEO score; it is then
    round(0.35 performance + 0.25 seo + 0.2 ux + 0.2 trust), which lies
    between 35 and 100 for scores between 0 and 100; four equal scores
    give that score back. *)
Theorem route_total_spec
  (w : Route.World) (inputUrl markup : string) (httpStatus : option nat) (finalUrl : string)
  (ps : Attempt) :
  let sc := Route.scores (Route.report w inputUrl markup httpStatus finalUrl ps) in
  (Route.total sc = None <-> Route.performance sc = None \/ Route.seo sc = None)
  /\ (forall p s,
        Route.performance sc = Some p -> Route.seo sc = Some s ->
        Route.total sc = Some (weightedTotal p s (Route.ux sc) (Route.trust sc))
        /\ (0 <= p <= 100 -> 0 <= s <= 100 ->
            35 <= weightedTotal p s (Route.ux sc) (Route.trust sc) <= 100))
  /\ (forall x, 0 <= x <= 100 -> weightedTotal x x x x = x).
Proof.
  intros sc.
  assert (Ht : Route.total sc
               = match Route.performance sc, Route.seo sc with
                 | Some p, Some s => Some (weightedTotal p s (Route.ux sc) (Route.trust sc))
                 | _, _ => None
                 end) by reflexivity.
  assert (Hu : In (Route.ux sc) [92; 100]).
  { unfold sc, Route.report. cbn [Route.scores Route.ux].
    match goal with |- context [if ?c then _ else _] => destruct c end; simpl; tauto. }
  assert (Htr : In (Route.trust sc) [85; 100]).
  { unfold sc, Route.report. cbn [Route.scores Route.trust].
    rewrite computeTrustScore_shipping.
    match goal with |- context [if ?c then _ else _] => destruct c end; simpl; tauto. }
  clearbody sc.
  split; [|split].
  - rewrite Ht. destruct (Route.performance sc), (Route.seo sc); split; intros H;
      try discriminate; try reflexivity; try tauto; destruct H; discriminate.
  - intros p s Hp Hs. rewrite Ht, Hp, Hs. split; [reflexivity|].
    intros Rp Rs. apply weightedTotal_range; assumption.
  - intros x Hx.
    pose proof weightedTotal_fixed_check as H. rewrite forallb_forall in H.
    apply Z.eqb_eq. apply H. apply in_percent_range. exact Hx.
Qed.

Lemma route_total_spec_witness :
  let sc := Route.scores (Route.report Demo.route_world "https://example.com" "" None
                            "https://example.com" (AttemptOk Demo.json_full)) in
  Route.total sc = Some (weightedTotal 87 92 (Route.ux sc) (Route.trust sc))
  /\ 35 <= weightedTotal 87 92 (Route.ux sc) (Route.trust sc) <= 100.
Proof.
  intros sc.
  destruct (proj1 (proj2 (@route_total_spec Demo.route_world "https://example.com" "" None
                            "https://example.com" (AttemptOk Demo.json_full))) 87 92)
    as [Ht Hr].
  - vm_compute. reflexivity.
  - vm_compute. reflexivity.
  - split; [exact Ht | apply Hr; lia].
Defined.

(** The issue list of the route handler, rule by rule. *)
Lemma route_issues_eq
  (w : Route.World) (inputUrl markup : string) (httpStatus : option nat) (finalUrl : string)
  (ps : Attempt) :
  let r := Route.report w inputUrl markup httpStatus finalUrl ps in
  let titleLen := String.length (trim (Route.title (Route.r_seo r))) in
  let mdLen := String.length (trim (Route.metaDesc (Route.r_seo r))) in
  let h1Count := if truthy markup then Route.countTags w markup "h1" else 0%nat in
  Route.issues r
  = (if negb (Route.shipping (Route.r_trust r)) then
       [{| Route.key := "trust.shipping.missing"; Route.severity := Route.high;
           Route.fix_ := "Aggiungi una pagina Spedizioni e linkala nel footer." |}] else [])
    ++ (if ((0 <? titleLen) && (titleLen <? 25))%nat then
          [{| Route.key := "seo.title.length"; Route.severity := Route.medium;
              Route.fix_ := ("Titolo pagina troppo corto (attuale " ++ string_of_nat titleLen
                             ++ " caratteri).")%string |}] else [])
    ++ (if ((0 <? mdLen) && ((mdLen <? 70) || (160 <? mdLen)))%nat then
          [{| Route.key := "seo.metadesc.length"; Route.severity := Route.medium;
              Route.fix_ := ("Descrizione Google non ottimale (attuale " ++ string_of_nat mdLen
                             ++ " caratteri).")%string |}] else [])
    ++ (if (1 <? h1Count)%nat then
          [{| Route.key := "seo.h1.multiple"; Route.severity := Route.low;
              Route.fix_ := "Troppi titoli principali (H1): mantieni 1 solo H1 per pagina." |}]
        else [])
    ++ (if negb (truthy (Route.canonical (Route.r_seo r))) then
          [{| Route.key := "seo.canonical.missing"; Route.severity := Route.low;
              Route.fix_ := "Manca la canonical (utile per evitare duplicazioni)." |}] else [])
    ++ (if negb (Route.ux (Route.scores r) =? 100)%Z then
          [{| Route.key := "ux.cta.unclear"; Route.severity := Route.medium;
              Route.fix_ := "CTA poco chiara: aggiungi un bottone principale sopra la piega (es. “Scopri i prodotti”)." |}] else []).
Proof.
  cbv zeta. unfold Route.report. cbv zeta.
  cbn [Route.issues Route.r_trust Route.r_seo Route.scores Route.ux Route.shipping].
  match goal with
  | |- context [((if ?c then 100 else 92) =? 100)%Z] => destruct c
  end; reflexivity.
Qed.

Lemma route_ux_values
  (w : Route.World) (inputUrl markup : string) (httpStatus : option nat) (finalUrl : string)
  (ps : Attempt) :
  In (Route.ux (Route.scores (Route.report w inputUrl markup httpStatus finalUrl ps))) [92; 100].
Proof.
  unfold Route.report. cbn [Route.scores Route.ux].
  match goal with |- context [if ?c then _ else _] => destruct c end; simpl; tauto.
Qed.

(** Every issue of the route handler is one of the six its rules make. *)
Lemma route_issue_table
  (w : Route.World) (inputUrl markup : string) (httpStatus : option nat) (finalUrl : string)
  (ps : Attempt) (i : Route.Issue) :
  In i (Route.issues (Route.report w inputUrl markup httpStatus finalUrl ps)) ->
  In (Route.key i, Route.severity i)
     [("trust.shipping.missing", Route.high); ("seo.title.length", Route.medium);
      ("seo.metadesc.length", Route.medium); ("seo.h1.multiple", Route.low);
      ("seo.canonical.missing", Route.low); ("ux.cta.unclear", Route.medium)].
Proof.
  intros H.
  pose proof (route_issues_eq w inputUrl markup httpStatus finalUrl ps) as E.
  cbv zeta in E. rewrite E in H. clear E.
  split_in H; subst i; cbn [Route.key Route.severity];
    repeat (first [left; reflexivity | right]).
Qed.

(** X21: the trust flags, the scores and the issues of the route handler's
    report agree: the shipping issue is there exactly when the shipping
    flag is false, which is also when the trust score is 85 and not 100,
    no other flag counting; the call-to-action issue is there exactly when
    the UX score is 92; the keys follow the order of the rules, without
    repetition, each with the severity its rule gives. *)
Theorem route_report_consistency
  (w : Route.World) (inputUrl markup : string) (httpStatus : option nat) (finalUrl : string)
  (ps : Attempt) :
  let r := Route.report w inputUrl markup httpStatus finalUrl ps in
  let reported := fun k => In k (map Route.key (Route.issues r)) in
  (reported "trust.shipping.missing" <-> Route.shipping (Route.r_trust r) = false)
  /\ Route.trust (Route.scores r) = (if Route.shipping (Route.r_trust r) then 100 else 85)
  /\ (reported "ux.cta.unclear" <-> Route.ux (Route.scores r) = 92)
  /\ (reported "seo.canonical.missing" <-> Route.canonical (Route.r_seo r) = "")
  /\ Spec.Subseq (map Route.key (Route.issues r))
       ["trust.shipping.missing"; "seo.title.length"; "seo.metadesc.length";
        "seo.h1.multiple"; "seo.canonical.missing"; "ux.cta.unclear"]
  /\ NoDup (map Route.key (Route.issues r))
  /\ forall i, In i (Route.issues r) ->
               In (Route.key i, Route.severity i)
                  [("trust.shipping.missing", Route.high); ("seo.title.length", Route.medium);
                   ("seo.metadesc.length", Route.medium); ("seo.h1.multiple", Route.low);
                   ("seo.canonical.missing", Route.low); ("ux.cta.unclear", Route.medium)].
Proof.
  intros r reported. unfold reported. clear reported.
  pose proof (route_issues_eq w inputUrl markup httpStatus finalUrl ps) as E.
  cbv zeta in E. fold r in E.
  pose proof (route_ux_values w inputUrl markup httpStatus finalUrl ps) as Hu. fold r in Hu.
  assert (Ht : Route.trust (Route.scores r)
               = (if Route.shipping (Route.r_trust r) then 100 else 85)).
  { unfold r, Route.report. cbn [Route.scores Route.trust Route.r_trust].
    apply computeTrustScore_shipping. }
  clearbody r.
  assert (Hsub : Spec.Subseq (map Route.key (Route.issues r))
                   ["trust.shipping.missing"; "seo.title.length"; "seo.metadesc.length";
                    "seo.h1.multiple"; "seo.canonical.missing"; "ux.cta.unclear"]).
  { rewrite E, !map_app.
    change ["trust.shipping.missing"; "seo.title.length"; "seo.metadesc.length";
            "seo.h1.multiple"; "seo.canonical.missing"; "ux.cta.unclear"]
      with (["trust.shipping.missing"] ++ ["seo.title.length"] ++ ["seo.metadesc.length"]
            ++ ["seo.h1.multiple"] ++ ["seo.canonical.missing"] ++ ["ux.cta.unclear"]).
    repeat apply Subseq_app;
      match goal with
      | |- context [if ?c then _ else _] => destruct c
      end; simpl; repeat constructor. }
  split; [|split; [exact Ht|split; [|split; [|split; [exact Hsub|split]]]]].
  - rewrite E. split; intros H.
    + apply in_map_iff in H. destruct H as (i & Hk & H).
      split_in H; subst i; try discriminate Hk. apply negb_true_iff. assumption.
    + apply in_map_iff; eexists; (split; [|rewrite H; find_in]); reflexivity.
  - rewrite E. split; intros H.
    + apply in_map_iff in H. destruct H as (i & Hk & H).
      split_in H; subst i; try discriminate Hk.
      simpl in Hu. destruct Hu as [Hu|[Hu|[]]]; [symmetry; exact Hu|].
      rewrite <- Hu in *. discriminate.
    + apply in_map_iff; eexists; (split; [|rewrite H; find_in]); reflexivity.
  - rewrite E. split; intros H.
    + apply in_map_iff in H. destruct H as (i & Hk & H).
      split_in H; subst i; try discriminate Hk.
      match goal with
      | Hc : negb (truthy _) = true |- _ =>
          unfold truthy in Hc; rewrite negb_involutive in Hc; apply String.eqb_eq in Hc; exact Hc
      end.
    + apply in_map_iff; eexists; (split; [|rewrite H; find_in]); reflexivity.
  - eapply Subseq_NoDup; [exact Hsub|].
    repeat (constructor;
            [simpl; intros H; repeat (destruct H as [H|H]; [discriminate H|]); exact H|]).
    constructor.
  - intros i H. rewrite E in H. split_in H; subst i; cbn [Route.key Route.severity];
      repeat (first [left; reflexivity | right]).
Qed.

Lemma route_report_consistency_witness :
  In "trust.shipping.missing"
     (map Route.key
          (Route.issues (Route.report Demo.route_world "https://example.com" "" None
                           "https://example.com" (AttemptOk Demo.json_full)))).
Proof.
  apply (proj2 (proj1 (@route_report_consistency Demo.route_world "https://example.com" "" None
                         "https://example.com" (AttemptOk Demo.json_full)))).
  reflexivity.
Defined.

Lemma route_insert_high (x : Route.Issue) (l : list Route.Issue) :
  Route.severity x = Route.high ->
  JS.insert (fun a b => Route.severityRank (Route.severity a)
                        - Route.severityRank (Route.severity b))%Z x l
  = x :: l.
Proof.
  intros Hx. destruct l as [|y l]; [reflexivity|].
  cbn [JS.insert]. rewrite Hx.
  destruct (Route.severity y); reflexivity.
Qed.

(** X22: the quick wins of the route handler are the remedies of the first
    three issues by severity, low ones included: there are as many as
    there are issues, up to three, each is the remedy of an issue of the
    report, and when the shipping page is missing its remedy comes
    first. *)
Theorem route_quickWins_spec
  (w : Route.World) (inputUrl markup : string) (httpStatus : option nat) (finalUrl : string)
  (ps : Attempt) :
  let r := Route.report w inputUrl markup httpStatus finalUrl ps in
  List.length (Route.quickWins r) = Nat.min 3 (List.length (Route.issues r))
  /\ incl (Route.quickWins r) (map Route.fix_ (Route.issues r))
  /\ (Route.issues r = [] <-> Route.quickWins r = [])
  /\ (Route.shipping (Route.r_trust r) = false ->
      hd_error (Route.quickWins r)
      = Some "Aggiungi una pagina Spedizioni e linkala nel footer.").
Proof.
  intros r.
  set (rank := fun i : Route.Issue => Route.severityRank (Route.severity i)).
  assert (Hq : Route.quickWins r
               = map Route.fix_
                   (firstn 3 (Array_sort (fun a b => rank a - rank b)%Z (Route.issues r))))
    by reflexivity.
  pose proof (route_issues_eq w inputUrl markup httpStatus finalUrl ps) as E.
  cbv zeta in E. fold r in E. clearbody r.
  pose proof (sort_perm rank (Route.issues r)) as Hp.
  assert (Hlen : List.length (Route.quickWins r) = Nat.min 3 (List.length (Route.issues r))).
  { rewrite Hq, length_map, length_firstn, (Permutation_length Hp). reflexivity. }
  split; [exact Hlen|]. split; [|split].
  - rewrite Hq. intros x Hx.
    apply (Permutation_in _ (Permutation_map Route.fix_ Hp)).
    revert Hx. apply Subseq_In, Subseq_map, Subseq_firstn.
  - split; intros H.
    + apply length_zero_iff_nil. rewrite Hlen, H. reflexivity.
    + apply length_zero_iff_nil. rewrite H in Hlen. simpl in Hlen.
      destruct (List.length (Route.issues r)); [reflexivity|discriminate Hlen].
  - intros Hs. rewrite Hq, E, Hs. cbn [negb app Array_sort fold_right].
    rewrite route_insert_high by reflexivity. reflexivity.
Qed.

Lemma route_quickWins_spec_witness :
  hd_error (Route.quickWins (Route.report Demo.route_world "https://example.com" "" None
                               "https://example.com" (AttemptOk Demo.json_full)))
  = Some "Aggiungi una pagina Spedizioni e linkala nel footer.".
Proof.
  apply (proj2 (proj2 (proj2 (@route_quickWins_spec Demo.route_world "https://example.com" ""
                                None "https://example.com" (AttemptOk Demo.json_full))))).
  reflexivity.
Defined.

(* ================================================================= *)
(** * Tracking, origins and labels *)

Lemma somewhere_impl (f g : string -> bool) (s : string) :
  (forall t, f t = true -> g t = true) ->
  Route.somewhere f s = true -> Route.somewhere g s = true.
Proof.
  intros Hfg. induction s as [|c s IH]; cbn [Route.somewhere]; intros H.
  - rewrite orb_false_r in *. apply Hfg, H.
  - apply orb_true_iff in H. apply orb_true_iff.
    destruct H as [H|H]; [left; apply Hfg, H | right; apply IH, H].
Qed.

Lemma includes_somewhere (s p : string) : includes s p = Route.somewhere (String.prefix p) s.
Proof.
  induction s as [|c s IH]; cbn [includes Route.somewhere]; [reflexivity|].
  rewrite IH. reflexivity.
Qed.

Lemma gtagConfig_gtag (x h : string) :
  Tracking.gtagConfig x h = true -> includes h "gtag(" = true.
Proof.
  rewrite includes_somewhere. unfold Tracking.gtagConfig. apply somewhere_impl.
  intros t H. apply andb_true_iff in H. destruct H as [H _].
  apply prefix_spec in H. destruct H as (r & ->). reflexivity.
Qed.

(** X23: in [detectTracking] every page that configures a tag through
    [gtag('config', ...)] is reported as using GA4, a Google Ads tag
    ([AW-]) included: the GA4 flag is set by any [gtag(] call, its third
    test adding nothing; and the flags do not depend on the letter case
    of the markup. *)
Theorem detectTracking_gtag (markup : string) :
  let h := toLowerCase markup in
  let t := Tracking.detectTracking markup in
  Route.ga4 t = includes h "gtag(" || Tracking.gtagJsId h
  /\ (Tracking.gtagConfig "'aw-" h = true -> Route.googleAds t = true /\ Route.ga4 t = true)
  /\ Tracking.detectTracking (toLowerCase markup) = t.
Proof.
  intros h t. unfold t, Tracking.detectTracking. fold h. cbv zeta.
  cbn [Route.ga4 Route.googleAds].
  split; [|split].
  - destruct (Tracking.gtagConfig "'g-" h) eqn:E.
    + rewrite (gtagConfig_gtag _ _ E). reflexivity.
    + rewrite orb_false_r. reflexivity.
  - intros H. rewrite H, (gtagConfig_gtag _ _ H), !orb_true_r. split; reflexivity.
  - unfold h. rewrite toLowerCase_idem. reflexivity.
Qed.

Lemma detectTracking_gtag_witness :
  Route.ga4 (Tracking.detectTracking "<script>gtag('config',  'AW-1234567');</script>") = true.
Proof.
  apply (proj1 (proj2 (detectTracking_gtag "<script>gtag('config',  'AW-1234567');</script>"))).
  vm_compute. reflexivity.
Defined.

Lemma Array_includes_In (l : list string) (x : string) :
  Array_includes l x = true <-> In x l.
Proof.
  unfold Array_includes. rewrite existsb_exists. split.
  - intros (y & Hy & E). apply String.eqb_eq in E. subst y. exact Hy.
  - intros H. exists x. split; [exact H | apply String.eqb_refl].
Qed.

(** [split] is undone by [join]. *)
Lemma split_comma_join (s : string) : String.concat "," (Cors.split_comma s) = s.
Proof.
  induction s as [|c s IH]; [reflexivity|].
  cbn [Cors.split_comma].
  destruct (nat_of_ascii c =? 44)%nat eqn:E.
  - apply Nat.eqb_eq in E.
    assert (Hc : c = ","%char).
    { rewrite <- (ascii_nat_embedding c), E. reflexivity. }
    subst c. cbn [String.concat].
    destruct (Cors.split_comma s) as [|p ps] eqn:Es.
    + destruct s; simpl in Es; [discriminate|].
      destruct (nat_of_ascii a =? 44)%nat; [discriminate|].
      destruct (Cors.split_comma s); discriminate.
    + rewrite IH. reflexivity.
  - destruct (Cors.split_comma s) as [|p ps] eqn:Es.
    + destruct s; simpl in Es; [discriminate|].
      destruct (nat_of_ascii a =? 44)%nat; [discriminate|].
      destruct (Cors.split_comma s); discriminate.
    + cbn [String.concat] in *. destruct ps; rewrite <- IH; reflexivity.
Qed.



(** X25: the route that calls the library always answers, with status 200 and
    the report when the analysis succeeds and with status 400 and the
    error in every other case: an unreadable body, a body without
    [domain] and [url], or a failed analysis; both answers carry the
    allowed origin. *)
Theorem cors_POST_status (w : Lib.World) (ALLOWED_ORIGINS : option string) (req : Cors.Request) :
  exists resp log,
    run (Cors.POST w ALLOWED_ORIGINS req) = (Ok resp, log)
    /\ In ("Access-Control-Allow-Origin",
           Cors.allowOrigin ALLOWED_ORIGINS (orEmpty (Cors.header_origin req)))
          (Cors.res_headers resp)
    /\ match Cors.req_json req with
       | Err e =>
           Cors.res_status resp = 400%nat /\ Cors.res_body resp = Some (Cors.ErrorBody (Thrown e))
           /\ log = []
       | Ok body =>
           match Cors.domainOf body with
           | None =>
               Cors.res_status resp = 400%nat /\ Cors.res_body resp = Some (Cors.ErrorBody ZodError)
               /\ log = []
           | Some d =>
               match run (analyzeSite w d) with
               | (Ok report, log') =>
                   Cors.res_status resp = 200%nat
                   /\ Cors.res_body resp = Some (Cors.ReportBody report) /\ log = log'
               | (Err e, log') =>
                   Cors.res_status resp = 400%nat
                   /\ Cors.res_body resp = Some (Cors.ErrorBody e) /\ log = log'
               end
           end
       end.
Proof.
  unfold run, Cors.POST, try_catch, bind, await, lift, throw, ret.
  destruct (Cors.req_json req) as [body|e].
  - destruct (Cors.domainOf body) as [d|].
    + destruct (analyzeSite w d []) as [[report|e] log'];
        eexists; eexists; (split; [reflexivity|]); (split; [right; left; reflexivity|]);
        repeat split.
    + eexists; eexists; (split; [reflexivity|]); (split; [right; left; reflexivity|]);
        repeat split.
  - eexists; eexists; (split; [reflexivity|]); (split; [right; left; reflexivity|]);
      repeat split.
Qed.

(** X26: a request for a disallowed host (localhost, 127.0.0.1, 0.0.0.0) is
    answered with status 400 and the validation error, without any
    request being made. *)
Theorem cors_POST_refuses_local
  (w : Lib.World) (ALLOWED_ORIGINS : option string) (req : Cors.Request)
  (body : ReqBody) (d : string) (u : Lib.URL) :
  Cors.req_json req = Ok body ->
  Cors.domainOf body = Some d ->
  d <> "" ->
  Lib.URL_new w (withProto (trim d)) = Some u ->
  In (toLowerCase (hostname u)) disallowedHosts ->
  exists resp,
    run (Cors.POST w ALLOWED_ORIGINS req) = (Ok resp, [])
    /\ Cors.res_status resp = 400%nat
    /\ Cors.res_body resp = Some (Cors.ErrorBody (Thrown (Error "Dominio non consentito."))).
Proof.
  intros Hb Hd Hne Hu Hin.
  assert (Hn : Lib.normalizeUrl w d = Err hostNotAllowed).
  { unfold Lib.normalizeUrl, InputSchema_parse.
    destruct d as [|c d']; [contradiction Hne; reflexivity|].
    cbn [String.length Nat.leb]. cbv beta iota zeta. rewrite Hu.
    apply Array_includes_In in Hin. rewrite Hin. reflexivity. }
  unfold run, Cors.POST, try_catch, bind, await, lift, throw, ret.
  rewrite Hb, Hd. unfold analyzeSite, bind, lift. rewrite Hn.
  eexists. split; [reflexivity|]. split; reflexivity.
Qed.

Lemma cors_POST_refuses_local_witness :
  exists resp,
    run (Cors.POST Demo.world_full Samples.ALLOWED_ORIGINS
           (Samples.request (Some "https://cucituradigitale.it") "http://localhost/admin"))
    = (Ok resp, [])
    /\ Cors.res_status resp = 400%nat.
Proof.
  destruct (@cors_POST_refuses_local Demo.world_full Samples.ALLOWED_ORIGINS
              (Samples.request (Some "https://cucituradigitale.it") "http://localhost/admin")
              {| body_domain := Some "http://localhost/admin"; body_url := None |}
              "http://localhost/admin"
              {| hostname := "localhost"; href := "http://localhost/admin" |})
    as (resp & Hrun & Hst & _).
  - reflexivity.
  - reflexivity.
  - discriminate.
  - vm_compute. reflexivity.
  - left. reflexivity.
  - exists resp. split; [exact Hrun | exact Hst].
Defined.

(** X27: every issue of the route handler's report has a label of its own on
    the page; of the issues of the library's report, those of eight keys
    fall back on the generic label; no issue key is read as an inherited
    member of the table. *)
Theorem issueLabel_coverage :
  (forall (w : Route.World) (inputUrl markup : string) (httpStatus : option nat)
          (finalUrl : string) (ps : Attempt) (i : Route.Issue),
      In i (Route.issues (Route.report w inputUrl markup httpStatus finalUrl ps)) ->
      exists label,
        Ui.issueLabel (Route.key i) = Some label /\ label <> "Suggerimento tecnico")
  /\ (forall (inputUrl : string) (page : FetchResult) (d : Dom) (psi : Psi) (i : Lib.Issue),
        In i (Lib.issues (Lib.report inputUrl page d psi)) ->
        (exists label, Ui.issueLabel (Lib.key i) = Some label)
        /\ (Ui.issueLabel (Lib.key i) = Some "Suggerimento tecnico"
            <-> In (Lib.key i)
                   ["seo.title.missing"; "seo.metadesc.missing"; "seo.h1.missing";
                    "seo.noindex"; "seo.opengraph.incomplete"; "trust.returns.missing";
                    "trust.privacy.missing"; "trust.terms.missing"])).
Proof.
  split.
  - intros w inputUrl markup httpStatus finalUrl ps i Hi.
    pose proof (route_issue_table _ _ _ _ _ _ _ Hi) as Ht. simpl in Ht.
    repeat (destruct Ht as [Ht|Ht];
            [inversion Ht as [[Hk Hs]]; eexists; split; [reflexivity|discriminate]|]).
    contradiction.
  - intros inputUrl page d psi i Hi.
    pose proof (discovered_table d i
                  (Permutation_in _ (report_issues_perm inputUrl page d psi) Hi)) as Ht.
    simpl in Ht.
    repeat (destruct Ht as [Ht|Ht];
            [inversion Ht as [[Hk Hs]];
             split; [eexists; reflexivity|];
             split; intros H;
             [first [discriminate H | simpl; tauto]
             |first [reflexivity
                    | simpl in H;
                      repeat (destruct H as [H|H]; [discriminate H|]); contradiction]]|]).
    contradiction.
Qed.

Lemma issueLabel_coverage_witness :
  exists label,
    Ui.issueLabel "trust.shipping.missing" = Some label /\ label <> "Suggerimento tecnico".
Proof.
  refine (proj1 issueLabel_coverage Demo.route_world "https://example.com" "" None
            "https://example.com" (AttemptOk Demo.json_full)
            {| Route.key := "trust.shipping.missing"; Route.severity := Route.high;
               Route.fix_ := "Aggiungi una pagina Spedizioni e linkala nel footer." |} _).
  left. reflexivity.
Defined.
